(** * The Pyomo backend of Calliope: model generation, solve and result extraction

    A shallow embedding of [calliope/backend/pyomo/model.py].  Python values
    are a small tagged union, floats are IEEE values ([spec_float]), attributes
    of the Pyomo model are a finite map from names to components, dictionaries
    that the code iterates are association lists in insertion order, and the
    functions that log, warn or swap the standard streams run in a state and
    error monad over an explicit [world]. *)

From Stdlib Require Import ZArith Ascii String List SpecFloat.
From stdpp Require Import base option gmap strings list fin_maps.

Open Scope string_scope.
Open Scope list_scope.

(** ** Python values *)

Inductive pyval :=
| PyNone
| PyBool (b : bool)
| PyInt (z : Z)
| PyFloat (f : spec_float)
| PyStr (s : string).

#[global] Instance spec_float_eq_dec : EqDecision spec_float.
Proof. solve_decision. Defined.

#[global] Instance pyval_eq_dec : EqDecision pyval.
Proof. solve_decision. Defined.

(** The float literal [0.0] and the two infinities. *)
Definition float_zero : spec_float := S754_zero false.
Definition float_inf : spec_float := S754_infinity false.
Definition float_neg_inf : spec_float := S754_infinity true.

(** [f == n] for a float [f] and an integer [n]: the exact value
    [(-1)^s * m * 2^e] is compared with [n]. *)
Definition float_eq_int (f : spec_float) (n : Z) : bool :=
  match f with
  | S754_zero _ => (n =? 0)%Z
  | S754_finite s m e =>
      let sign (z : Z) := if s then (- z)%Z else z in
      if (0 <=? e)%Z then (sign (Z.pos m * 2 ^ e) =? n)%Z
      else ((Z.pos m mod 2 ^ (- e) =? 0) && (sign (Z.pos m / 2 ^ (- e)) =? n))%Z
  | _ => false
  end.

(** Python's [v == n] against an integer literal. *)
Definition py_eq_int (v : pyval) (n : Z) : bool :=
  match v with
  | PyInt z => (z =? n)%Z
  | PyBool b => ((if b then 1 else 0) =? n)%Z
  | PyFloat f => float_eq_int f n
  | _ => false
  end.

(** [pandas.isnull] on a scalar.  [inf_as_na] is the pandas option
    [mode.use_inf_as_na]: when set, both infinities count as missing. *)
Definition isnull (inf_as_na : bool) (v : pyval) : bool :=
  match v with
  | PyNone => true
  | PyFloat S754_nan => true
  | PyFloat (S754_infinity _) => inf_as_na
  | _ => false
  end.

Definition is_infinite (v : pyval) : bool :=
  match v with
  | PyFloat (S754_infinity _) => true
  | _ => false
  end.

(** ** Coordinate labels and index tuples *)

Inductive label :=
| LStr (s : string)
| LInt (z : Z).

#[global] Instance label_eq_dec : EqDecision label.
Proof. solve_decision. Defined.

#[global] Instance label_countable : Countable label.
Proof.
  refine (inj_countable' (λ l, match l with LStr s => inl s | LInt z => inr z end)
                         (λ x, match x with inl s => LStr s | inr z => LInt z end) _).
  by intros [].
Defined.

(** One coordinate tuple; a family over a single dimension has tuples of
    length one. *)
Definition index := list label.

(** ** Exceptions and results *)

Inductive exn :=
| AttributeError (owner name : string)
| KeyError (key : string)
| Raised (cls msg : string).

(** The name of the Python class of an exception. *)
Definition exn_class (e : exn) : string :=
  match e with
  | AttributeError _ _ => "AttributeError"
  | KeyError _ => "KeyError"
  | Raised cls _ => cls
  end.

Inductive result (A : Type) :=
| Ok (a : A)
| Err (e : exn).
Arguments Ok {A} a.
Arguments Err {A} e.

Definition rbind {A B} (r : result A) (k : A → result B) : result B :=
  match r with
  | Ok a => k a
  | Err e => Err e
  end.

Declare Scope result_scope.
Delimit Scope result_scope with result.
Notation "'let?' x := r 'in' k" := (rbind r (λ x, k))
  (at level 10, x pattern, r at level 100, k at level 200) : result_scope.

(** A [for] loop over the items of a dictionary whose body may raise: the
    first exception leaves the loop. *)
Fixpoint for_items {K V S} (body : S → K → V → result S) (items : list (K * V))
    (s : S) : result S :=
  match items with
  | [] => Ok s
  | (k, v) :: rest =>
      match body s k v with
      | Ok s' => for_items body rest s'
      | Err e => Err e
      end
  end.

(** Dictionary lookup in an insertion-ordered dictionary. *)
Fixpoint dict_get {V} (d : list (string * V)) (k : string) : option V :=
  match d with
  | [] => None
  | (k', v) :: rest => if decide (k' = k) then Some v else dict_get rest k
  end.

(** ** The labelled input dataset *)

(** A dense labelled array: the dimension names, the labels along each
    dimension, the content of every cell (NaN where nothing is defined) and
    the array's attributes ([is_result], [operate_param], ...). *)
Record DataArray := mkDataArray {
  da_dims : list string;
  da_coords : list (list label);
  da_data : index → pyval;
  da_attrs : gmap string pyval }.

(** An option of [run_config.objective_options]: a scalar, or a dictionary
    such as the weights of [cost_class]. *)
Inductive optval :=
| OVal (v : pyval)
| ODict (d : list (string * pyval)).

(** [model_data.attrs["run_config"]] once parsed; an absent key is [None]. *)
Record RunConfig := mkRunConfig {
  rc_mode : option string;
  rc_objective : option string;
  rc_objective_options : option (list (string * optval));
  rc_bigM : option pyval }.

(** One family declaration of [model_data.attrs["imasks"]]. *)
Record Family := mkFamily {
  f_foreach : list string;
  f_domain : option string;
  f_bounds : option (list (string * pyval)) }.

Record ImaskConfig := mkImaskConfig {
  ic_variables : list (string * Family);
  ic_expressions : list (string * Family);
  ic_constraints : list (string * Family) }.

(** What [build_imasks] returns: for every family of each kind, its active
    coordinate tuples. *)
Record Imasks := mkImasks {
  im_variables : list (string * list index);
  im_expressions : list (string * list index);
  im_constraints : list (string * list index) }.

Record Dataset := mkDataset {
  ds_dims : list string;
  ds_coords : list (string * list label);
  ds_data_vars : list (string * DataArray);
  ds_defaults : gmap string pyval;
  ds_run_config : RunConfig;
  ds_imasks : ImaskConfig }.

(** The Cartesian product of the labels of the dimensions, first dimension
    outermost: the index of the series of an array that has dimensions. *)
Fixpoint product (axes : list (list label)) : list index :=
  match axes with
  | [] => [[]]
  | ax :: rest => x ← ax; (λ i, x :: i) <$> product rest
  end.

(** The cells of an array along the product of its coordinates. *)
Definition cells (a : DataArray) : list (index * pyval) :=
  (λ i, (i, da_data a i)) <$> product (da_coords a).

(** [DataArray.to_series()]: the cells of the array, indexed by the product
    of its coordinates.  An array without dimensions has no index to give to
    the series, and xarray raises instead. *)
Definition to_series (a : DataArray) : result (list (index * pyval)) :=
  match da_dims a with
  | [] => Err (Raised "ValueError" "no valid index for a 0-dimensional object")
  | _ :: _ => Ok (cells a)
  end.

(** [Series.dropna()] under the given setting of [mode.use_inf_as_na]. *)
Definition dropna (inf_as_na : bool) (s : list (index * pyval)) : list (index * pyval) :=
  filter (λ e, isnull inf_as_na e.2 = false) s.

(** [Series.to_dict()]: later entries replace earlier ones of the same key. *)
Definition to_dict (s : list (index * pyval)) : gmap index pyval :=
  foldl (λ d e, <[e.1 := e.2]> d) ∅ s.

(** ** The abstract model

    The rule functions of [calliope.backend.pyomo.constraints] return Pyomo
    expression objects; their algebra is not looked into here, so the two
    kinds of objects are type parameters: [nexpr] for what an expression rule
    returns and [rexpr] for what a constraint rule returns. *)

Section Backend.

Set Default Proof Using "Type".

Context {nexpr rexpr : Type}.

(** The content of one cell of a [po.Expression]: the constant it was
    initialised with, or what its rule returned. *)
Inductive body :=
| Const (f : spec_float)
| Term (t : nexpr).

(** A [po.Param] over the index sets [dims], with its keyword arguments:
    the index sets with their names, the sparse initialisation data, and the
    keyword arguments.  A parameter over no set is a scalar parameter, its
    value sits at the empty tuple. *)
Record Param := mkParam {
  p_index : list (string * list label);
  p_initialize : gmap index pyval;
  p_mutable : bool;
  p_within : string;
  p_default : option pyval }.

(** [po.Var(imask, domain=..., bounds=...)]; [v_bounds] is the configuration
    handed to [get_capacity_bounds], [v_value] the values a loaded solution
    gave to the active tuples. *)
Record Var := mkVar {
  v_index : list index;
  v_domain : string;
  v_bounds : option (list (string * pyval));
  v_value : gmap index pyval }.

Record Expression := mkExpression {
  e_index : list index;
  e_data : gmap index body }.

Record Constraint := mkConstraint {
  c_index : list index;
  c_data : gmap index rexpr }.

(** An attribute of the Pyomo model object: a component, one of the two
    configuration dictionaries, a plain option value, or something the
    [ConcreteModel] class brings along (a method, a property). *)
Inductive attr :=
| ASet (members : list label)
| AParam (p : Param)
| AVar (v : Var)
| AExpression (e : Expression)
| AConstraint (c : Constraint)
| ADefaults (d : gmap string pyval)
| ARunConfig (c : RunConfig)
| AOption (o : optval)
| ABuiltin (what : string).

Local Abbreviation model := (gmap string attr).

(** [hasattr(backend_model, k)] *)
Definition hasattr (m : model) (k : string) : bool := bool_decide (is_Some (m !! k)).

(** [setattr(backend_model, k, a)]: the name is bound to [a], whatever it
    was bound to.  What Pyomo does besides when it attaches a component (the
    names it refuses, the sets it adds for an index given as a list) is not
    part of this map; the properties that need a name to be free say so. *)
Definition setattr (m : model) (k : string) (a : attr) : model := <[k := a]> m.

(** The module [calliope.backend.pyomo.constraints] seen as a registry: the
    functions it defines, by attribute name. *)
Record Registry := mkRegistry {
  constraint_rules : gmap string (model → index → rexpr);
  expression_rules : gmap string (model → index → nexpr) }.

(** Collaborators that live in other modules. *)
Variable constraints : Registry.
Variable objective : gmap string (model → result model).
Variable get_domain : DataArray → string.

(** [hasattr(po, name)]: the names [pyomo.core] defines. *)
Variable po : string → bool.
Variable build_imasks : Dataset → ImaskConfig → result Imasks.
Variable convert_datetime : string → model → Dataset → model * Dataset.
Variable concrete_model : model.

(** [getattr(po, name)] for the name of a domain; the domain is kept by its
    name. *)
Definition getattr_po (name : string) : result string :=
  if po name then Ok name else Err (AttributeError "pyomo.core" name).

(** *** build_sets *)

Definition build_sets (model_data : Dataset) (backend_model : model) : model :=
  foldl (λ m c, setattr m c.1 (ASet c.2)) backend_model (ds_coords model_data).

(** *** build_params *)

(** The condition under which a data variable becomes a parameter. *)
Definition is_input (run_config : RunConfig) (v : DataArray) : result bool :=
  match da_attrs v !! "is_result" with
  | None => Err (KeyError "is_result")
  | Some r =>
      if py_eq_int r 0 then Ok true
      else if py_eq_int (default (PyInt 0) (da_attrs v !! "operate_param")) 1 then
        match rc_mode run_config with
        | None => Err (KeyError "mode")
        | Some mode => Ok (bool_decide (mode = "operate"))
        end
      else Ok false
  end.

(** [[getattr(backend_model, i) for i in v.dims]]; an index has to be a set. *)
Fixpoint index_sets (m : model) (dims : list string) : result (list (string * list label)) :=
  match dims with
  | [] => Ok []
  | i :: rest =>
      match m !! i with
      | None => Err (AttributeError "ConcreteModel" i)
      | Some (ASet members) =>
          match index_sets m rest with
          | Ok sets => Ok ((i, members) :: sets)
          | Err e => Err e
          end
      | Some _ => Err (Raised "TypeError" i)
      end
  end.

(** The keyword arguments of the parameter built from data variable [k]:
    the series without its missing entries, infinities counting as missing,
    the domain, and the default of [k] when the defaults have one that is
    not null; that last test runs outside the [option_context], so an
    infinite default is kept. *)
Definition param_of (defaults : gmap string pyval) (k : string)
    (series : list (index * pyval)) (within : string)
    (dims : list (string * list label)) : Param :=
  {| p_index := dims;
     p_initialize := to_dict (dropna true series);
     p_mutable := true;
     p_within := within;
     p_default :=
       match defaults !! k with
       | Some d => if isnull false d then None else Some d
       | None => None
       end |}.

(** The name under which the parameter of data variable [k] is stored. *)
Definition param_name (m : model) (k : string) : string :=
  if hasattr m k then "calliope_" +:+ k else k.

(** One turn of the loop over [model_data.data_vars.items()]: the series,
    the domain and the index sets are evaluated in this order, and the name
    is chosen last. *)
Definition declare_param (defaults : gmap string pyval) (run_config : RunConfig)
    (m : model) (k : string) (v : DataArray) : result model :=
  match is_input run_config v with
  | Err e => Err e
  | Ok false => Ok m
  | Ok true =>
      match to_series v with
      | Err e => Err e
      | Ok series =>
          match getattr_po (get_domain v) with
          | Err e => Err e
          | Ok within =>
              match index_sets m (da_dims v) with
              | Err e => Err e
              | Ok dims =>
                  Ok (setattr m (param_name m k)
                        (AParam (param_of defaults k series within dims)))
              end
          end
      end
  end.

(** The dictionary comprehension that keeps the weights of known cost
    classes. *)
Definition filter_cost_class (option_val : list (string * pyval)) (costs : list label)
    : list (string * pyval) :=
  filter (λ kv, LStr kv.1 ∈ costs) option_val.

(** The initialisation data of a parameter given as a dictionary keyed by
    single labels. *)
Definition dict_init (d : list (string * pyval)) : gmap index pyval :=
  to_dict ((λ kv, ([LStr kv.1], kv.2)) <$> d).

(** One turn of the loop over the objective options. *)
Definition declare_option (m : model) (option_name : string) (option_val : optval)
    : result model :=
  if decide (option_name = "cost_class") then
    match option_val with
    | OVal _ => Err (AttributeError "object" "items")
    | ODict d =>
        match m !! "costs" with
        | None => Err (AttributeError "ConcreteModel" "costs")
        | Some (ASet costs) =>
            Ok (setattr m "objective_cost_class"
                  (AParam {| p_index := [("costs", costs)];
                             p_initialize := dict_init (filter_cost_class d costs);
                             p_mutable := true;
                             p_within := "Reals";
                             p_default := None |}))
        | Some _ => Err (Raised "TypeError" "costs")
        end
    end
  else Ok (setattr m ("objective_" +:+ option_name) (AOption option_val)).

(** The float literal [1e10] = 5242880000000000 * 2^-19. *)
Definition float_1e10 : spec_float := S754_finite false 5242880000000000 (-19).

Definition bigM_param (run_config : RunConfig) : Param :=
  {| p_index := [];
     p_initialize := {[ [] := default (PyFloat float_1e10) (rc_bigM run_config) ]};
     p_mutable := true;
     p_within := "NonNegativeReals";
     p_default := None |}.

(** [backend_model.<param>[i]] as Pyomo answers it: the value stored for the
    tuple, else the default of the parameter, else an error. *)
Definition param_value (p : Param) (i : index) : result pyval :=
  match p_initialize p !! i with
  | Some x => Ok x
  | None =>
      match p_default p with
      | Some d => Ok d
      | None => Err (Raised "ValueError" "No value for uninitialized Param")
      end
  end.

(** The first two assignments of [build_params]. *)
Definition store_config (model_data : Dataset) (backend_model : model) : model :=
  setattr (setattr backend_model "__calliope_defaults" (ADefaults (ds_defaults model_data)))
          "__calliope_run_config" (ARunConfig (ds_run_config model_data)).

(** The loop over the data variables. *)
Definition declare_params (model_data : Dataset) (m : model) : result model :=
  for_items (declare_param (ds_defaults model_data) (ds_run_config model_data))
            (ds_data_vars model_data) m.

(** The two private attributes are set first and read back by name in the
    loops; the loops never assign to them ([build_params_keeps_config]
    below), so their values are the ones of [model_data] throughout. *)
Definition build_params (model_data : Dataset) (backend_model : model) : result model :=
  let run_config := ds_run_config model_data in
  match declare_params model_data (store_config model_data backend_model) with
  | Err e => Err e
  | Ok m1 =>
      match rc_objective_options run_config with
      | None => Err (KeyError "objective_options")
      | Some options =>
          match for_items declare_option options m1 with
          | Err e => Err e
          | Ok m2 => Ok (setattr m2 "bigM" (AParam (bigM_param run_config)))
          end
      end
  end.

(** *** build_variables *)

Definition build_variables (backend_model : model)
    (variable_configs : list (string * Family)) (imasks : list (string * list index))
    : result model :=
  for_items (λ m var_name imask,
    match dict_get variable_configs var_name with
    | None => Err (KeyError var_name)
    | Some config =>
        match f_domain config with
        | None => Err (KeyError "domain")
        | Some name =>
            match getattr_po name with
            | Err e => Err e
            | Ok domain =>
                Ok (setattr m var_name (AVar (mkVar imask domain (f_bounds config) ∅)))
            end
        end
    end) imasks backend_model.

(** *** build_constraints *)

(** What a component indexed by [imask] holds when built by [rule].  Pyomo
    attaches the component under its name first and constructs it then: the
    rule is called for one tuple after the other, on the model that has the
    component with the cells built so far ([wrap] makes the component of
    them); a tuple that occurs again is not built again. *)
Definition construct_cell {E} (wrap : gmap index E → attr) (rule : model → index → E)
    (m : model) (name : string) (data : gmap index E) (i : index) : gmap index E :=
  match data !! i with
  | Some _ => data
  | None => <[i := rule (setattr m name (wrap data)) i]> data
  end.

Definition rule_data {E} (wrap : gmap index E → attr) (rule : model → index → E)
    (m : model) (name : string) (imask : list index) : gmap index E :=
  foldl (construct_cell wrap rule m name) ∅ imask.

(** [getattr(constraints, name)] for a constraint rule. *)
Definition getattr_constraint_rule (name : string) : result (model → index → rexpr) :=
  match constraint_rules constraints !! name with
  | Some rule => Ok rule
  | None => Err (AttributeError "calliope.backend.pyomo.constraints" name)
  end.

Definition declare_constraint (m : model) (constraint_name : string) (imask : list index)
    : result model :=
  match getattr_constraint_rule (constraint_name +:+ "_constraint_rule") with
  | Err e => Err e
  | Ok rule =>
      let name := constraint_name +:+ "_constraint" in
      Ok (setattr m name
            (AConstraint
               (mkConstraint imask
                  (rule_data (λ data, AConstraint (mkConstraint imask data))
                             rule m name imask))))
  end.

Definition build_constraints (backend_model : model) (imasks : list (string * list index))
    : result model :=
  for_items declare_constraint imasks backend_model.

(** *** build_expressions *)

(** [po.Expression(imask, initialize=0.0)] *)
Definition zero_expression (imask : list index) : Expression :=
  mkExpression imask (list_to_map ((λ i, (i, Const float_zero)) <$> imask)).

Definition declare_expression (m : model) (expression_name : string) (imask : list index)
    : model :=
  let expression :=
    match expression_rules constraints !! (expression_name +:+ "_expression_rule") with
    | Some rule =>
        mkExpression imask
          (Term <$> rule_data (λ data, AExpression (mkExpression imask (Term <$> data)))
                              rule m expression_name imask)
    | None => zero_expression imask
    end in
  setattr m expression_name (AExpression expression).

Definition build_expressions (backend_model : model) (imasks : list (string * list index))
    : model :=
  foldl (λ m e, declare_expression m e.1 e.2) backend_model imasks.

(** *** build_objective *)

Definition build_objective (run_config : RunConfig) (backend_model : model) : result model :=
  match rc_objective run_config with
  | None => Err (KeyError "objective")
  | Some name =>
      match objective !! name with
      | None => Err (AttributeError "calliope.backend.pyomo.objective" name)
      | Some attach => attach backend_model
      end
  end.

(** *** generate_model

    [model_data] is converted in place, so it is returned next to the
    outcome: after an exception its datetimes stay integers. *)
Definition generate_model (model_data : Dataset) : result model * Dataset :=
  let '(m0, md) := convert_datetime "int" concrete_model model_data in
  let imask_config := ds_imasks md in
  let built :=
    (let? imasks := build_imasks md imask_config in
     let m1 := build_sets md m0 in
     let? m2 := build_params md m1 in
     let? m3 := build_variables m2 (ic_variables imask_config) (im_variables imasks) in
     let m4 := build_expressions m3 (im_expressions imasks) in
     let? m5 := build_constraints m4 (im_constraints imasks) in
     build_objective (ds_run_config md) m5)%result in
  match built with
  | Err e => (Err e, md)
  | Ok m =>
      let '(m', md') := convert_datetime "datetime64[ns]" m md in
      (Ok m', md')
  end.

(** ** The process around the model: streams, log, warnings

    [solve_model] and [load_results] write log records, record warnings and
    swap [sys.stdout] and [sys.stderr]; that part of the interpreter is the
    [world] below. *)

Inductive level := DEBUG | ERROR | CRITICAL.

Inductive fd := Stdout | Stderr.

(** What [sys.stdout] or [sys.stderr] is bound to: one of the two streams the
    process started with, or a [LogWriter(logger, level, strip=...)]. *)
Inductive stream :=
| Console (f : fd)
| LogWriter (lvl : level) (strip : bool).

(** A configured solver plugin, as [SolverFactory] returns it. *)
Record Solver := mkSolver {
  s_name : string;
  s_io : option string;
  s_options : gmap string pyval }.

(** One call of [opt.solve]: the keyword arguments it received and what the
    two standard streams were bound to at that moment. *)
Record SolveCall := mkSolveCall {
  call_opt : Solver;
  call_kwargs : gmap string pyval;
  call_stdout : stream;
  call_stderr : stream }.

Record world := mkWorld {
  sys_stdout : stream;
  sys_stderr : stream;
  console_out : list string;
  console_err : list string;
  logged : list (level * string);
  warned : list string;
  gurobipy_level : option level;
  tempdir : option string;
  solve_calls : list SolveCall }.

Definition set_stdout (s : stream) (w : world) : world :=
  mkWorld s (sys_stderr w) (console_out w) (console_err w) (logged w) (warned w)
          (gurobipy_level w) (tempdir w) (solve_calls w).

Definition set_stderr (s : stream) (w : world) : world :=
  mkWorld (sys_stdout w) s (console_out w) (console_err w) (logged w) (warned w)
          (gurobipy_level w) (tempdir w) (solve_calls w).

(** A computation that may raise and that changes the world; the world
    survives the exception. *)
Definition M (A : Type) : Type := world → result A * world.

Definition ret {A} (a : A) : M A := λ w, (Ok a, w).

Definition raise {A} (e : exn) : M A := λ w, (Err e, w).

Definition bind {A B} (c : M A) (k : A → M B) : M B :=
  λ w, match c w with
       | (Ok a, w') => k a w'
       | (Err e, w') => (Err e, w')
       end.

Definition lift {A} (r : result A) : M A := λ w, (r, w).

Declare Scope world_scope.
Delimit Scope world_scope with world.
Notation "'let!' x := c 'in' k" := (bind c (λ x, k))
  (at level 10, x pattern, c at level 100, k at level 200) : world_scope.

(** [for x in xs: body(x)] *)
Fixpoint for_each {A} (body : A → M unit) (xs : list A) : M unit :=
  match xs with
  | [] => ret tt
  | x :: rest => (let! _ := body x in for_each body rest)%world
  end.

(** [logger.debug], [logger.error], [logger.critical] *)
Definition log (lvl : level) (message : string) : M unit :=
  λ w, (Ok tt,
        mkWorld (sys_stdout w) (sys_stderr w) (console_out w) (console_err w)
                (logged w ++ [(lvl, message)]) (warned w)
                (gurobipy_level w) (tempdir w) (solve_calls w)).

(** Modelled from the spec: [calliope.exceptions.warn] is not part of this
    file; a warning it is given is recorded, and execution goes on. *)
Definition warn (message : string) : M unit :=
  λ w, (Ok tt,
        mkWorld (sys_stdout w) (sys_stderr w) (console_out w) (console_err w)
                (logged w) (warned w ++ [message])
                (gurobipy_level w) (tempdir w) (solve_calls w)).

(** The warning class [calliope.exceptions.BackendWarning]: calling it builds
    a warning object and nothing else. *)
Inductive warning_object :=
| BackendWarning (message : string).

(** [str.split("\n")] *)
Fixpoint split_lines (s : string) : list string :=
  match s with
  | EmptyString => [EmptyString]
  | String c rest =>
      if Ascii.eqb c "010"%char then EmptyString :: split_lines rest
      else match split_lines rest with
           | line :: lines => String c line :: lines
           | [] => [String c EmptyString]
           end
  end.

(** What a [LogWriter] hands to the logger for a text written to it, if
    anything; the class is defined in [calliope.core.util.logging]. *)
Variable logwriter_text : bool → string → option string.

(** [stream.write(text)] *)
Definition write (s : stream) (text : string) : M unit :=
  match s with
  | Console Stdout =>
      λ w, (Ok tt,
            mkWorld (sys_stdout w) (sys_stderr w) (console_out w ++ [text]) (console_err w)
                    (logged w) (warned w) (gurobipy_level w) (tempdir w) (solve_calls w))
  | Console Stderr =>
      λ w, (Ok tt,
            mkWorld (sys_stdout w) (sys_stderr w) (console_out w) (console_err w ++ [text])
                    (logged w) (warned w) (gurobipy_level w) (tempdir w) (solve_calls w))
  | LogWriter lvl strip =>
      match logwriter_text strip text with
      | Some message => log lvl message
      | None => ret tt
      end
  end.

(** [print(text, file=sys.stdout)] and [print(text, file=sys.stderr)]: the
    stream is looked up when the text is written. *)
Definition emit (out : fd * string) : M unit :=
  λ w, write (match out.1 with Stdout => sys_stdout w | Stderr => sys_stderr w end) out.2 w.

(** [with redirect_stdout(target): body]: the binding of [sys.stdout] is
    saved on entry and put back on exit, whether [body] returns or raises. *)
Definition redirect_stdout {A} (target : stream) (body : M A) : M A :=
  λ w, let old := sys_stdout w in
       let '(r, w') := body (set_stdout target w) in
       (r, set_stdout old w').

Definition redirect_stderr {A} (target : stream) (body : M A) : M A :=
  λ w, let old := sys_stderr w in
       let '(r, w') := body (set_stderr target w) in
       (r, set_stderr old w').

(** *** solve_model *)

(** What the solver reports back: [str(results.Problem)],
    [str(results.Solver)] and
    [str(results["Solver"][0]["Termination condition"])]. *)
Record Results := mkResults {
  res_problem : string;
  res_solver : string;
  res_termination : string }.

(** The solver plugin: for a configured solver, a model and keyword
    arguments, the texts it prints on the two standard streams, in order, and
    then the results it returns or the exception it raises. *)
Variable opt_solve : Solver → model → gmap string pyval → list (fd * string) * result Results.

(** [os.makedirs(path, exist_ok=True)]: the exception it raises, if any. *)
Variable os_makedirs : string → option exn.

(** [backend_model.solutions.load_from(results)] *)
Variable load_from : model → Results → result pyval.

Definition set_tempdir (dir : string) : M unit :=
  λ w, (Ok tt,
        mkWorld (sys_stdout w) (sys_stderr w) (console_out w) (console_err w)
                (logged w) (warned w) (gurobipy_level w) (Some dir) (solve_calls w)).

(** [logging.getLogger("gurobipy").setLevel(lvl)] *)
Definition set_gurobipy_level (lvl : level) : M unit :=
  λ w, (Ok tt,
        mkWorld (sys_stdout w) (sys_stderr w) (console_out w) (console_err w)
                (logged w) (warned w) (Some lvl) (tempdir w) (solve_calls w)).

Definition record_call (opt : Solver) (kwargs : gmap string pyval) : M unit :=
  λ w, (Ok tt,
        mkWorld (sys_stdout w) (sys_stderr w) (console_out w) (console_err w)
                (logged w) (warned w) (gurobipy_level w) (tempdir w)
                (solve_calls w ++ [mkSolveCall opt kwargs (sys_stdout w) (sys_stderr w)])).

(** [opt.solve(backend_model, tee=True, **solve_kwargs)]: a [tee] among
    [solve_kwargs] is a second value for the same keyword, which Python
    refuses before the call. *)
Definition solve (opt : Solver) (backend_model : model) (solve_kwargs : gmap string pyval)
    : M Results :=
  match solve_kwargs !! "tee" with
  | Some _ => raise (Raised "TypeError" "solve() got multiple values for keyword argument 'tee'")
  | None =>
      let kwargs := <["tee" := PyBool true]> solve_kwargs in
      let run := opt_solve opt backend_model kwargs in
      (let! _ := record_call opt kwargs in
       let! _ := for_each emit run.1 in
       lift run.2)%world
  end.

Definition warmstart_message (solver : string) : string :=
  "The chosen solver, " +:+ solver +:+
  ", does not suport warmstart, which may impact performance.".

(** [SolverFactory(solver, solver_io=solver_io)] *)
Definition SolverFactory (solver : string) (solver_io : option string) : Solver :=
  mkSolver solver solver_io ∅.

(** [opt.options[k] = v] for every item of [solver_options], if there are
    any. *)
Definition set_options (opt : Solver) (solver_options : option (list (string * pyval)))
    : Solver :=
  foldl (λ o kv, mkSolver (s_name o) (s_io o) (<[kv.1 := kv.2]> (s_options o)))
        opt (default [] solver_options).

(** The [if save_logs:] statement: the two flags join the solve arguments
    and the log directory is set up. *)
Definition keep_logs (save_logs : option string) (solve_kwargs : gmap string pyval)
    : M (gmap string pyval) :=
  match save_logs with
  | Some dir =>
      if decide (dir = "") then ret solve_kwargs
      else
        let updated :=
          <["keepfiles" := PyBool true]>
            (<["symbolic_solver_labels" := PyBool true]> solve_kwargs) in
        match os_makedirs dir with
        | Some e => raise e
        | None => (let! _ := set_tempdir dir in ret updated)%world
        end
  | None => ret solve_kwargs
  end.

(** The [if "warmstart" in solve_kwargs.keys() and solver in ["glpk", "cbc"]:]
    statement. *)
Definition check_warmstart (solver : string) (solve_kwargs : gmap string pyval)
    : M (gmap string pyval) :=
  if bool_decide (is_Some (solve_kwargs !! "warmstart"))
     && bool_decide (solver ∈ ["glpk"; "cbc"])
  then (let! _ := warn (warmstart_message solver) in
        ret (delete "warmstart" solve_kwargs))%world
  else ret solve_kwargs.

(** The two nested [with] statements around the call of the solver. *)
Definition solve_captured (opt : Solver) (backend_model : model)
    (solve_kwargs : gmap string pyval) : M Results :=
  redirect_stdout (LogWriter DEBUG true)
    (redirect_stderr (LogWriter ERROR true)
       (let! _ := set_gurobipy_level ERROR in
        solve opt backend_model solve_kwargs)%world).

Definition solve_model (backend_model : model) (solver : string)
    (solver_io : option string) (solver_options : option (list (string * pyval)))
    (save_logs : option string) (solve_kwargs : gmap string pyval) : M Results :=
  let opt := set_options (SolverFactory solver solver_io) solver_options in
  (let! solve_kwargs := keep_logs save_logs solve_kwargs in
   let! solve_kwargs := check_warmstart solver solve_kwargs in
   solve_captured opt backend_model solve_kwargs)%world.

(** *** load_results *)

Definition load_results (backend_model : model) (results : Results) : M string :=
  let not_optimal := negb (String.eqb (res_termination results) "optimal") in
  (let! this_result := lift (load_from backend_model results) in
   let! _ :=
     if bool_decide (this_result = PyBool false) || not_optimal then
       let! _ := log CRITICAL "Problem status:" in
       let! _ := for_each (log CRITICAL) (split_lines (res_problem results)) in
       let! _ := log CRITICAL "Solver status:" in
       let! _ := for_each (log CRITICAL) (split_lines (res_solver results)) in
       let message :=
         if not_optimal then "Model solution was non-optimal."
         else "Could not load results into model instance." in
       let _ := BackendWarning message in
       ret tt
     else ret tt in
   ret (res_termination results))%world.

(** *** get_result_array *)

(** [d[k] = v] on an insertion-ordered dictionary. *)
Fixpoint dict_set {V} (d : list (string * V)) (k : string) (v : V) : list (string * V) :=
  match d with
  | [] => [(k, v)]
  | (k', v') :: rest =>
      if decide (k' = k) then (k, v) :: rest else (k', v') :: dict_set rest k v
  end.

(** [d.update(other)] *)
Definition dict_update {V} (d other : list (string * V)) : list (string * V) :=
  foldl (λ acc kv, dict_set acc kv.1 kv.2) d other.

(** [needle in s] for two strings. *)
Fixpoint contains (needle s : string) : bool :=
  String.prefix needle s
  || match s with
     | EmptyString => false
     | String _ rest => contains needle rest
     end.

(** [po.value]: the number an expression object evaluates to in the model. *)
Variable value : model → nexpr → pyval.

(** [pd.to_datetime] on the labels of the time dimension. *)
Variable to_datetime : list label → list label.

(** What [reorganise_xarray_dimensions] does to one array of the dataset it
    is given; the function is defined in [calliope.core.util.dataset]. *)
Variable reorganise_array : DataArray → DataArray.

Definition nan : pyval := PyFloat S754_nan.

(** The values a component holds for its active tuples. *)
Definition component_values (m : model) (a : attr) : gmap index pyval :=
  match a with
  | AVar v => v_value v
  | AExpression e =>
      (λ b, match b with Const f => PyFloat f | Term t => value m t end) <$> e_data e
  | AParam p => p_initialize p
  | _ => ∅
  end.

(** Modelled from the spec: [get_var] of [calliope.backend.pyomo.util] is
    not part of this file.  The sparse values of the component are scattered
    into a dense array over the given dimensions, labelled by the
    coordinates of the dataset; a cell no active tuple fills is undefined
    (NaN). *)
Definition get_var (model_data : Dataset) (backend_model : model) (component : attr)
    (dims : list string) : DataArray :=
  {| da_dims := dims;
     da_coords := (λ d, default [] (dict_get (ds_coords model_data) d)) <$> dims;
     da_data := λ i, default nan (component_values backend_model component !! i);
     da_attrs := ∅ |}.

(** [backend_model.component_objects(ctype=...)], with the name of each
    component.  Pyomo yields them in declaration order, which the attribute
    map does not keep; they come in the order of the map here.  The callers
    collect them in dictionaries keyed by name, so the order only selects
    which of several failing lookups is reported. *)
Definition component_objects {C} (ctype : attr → option C) (m : model) : list (string * C) :=
  omap (λ na, (λ c, (na.1, c)) <$> ctype na.2) (map_to_list m).

Definition is_Var (a : attr) : option Var :=
  match a with AVar v => Some v | _ => None end.
Definition is_Expression (a : attr) : option Expression :=
  match a with AExpression e => Some e | _ => None end.
Definition is_Param (a : attr) : option Param :=
  match a with AParam p => Some p | _ => None end.

Definition _get_dim_order (model_data : Dataset) (foreach : list string) : list string :=
  filter (λ i, i ∈ foreach) (ds_dims model_data).

(** The dictionary comprehension over the families of one kind. *)
Fixpoint family_arrays (model_data : Dataset) (backend_model : model)
    (families : list (string * Family)) (components : list (string * attr))
    : result (list (string * DataArray)) :=
  match components with
  | [] => Ok []
  | (name, a) :: rest =>
      match dict_get families name with
      | None => Err (KeyError name)
      | Some family =>
          match family_arrays model_data backend_model families rest with
          | Err e => Err e
          | Ok arrays =>
              Ok ((name, get_var model_data backend_model a
                           (_get_dim_order model_data (f_foreach family))) :: arrays)
          end
      end
  end.

(** The test that selects the parameters to hand back. *)
Definition is_additional_input (model_data : Dataset) (name : string) (p : Param) : bool :=
  bool_decide (dict_get (ds_data_vars model_data) name = None)
  && negb (contains "objective_" name)
  && bool_decide (p_index p ≠ []).

(** A coordinate joins those already known unless its name is taken. *)
Definition add_coord (coords : list (string * list label)) (ax : string * list label)
    : list (string * list label) :=
  match dict_get coords ax.1 with
  | Some _ => coords
  | None => coords ++ [ax]
  end.

(** [xr.Dataset(arrays)]: the dimensions and coordinates are those of the
    arrays, each taken where it first occurs; there are no attributes. *)
Definition xr_Dataset (arrays : list (string * DataArray)) : Dataset :=
  let axes := arrays ≫= (λ na, zip (da_dims na.2) (da_coords na.2)) in
  let coords := foldl add_coord [] axes in
  {| ds_dims := coords.*1;
     ds_coords := coords;
     ds_data_vars := dict_update [] arrays;
     ds_defaults := ∅;
     ds_run_config := mkRunConfig None None None None;
     ds_imasks := mkImaskConfig [] [] [] |}.

Definition reorganise_xarray_dimensions (data : Dataset) : Dataset :=
  {| ds_dims := ds_dims data;
     ds_coords := ds_coords data;
     ds_data_vars := (λ na, (na.1, reorganise_array na.2)) <$> ds_data_vars data;
     ds_defaults := ds_defaults data;
     ds_run_config := ds_run_config data;
     ds_imasks := ds_imasks data |}.

(** [array.attrs["is_result"] = 0] *)
Definition mark_input (array : DataArray) : DataArray :=
  mkDataArray (da_dims array) (da_coords array) (da_data array)
              (<["is_result" := PyInt 0]> (da_attrs array)).

(** [additional_inputs[var].attrs["is_result"] = 0] for every variable. *)
Definition mark_inputs (data : Dataset) : Dataset :=
  {| ds_dims := ds_dims data;
     ds_coords := ds_coords data;
     ds_data_vars := (λ na, (na.1, mark_input na.2)) <$> ds_data_vars data;
     ds_defaults := ds_defaults data;
     ds_run_config := ds_run_config data;
     ds_imasks := ds_imasks data |}.

(** A dimension joins those already known unless it is one of them. *)
Definition add_dim (dims : list string) (d : string) : list string :=
  if decide (d ∈ dims) then dims else dims ++ [d].

(** [model_data.update(other)]: the variables of [other] are added, or
    replace those of the same name; the dimensions and coordinates of the
    dataset stay as they are, in their order, and those it lacks come along
    behind them. *)
Definition update (model_data other : Dataset) : Dataset :=
  {| ds_dims := foldl add_dim (ds_dims model_data) (ds_dims other);
     ds_coords := foldl add_coord (ds_coords model_data) (ds_coords other);
     ds_data_vars := dict_update (ds_data_vars model_data) (ds_data_vars other);
     ds_defaults := ds_defaults model_data;
     ds_run_config := ds_run_config model_data;
     ds_imasks := ds_imasks model_data |}.

(** The array of a parameter that did not come from the inputs; its
    dimensions are the names of its index sets. *)
Definition additional_input (model_data : Dataset) (backend_model : model)
    (name : string) (p : Param) : option DataArray :=
  if is_additional_input model_data name p
  then Some (get_var model_data backend_model (AParam p) ((p_index p).*1))
  else None.

Definition all_params (backend_model : model) (model_data : Dataset)
    : list (string * DataArray) :=
  omap (λ np, (λ array, (np.1, array))
              <$> additional_input model_data backend_model np.1 np.2)
       (component_objects is_Param backend_model).

(** The arrays of the variables, then those of the expressions. *)
Definition all_variables (backend_model : model) (model_data : Dataset)
    : result (list (string * DataArray)) :=
  let imask_config := ds_imasks model_data in
  match family_arrays model_data backend_model (ic_variables imask_config)
          ((λ nv, (nv.1, AVar nv.2)) <$> component_objects is_Var backend_model) with
  | Err e => Err e
  | Ok variables =>
      match family_arrays model_data backend_model (ic_expressions imask_config)
              ((λ ne, (ne.1, AExpression ne.2))
               <$> component_objects is_Expression backend_model) with
      | Err e => Err e
      | Ok expressions => Ok (dict_update (dict_update [] variables) expressions)
      end
  end.

(** What [model_data] is after the parameters found were merged into it. *)
Definition merge_params (backend_model : model) (model_data : Dataset) : Dataset :=
  match all_params backend_model model_data with
  | [] => model_data
  | params =>
      update model_data (mark_inputs (reorganise_xarray_dimensions (xr_Dataset params)))
  end.

(** The function returns the results and changes [model_data] in place; the
    dataset as the call leaves it is the second component. *)
Definition get_result_array (backend_model : model) (model_data : Dataset)
    : result Dataset * Dataset :=
  match all_variables backend_model model_data with
  | Err e => (Err e, model_data)
  | Ok variables =>
      let results := reorganise_xarray_dimensions (xr_Dataset variables) in
      let model_data' := merge_params backend_model model_data in
      match dict_get (ds_coords results) "timesteps" with
      | None => (Err (AttributeError "Dataset" "timesteps"), model_data')
      | Some timesteps =>
          (Ok {| ds_dims := ds_dims results;
                 ds_coords := dict_set (ds_coords results) "timesteps"
                                       (to_datetime timesteps);
                 ds_data_vars := ds_data_vars results;
                 ds_defaults := ds_defaults results;
                 ds_run_config := ds_run_config results;
                 ds_imasks := ds_imasks results |},
           model_data')
      end
  end.

(** ** Notions the properties are stated with *)

(** The world after some entries were appended to the log. *)
Definition add_logged (entries : list (level * string)) (w : world) : world :=
  mkWorld (sys_stdout w) (sys_stderr w) (console_out w) (console_err w)
          (logged w ++ entries) (warned w) (gurobipy_level w) (tempdir w) (solve_calls w).

(** The log entries [load_results] writes for a solve that did not end well. *)
Definition critical_report (results : Results) : list (level * string) :=
  [(CRITICAL, "Problem status:")]
  ++ ((λ l, (CRITICAL, l)) <$> split_lines (res_problem results))
  ++ [(CRITICAL, "Solver status:")]
  ++ ((λ l, (CRITICAL, l)) <$> split_lines (res_solver results)).

(** What the log receives of the texts a solver printed while both streams
    were bound to the log writers of [solve_model]. *)
Definition captured (outs : list (fd * string)) : list (level * string) :=
  omap (λ out, (λ text, (match out.1 with Stdout => DEBUG | Stderr => ERROR end, text))
               <$> logwriter_text true out.2) outs.

(** The world after the solver was called under the two log writers. *)
Definition after_solve (opt : Solver) (m : model) (kwargs : gmap string pyval) (w : world)
    : world :=
  mkWorld (sys_stdout w) (sys_stderr w) (console_out w) (console_err w)
          (logged w ++ captured (opt_solve opt m kwargs).1) (warned w)
          (Some ERROR) (tempdir w)
          (solve_calls w
           ++ [mkSolveCall opt kwargs (LogWriter DEBUG true) (LogWriter ERROR true)]).

(** The keyword arguments after the [save_logs] step of [solve_model]. *)
Definition with_log_flags (save_logs : option string) (kw : gmap string pyval)
    : gmap string pyval :=
  match save_logs with
  | Some dir =>
      if decide (dir = "") then kw
      else <["keepfiles" := PyBool true]> (<["symbolic_solver_labels" := PyBool true]> kw)
  | None => kw
  end.

(** The log directory can be set up: there is none to set up, or
    [os.makedirs] raises nothing for it. *)
Definition logs_ready (save_logs : option string) : Prop :=
  match save_logs with
  | Some dir => dir = "" ∨ os_makedirs dir = None
  | None => True
  end.

(** The two statements before the solve leave the streams, what reached
    the console, the log and the record of solver calls as they were. *)
Definition quiet {A} (c : M A) : Prop :=
  ∀ w, sys_stdout (c w).2 = sys_stdout w
       ∧ sys_stderr (c w).2 = sys_stderr w
       ∧ console_out (c w).2 = console_out w
       ∧ console_err (c w).2 = console_err w
       ∧ logged (c w).2 = logged w
       ∧ solve_calls (c w).2 = solve_calls w.

(** The solver calls, their streams and the log after a computation. *)
Definition captures_solver (m : model) (w w' : world) (calls : list SolveCall) : Prop :=
  solve_calls w' = solve_calls w ++ calls
  ∧ Forall (λ c, call_stdout c = LogWriter DEBUG true
                 ∧ call_stderr c = LogWriter ERROR true) calls
  ∧ logged w'
    = logged w ++ (calls ≫= λ c, captured (opt_solve (call_opt c) m (call_kwargs c)).1).

(** The parameter [declare_option] builds for [cost_class]. *)
Definition cost_class_param (cc : list (string * pyval)) (costs : list label) : Param :=
  {| p_index := [("costs", costs)];
     p_initialize := dict_init (filter_cost_class cc costs);
     p_mutable := true;
     p_within := "Reals";
     p_default := None |}.

(** The array [get_result_array] builds for a family. *)
Definition family_array (model_data : Dataset) (m : model) (family : Family) (a : attr)
    : DataArray :=
  get_var model_data m a (_get_dim_order model_data (f_foreach family)).

(** The family declaration [get_result_array] consults for a component. *)
Definition family_of (imask_config : ImaskConfig) (name : string) (a : attr)
    : option Family :=
  match a with
  | AVar _ => dict_get (ic_variables imask_config) name
  | AExpression _ => dict_get (ic_expressions imask_config) name
  | _ => None
  end.

Definition is_family (a : attr) : bool :=
  match a with AVar _ | AExpression _ => true | _ => false end.

(** An array handed back as an input: dimensions normalised and tagged
    [is_result = 0]. *)
Definition as_input (array : DataArray) : DataArray :=
  mark_input (reorganise_array array).

(** The world after the [save_logs] step of [solve_model] went through: the
    log directory, if one was asked for, is where temporary files go. *)
Definition logs_world (save_logs : option string) (w : world) : world :=
  match save_logs with
  | Some dir =>
      if decide (dir = "") then w
      else mkWorld (sys_stdout w) (sys_stderr w) (console_out w) (console_err w)
                   (logged w) (warned w) (gurobipy_level w) (Some dir) (solve_calls w)
  | None => w
  end.

(** Whether [solve_model] takes [warmstart] out of the solve arguments. *)
Definition drops_warmstart (solver : string) (kw : gmap string pyval) : bool :=
  bool_decide (is_Some (kw !! "warmstart")) && bool_decide (solver ∈ ["glpk"; "cbc"]).

(** The world after the warning about [warmstart], if it was due. *)
Definition warned_world (solver : string) (kw : gmap string pyval) (w : world) : world :=
  if drops_warmstart solver kw
  then mkWorld (sys_stdout w) (sys_stderr w) (console_out w) (console_err w)
               (logged w) (warned w ++ [warmstart_message solver])
               (gurobipy_level w) (tempdir w) (solve_calls w)
  else w.

(** Pyomo attaches components indexed by a list under these names without
    complaint: each name, and the name of the index set it keeps beside the
    component ([name_index]), is free on the model, and no two of all these
    names are the same. *)
Definition attachable (m : model) (names : list string) : Prop :=
  NoDup (names ++ ((λ n, n +:+ "_index") <$> names))
  ∧ Forall (λ n, hasattr m n = false) (names ++ ((λ n, n +:+ "_index") <$> names)).

(** ** Properties of model generation *)

Lemma const_data_lookup {E} (c : E) (imask : list index) (i : index) :
  i ∈ imask →
  (list_to_map ((λ j, (j, c)) <$> imask) : gmap index E) !! i = Some c.
Proof.
  induction imask as [|j imask IH]; intros Hi.
  - by apply elem_of_nil in Hi.
  - rewrite fmap_cons. cbn [list_to_map foldr].
    destruct (decide (j = i)) as [->|Hne].
    + apply lookup_insert_eq.
    + rewrite lookup_insert_ne by done. apply IH.
      apply elem_of_cons in Hi as [?|?]; [congruence | done].
Qed.

Lemma build_expressions_other (m : model) (imasks : list (string * list index))
    (name : string) :
  name ∉ imasks.*1 → build_expressions m imasks !! name = m !! name.
Proof.
  unfold build_expressions. revert m.
  induction imasks as [|[n im] imasks IH]; intros m Hnot; [done|].
  cbn [foldl fst snd]. rewrite fmap_cons in Hnot. cbn [fst] in Hnot.
  apply not_elem_of_cons in Hnot as [Hne Hnot].
  rewrite IH by done. unfold declare_expression, setattr.
  by rewrite lookup_insert_ne.
Qed.

Lemma build_expressions_declared (m : model) (imasks : list (string * list index))
    (name : string) (imask : list index) :
  NoDup imasks.*1 → (name, imask) ∈ imasks →
  ∃ m0, build_expressions m imasks !! name
        = declare_expression m0 name imask !! name.
Proof.
  revert m. induction imasks as [|[n im] imasks IH]; intros m Hnd Hin.
  - by apply elem_of_nil in Hin.
  - rewrite fmap_cons in Hnd. cbn [fst] in Hnd. apply NoDup_cons in Hnd as [Hfresh Hnd].
    apply elem_of_cons in Hin as [Heq|Hin].
    + injection Heq as -> ->. exists m.
      change (build_expressions m ((n, im) :: imasks))
        with (build_expressions (declare_expression m n im) imasks).
      by rewrite build_expressions_other.
    + change (build_expressions m ((n, im) :: imasks))
        with (build_expressions (declare_expression m n im) imasks).
      by apply IH.
Qed.

(** C1: an expression family without a function
    [{family}_expression_rule] in the registry is declared all the same, as
    the expression that is the constant [0.0] on every one of its active
    tuples; [build_expressions] has no failing path. *)
Theorem build_expressions_unregistered_is_zero (m : model)
    (imasks : list (string * list index)) (name : string) (imask : list index) :
  NoDup imasks.*1 →
  (name, imask) ∈ imasks →
  expression_rules constraints !! (name +:+ "_expression_rule") = None →
  ∃ e, build_expressions m imasks !! name = Some (AExpression e)
       ∧ e_index e = imask
       ∧ ∀ i, i ∈ imask →
           e_data e !! i = Some (Const float_zero)
           ∧ component_values (build_expressions m imasks) (AExpression e) !! i
             = Some (PyFloat float_zero).
Proof.
  intros Hnd Hin Hnone.
  destruct (build_expressions_declared m imasks name imask Hnd Hin) as [m0 Hm0].
  exists (zero_expression imask). split; [|split; [done|]].
  - rewrite Hm0. unfold declare_expression, setattr. rewrite Hnone.
    apply lookup_insert_eq.
  - intros i Hi.
    assert (e_data (zero_expression imask) !! i = Some (Const float_zero)) as Hz
      by (by apply const_data_lookup).
    split; [done|]. cbn [component_values]. by rewrite lookup_fmap, Hz.
Qed.

Lemma first_unregistered (imasks : list (string * list index)) (name : string) :
  name ∈ imasks.*1 →
  constraint_rules constraints !! (name +:+ "_constraint_rule") = None →
  ∃ before first imask after,
    imasks = before ++ (first, imask) :: after
    ∧ (∀ n, n ∈ before.*1 →
            is_Some (constraint_rules constraints !! (n +:+ "_constraint_rule")))
    ∧ constraint_rules constraints !! (first +:+ "_constraint_rule") = None.
Proof.
  intros Hin Hnone. induction imasks as [|[n im] imasks IH].
  - by apply elem_of_nil in Hin.
  - destruct (constraint_rules constraints !! (n +:+ "_constraint_rule")) as [rule|] eqn:Hn.
    + rewrite fmap_cons in Hin. apply elem_of_cons in Hin as [->|Hin].
      { cbn [fst] in Hnone. congruence. }
      destruct (IH Hin) as (before & first & imask & after & -> & Hbefore & Hfirst).
      exists ((n, im) :: before), first, imask, after. split; [done|]. split; [|done].
      intros n'. rewrite fmap_cons. intros [->|Hn']%elem_of_cons; [|by apply Hbefore].
      cbn [fst]. by rewrite Hn.
    + exists [], n, im, imasks. split; [done|]. split; [|done].
      intros n' Hn'. by apply elem_of_nil in Hn'.
Qed.

Lemma build_constraints_stops (m : model) (before after : list (string * list index))
    (first : string) (imask : list index) :
  (∀ n, n ∈ before.*1 →
        is_Some (constraint_rules constraints !! (n +:+ "_constraint_rule"))) →
  constraint_rules constraints !! (first +:+ "_constraint_rule") = None →
  build_constraints m (before ++ (first, imask) :: after)
  = Err (AttributeError "calliope.backend.pyomo.constraints"
                        (first +:+ "_constraint_rule")).
Proof.
  intros Hbefore Hfirst. unfold build_constraints. revert m.
  induction before as [|[n im] before IH]; intros m.
  - cbn [app for_items]. unfold declare_constraint, getattr_constraint_rule.
    by rewrite Hfirst.
  - cbn [app for_items].
    destruct (Hbefore n) as [rule Hrule].
    { rewrite fmap_cons. apply list_elem_of_here. }
    unfold declare_constraint at 1, getattr_constraint_rule. rewrite Hrule.
    apply IH. intros n' Hn'. apply Hbefore. rewrite fmap_cons.
    by apply list_elem_of_further.
Qed.

(** C2 (as the code has it): a constraint family without a function
    [{family}_constraint_rule] in the registry makes [build_constraints]
    raise the [AttributeError] of the failed lookup, whatever the model is;
    the exception names the first such family in iteration order, the
    families before it having their rules.  [generate_model] then returns no
    model: it ends with an exception, and when parameters and variables were
    built it ends with this very [AttributeError], raised by the constraint
    step, the dataset being left with its integer times. *)
Theorem build_constraints_unregistered_raises (model_data : Dataset) (imasks : Imasks)
    (name : string) :
  name ∈ (im_constraints imasks).*1 →
  constraint_rules constraints !! (name +:+ "_constraint_rule") = None →
  ∃ before first imask after,
    im_constraints imasks = before ++ (first, imask) :: after
    ∧ (∀ n, n ∈ before.*1 →
            is_Some (constraint_rules constraints !! (n +:+ "_constraint_rule")))
    ∧ constraint_rules constraints !! (first +:+ "_constraint_rule") = None
    ∧ (∀ m, build_constraints m (im_constraints imasks)
            = Err (AttributeError "calliope.backend.pyomo.constraints"
                                  (first +:+ "_constraint_rule")))
    ∧ (let start := convert_datetime "int" concrete_model model_data in
       build_imasks start.2 (ds_imasks start.2) = Ok imasks →
       (∃ e, generate_model model_data = (Err e, start.2))
       ∧ ∀ m2 m3,
           build_params start.2 (build_sets start.2 start.1) = Ok m2 →
           build_variables m2 (ic_variables (ds_imasks start.2)) (im_variables imasks)
           = Ok m3 →
           generate_model model_data
           = (Err (AttributeError "calliope.backend.pyomo.constraints"
                                  (first +:+ "_constraint_rule")),
              start.2)).
Proof.
  intros Hin Hnone.
  destruct (first_unregistered _ _ Hin Hnone)
    as (before & first & imask & after & Hsplit & Hbefore & Hfirst).
  exists before, first, imask, after. split; [done|]. split; [done|]. split; [done|].
  assert (∀ m, build_constraints m (im_constraints imasks)
               = Err (AttributeError "calliope.backend.pyomo.constraints"
                                     (first +:+ "_constraint_rule"))) as Hstop.
  { intros m. rewrite Hsplit. by apply build_constraints_stops. }
  split; [done|].
  intros start Himasks. unfold generate_model. subst start.
  destruct (convert_datetime "int" concrete_model model_data) as [m0 md] eqn:Hconv.
  cbn [fst snd] in *. rewrite Himasks. cbn [rbind]. split.
  - destruct (build_params md (build_sets md m0)) as [m2|e]; cbn [rbind]; [|by eexists].
    destruct (build_variables m2 _ _) as [m3|e]; cbn [rbind]; [|by eexists].
    rewrite Hstop. cbn [rbind]. by eexists.
  - intros m2 m3 Hparams Hvars. rewrite Hparams. cbn [rbind]. rewrite Hvars. cbn [rbind].
    by rewrite Hstop.
Qed.

(** ** Properties of the solve step *)

Lemma add_logged_nil (w : world) : add_logged [] w = w.
Proof. destruct w. unfold add_logged. cbn. by rewrite app_nil_r. Qed.

Lemma add_logged_app (a b : list (level * string)) (w : world) :
  add_logged b (add_logged a w) = add_logged (a ++ b) w.
Proof. unfold add_logged. cbn. by rewrite app_assoc. Qed.

Lemma for_each_log (lvl : level) (lines : list string) (w : world) :
  for_each (log lvl) lines w = (Ok tt, add_logged ((λ l, (lvl, l)) <$> lines) w).
Proof.
  revert w. induction lines as [|l lines IH]; intros w.
  - cbn. by rewrite add_logged_nil.
  - cbn [for_each]. unfold bind at 1. unfold log at 1.
    rewrite IH. fold (add_logged [(lvl, l)] w). by rewrite add_logged_app.
Qed.

Lemma log_eq (lvl : level) (message : string) (w : world) :
  log lvl message w = (Ok tt, add_logged [(lvl, message)] w).
Proof. done. Qed.

Lemma load_results_not_optimal_eq (m : model) (results : Results) (w : world)
    (this_result : pyval) :
  load_from m results = Ok this_result →
  this_result = PyBool false ∨ res_termination results ≠ "optimal" →
  load_results m results w
  = (Ok (res_termination results), add_logged (critical_report results) w).
Proof.
  intros Hload Hcase. unfold load_results, bind, lift. rewrite Hload.
  assert (bool_decide (this_result = PyBool false)
          || negb (res_termination results =? "optimal")%string = true) as ->.
  { destruct Hcase as [->|Hne].
    - by rewrite bool_decide_eq_true_2.
    - apply orb_true_iff. right. apply negb_true_iff.
      by apply String.eqb_neq. }
  rewrite log_eq. cbv beta iota.
  rewrite for_each_log. cbv beta iota.
  rewrite log_eq. cbv beta iota.
  rewrite for_each_log. cbv beta iota.
  unfold ret. by rewrite !add_logged_app.
Qed.

(** C3 (what the code does): when the termination condition is not
    "optimal", or loading the solution returned [False], [load_results]
    returns the termination condition and writes the problem and solver
    status to the log at critical severity, and no exception leaves it; the
    warning object it builds is dropped, so the recorded warnings are the
    same before and after. *)
Theorem load_results_not_optimal (m : model) (results : Results) (w : world)
    (this_result : pyval) :
  load_from m results = Ok this_result →
  this_result = PyBool false ∨ res_termination results ≠ "optimal" →
  (load_results m results w).1 = Ok (res_termination results)
  ∧ logged (load_results m results w).2 = logged w ++ critical_report results
  ∧ Forall (λ entry, entry.1 = CRITICAL) (critical_report results)
  ∧ warned (load_results m results w).2 = warned w.
Proof.
  intros Hload Hcase.
  rewrite (load_results_not_optimal_eq m results w this_result Hload Hcase).
  split_and!; [done..| |done].
  unfold critical_report. rewrite !Forall_app, !Forall_fmap.
  split_and!; try (by repeat constructor); by apply Forall_true.
Qed.

Lemma emit_redirected (out : fd * string) (w : world) :
  sys_stdout w = LogWriter DEBUG true →
  sys_stderr w = LogWriter ERROR true →
  emit out w = (Ok tt, add_logged (captured [out]) w).
Proof.
  intros Hout Herr. destruct out as [f text]. unfold emit, captured.
  cbn [omap list_omap fst snd].
  destruct f; rewrite ?Hout, ?Herr; cbn [write];
    destruct (logwriter_text true text) as [msg|]; cbn; try done.
  all: unfold ret; by rewrite add_logged_nil.
Qed.

Lemma for_each_emit_redirected (outs : list (fd * string)) (w : world) :
  sys_stdout w = LogWriter DEBUG true →
  sys_stderr w = LogWriter ERROR true →
  for_each emit outs w = (Ok tt, add_logged (captured outs) w).
Proof.
  revert w. induction outs as [|out outs IH]; intros w Hout Herr.
  - cbn. by rewrite add_logged_nil.
  - cbn [for_each]. unfold bind. rewrite emit_redirected by done. cbv beta iota.
    rewrite IH by done. rewrite add_logged_app.
    change (out :: outs) with ([out] ++ outs). unfold captured.
    by rewrite omap_app.
Qed.

Lemma solve_captured_eq (m : model) (opt : Solver) (kw : gmap string pyval) (w : world) :
  solve_captured opt m kw w
  = match kw !! "tee" with
    | Some _ =>
        (Err (Raised "TypeError" "solve() got multiple values for keyword argument 'tee'"),
         mkWorld (sys_stdout w) (sys_stderr w) (console_out w) (console_err w)
                 (logged w) (warned w) (Some ERROR) (tempdir w) (solve_calls w))
    | None =>
        ((opt_solve opt m (<["tee" := PyBool true]> kw)).2,
         after_solve opt m (<["tee" := PyBool true]> kw) w)
    end.
Proof.
  unfold solve_captured, redirect_stdout, redirect_stderr, bind, set_gurobipy_level, solve.
  cbn [sys_stdout sys_stderr set_stdout set_stderr].
  destruct (kw !! "tee"); [done|].
  unfold bind, record_call, lift. cbn [sys_stdout sys_stderr].
  rewrite for_each_emit_redirected by done. done.
Qed.

Lemma with_log_flags_other (save_logs : option string) (kw : gmap string pyval) (k : string) :
  k ≠ "keepfiles" → k ≠ "symbolic_solver_labels" →
  with_log_flags save_logs kw !! k = kw !! k.
Proof.
  intros H1 H2. unfold with_log_flags.
  destruct save_logs as [dir|]; [|done].
  destruct (decide (dir = "")); [done|].
  by rewrite !lookup_insert_ne.
Qed.

Lemma set_options_name (opt : Solver) (solver_options : option (list (string * pyval))) :
  s_name (set_options opt solver_options) = s_name opt.
Proof.
  unfold set_options. generalize (default [] solver_options) as l. intros l.
  revert opt. induction l as [|kv l IH]; intros opt; [done|].
  cbn [foldl]. by rewrite IH.
Qed.

(** C4: with [warmstart] among the solve arguments and a solver that is one
    of glpk and cbc, [solve_model] records the warning, takes [warmstart]
    out of the arguments and calls the solver with what remains; the
    outcome of the call is the outcome of that solve. *)
Theorem solve_model_drops_warmstart (m : model) (solver : string)
    (solver_io : option string) (solver_options : option (list (string * pyval)))
    (save_logs : option string) (kw : gmap string pyval) (w : world) :
  is_Some (kw !! "warmstart") →
  solver ∈ ["glpk"; "cbc"] →
  kw !! "tee" = None →
  logs_ready save_logs →
  let out := solve_model m solver solver_io solver_options save_logs kw w in
  ∃ call,
    warned out.2 = warned w ++ [warmstart_message solver]
    ∧ solve_calls out.2 = solve_calls w ++ [call]
    ∧ s_name (call_opt call) = solver
    ∧ call_kwargs call
      = <["tee" := PyBool true]> (delete "warmstart" (with_log_flags save_logs kw))
    ∧ call_kwargs call !! "warmstart" = None
    ∧ out.1 = (opt_solve (call_opt call) m (call_kwargs call)).2.
Proof.
  intros Hwarm Hsolver Htee Hready out. subst out.
  set (opt := set_options (SolverFactory solver solver_io) solver_options).
  set (kw1 := with_log_flags save_logs kw).
  exists (mkSolveCall opt (<["tee" := PyBool true]> (delete "warmstart" kw1))
            (LogWriter DEBUG true) (LogWriter ERROR true)).
  cbn [call_opt call_kwargs].
  assert (is_Some (kw1 !! "warmstart")) as Hwarm'
    by (subst kw1; by rewrite with_log_flags_other).
  assert (delete "warmstart" kw1 !! "tee" = None) as Htee'.
  { rewrite lookup_delete_ne by done. subst kw1. by rewrite with_log_flags_other. }
  assert (∃ td, keep_logs save_logs kw w
                = (Ok kw1, mkWorld (sys_stdout w) (sys_stderr w) (console_out w)
                             (console_err w) (logged w) (warned w) (gurobipy_level w)
                             td (solve_calls w))) as [td Hkeep].
  { subst kw1. unfold keep_logs, with_log_flags, logs_ready in *.
    destruct save_logs as [dir|]; [destruct (decide (dir = "")) as [->|Hdir]|].
    - exists (tempdir w). by destruct w.
    - destruct Hready as [? | Hmk]; [done|]. rewrite Hmk. by exists (Some dir).
    - exists (tempdir w). by destruct w. }
  unfold solve_model, bind. fold opt. rewrite Hkeep.
  unfold check_warmstart.
  rewrite (bool_decide_eq_true_2 _ Hwarm'), (bool_decide_eq_true_2 _ Hsolver).
  cbn [andb]. unfold bind, warn, ret. cbv beta iota.
  rewrite solve_captured_eq, Htee'. cbn.
  split_and!; try done.
  - subst opt. apply set_options_name.
  - rewrite lookup_insert_ne by done. apply lookup_delete_eq.
Qed.

Lemma keep_logs_quiet (save_logs : option string) (kw : gmap string pyval) :
  quiet (keep_logs save_logs kw).
Proof.
  intros w. unfold keep_logs.
  destruct save_logs as [dir|]; [|done].
  destruct (decide (dir = "")); [done|].
  by destruct (os_makedirs dir).
Qed.

Lemma check_warmstart_quiet (solver : string) (kw : gmap string pyval) :
  quiet (check_warmstart solver kw).
Proof. intros w. unfold check_warmstart. by case_match. Qed.

Lemma keep_logs_ok (save_logs : option string) (kw : gmap string pyval) (w : world) :
  logs_ready save_logs →
  (keep_logs save_logs kw w).1 = Ok (with_log_flags save_logs kw).
Proof.
  unfold logs_ready, keep_logs, with_log_flags.
  destruct save_logs as [dir|]; [|done].
  destruct (decide (dir = "")); [done|]. by intros [?| ->].
Qed.

Lemma check_warmstart_ok (solver : string) (kw : gmap string pyval) (w : world) :
  ∃ kw', (check_warmstart solver kw w).1 = Ok kw'
         ∧ (kw !! "tee" = None → kw' !! "tee" = None).
Proof.
  unfold check_warmstart. case_match.
  - exists (delete "warmstart" kw). split; [done|]. intros Htee.
    by rewrite lookup_delete_ne.
  - by exists kw.
Qed.

Lemma solve_captured_streams (m : model) (opt : Solver) (kw : gmap string pyval) (w : world) :
  let out := solve_captured opt m kw w in
  sys_stdout out.2 = sys_stdout w
  ∧ sys_stderr out.2 = sys_stderr w
  ∧ console_out out.2 = console_out w
  ∧ console_err out.2 = console_err w
  ∧ ∃ calls,
      captures_solver m w out.2 calls
      ∧ (kw !! "tee" = None →
         ∃ call, calls = [call]
                 ∧ out.1 = (opt_solve (call_opt call) m (call_kwargs call)).2).
Proof.
  cbv zeta. rewrite solve_captured_eq. unfold captures_solver.
  destruct (kw !! "tee"); cbn.
  - split_and!; try done. exists []. cbn. by rewrite !app_nil_r.
  - split_and!; try done. eexists [_]. split.
    + split; [done|]. split; [by repeat constructor|]. cbn. by rewrite app_nil_r.
    + intros _. by eexists.
Qed.

(** C9: whatever the arguments and whether the solver returns or raises,
    [solve_model] leaves [sys.stdout] and [sys.stderr] bound to what they
    were bound to when it was called, and nothing reaches the console of the
    process through it; every call of the solver it makes runs with
    [sys.stdout] bound to the log writer at debug severity and [sys.stderr]
    to the one at error severity, and what the log gains is what those
    writers made of the solver's output.  When the log directory can be set
    up and [tee] is not among the arguments, there is exactly one such call
    and its outcome, result or exception, is the outcome of [solve_model]. *)
Theorem solve_model_restores_streams (m : model) (solver : string)
    (solver_io : option string) (solver_options : option (list (string * pyval)))
    (save_logs : option string) (kw : gmap string pyval) (w : world) :
  let out := solve_model m solver solver_io solver_options save_logs kw w in
  sys_stdout out.2 = sys_stdout w
  ∧ sys_stderr out.2 = sys_stderr w
  ∧ console_out out.2 = console_out w
  ∧ console_err out.2 = console_err w
  ∧ ∃ calls,
      captures_solver m w out.2 calls
      ∧ (logs_ready save_logs → kw !! "tee" = None →
         ∃ call, calls = [call]
                 ∧ out.1 = (opt_solve (call_opt call) m (call_kwargs call)).2).
Proof.
  cbv zeta. unfold solve_model, bind, captures_solver.
  pose proof (keep_logs_quiet save_logs kw w) as (Ho1 & He1 & Hco1 & Hce1 & Hl1 & Hc1).
  pose proof (keep_logs_ok save_logs kw w) as Hok1.
  destruct (keep_logs save_logs kw w) as [[kw1|e] w1]; cbn [fst snd] in *.
  2: { split_and!; try done. exists []. cbn. rewrite !app_nil_r.
       split; [done|]. intros Hready _. by specialize (Hok1 Hready). }
  pose proof (check_warmstart_quiet solver kw1 w1) as (Ho2 & He2 & Hco2 & Hce2 & Hl2 & Hc2).
  destruct (check_warmstart_ok solver kw1 w1) as (kw2' & Hok2 & Htee2).
  destruct (check_warmstart solver kw1 w1) as [[kw2|e] w2]; cbn [fst snd] in *; [|done].
  injection Hok2 as <-.
  pose proof (solve_captured_streams m (set_options (SolverFactory solver solver_io) solver_options)
                kw2 w2) as (Ho3 & He3 & Hco3 & Hce3 & calls & (Hc3 & Hall & Hl3) & Hcall).
  split_and!; try congruence.
  exists calls. split; [split_and!; [congruence|done|congruence]|].
  intros Hready Htee. apply Hcall, Htee2.
  specialize (Hok1 Hready). injection Hok1 as ->.
  rewrite with_log_flags_other; done.
Qed.

(** ** Properties of the parameters *)

Lemma to_dict_acc_lookup (f : index → pyval) (s : list (index * pyval))
    (acc : gmap index pyval) (i : index) :
  (∀ e, e ∈ s → e.2 = f e.1) →
  foldl (λ d e, <[e.1 := e.2]> d) acc s !! i
  = if decide (i ∈ s.*1) then Some (f i) else acc !! i.
Proof.
  revert acc. induction s as [|e s IH]; intros acc Hf; [done|].
  cbn [foldl]. rewrite IH by (intros e' He'; apply Hf; by right).
  rewrite fmap_cons.
  destruct (decide (i ∈ s.*1)) as [Hin|Hnot].
  - rewrite decide_True; [done|by right].
  - destruct (decide (e.1 = i)) as [<-|Hne].
    + rewrite decide_True by by left. rewrite lookup_insert_eq.
      f_equal. apply Hf. by left.
    + rewrite decide_False; [by rewrite lookup_insert_ne|].
      intros [?|?]%elem_of_cons; congruence.
Qed.

(** The initialisation data of a parameter built from a data variable: the
    cells of the array that are neither missing nor infinite. *)
Lemma param_initialize_lookup (v : DataArray) (i : index) :
  to_dict (dropna true (cells v)) !! i
  = if decide (i ∈ product (da_coords v))
    then (if isnull true (da_data v i) then None else Some (da_data v i))
    else None.
Proof.
  unfold to_dict.
  rewrite (to_dict_acc_lookup (da_data v)).
  2: { intros e [_ He]%list_elem_of_filter. unfold cells in He.
       apply list_elem_of_fmap in He as (j & -> & _). done. }
  rewrite lookup_empty.
  assert (i ∈ (dropna true (cells v)).*1
          ↔ i ∈ product (da_coords v) ∧ isnull true (da_data v i) = false) as Hkeys.
  { unfold dropna, cells. rewrite list_elem_of_fmap. split.
    - intros ([j x] & -> & [Hnull Hin]%list_elem_of_filter).
      apply list_elem_of_fmap in Hin as (j' & [= -> ->] & Hj'). done.
    - intros [Hin Hnull]. exists (i, da_data v i). split; [done|].
      apply list_elem_of_filter. split; [done|].
      apply list_elem_of_fmap. by exists i. }
  destruct (decide (i ∈ product (da_coords v))) as [Hin|Hnot].
  - destruct (isnull true (da_data v i)) eqn:Hnull.
    + rewrite decide_False; [done|]. rewrite Hkeys. intros [_ ?]. congruence.
    + rewrite decide_True; [done|]. by rewrite Hkeys.
  - rewrite decide_False; [done|]. rewrite Hkeys. by intros [? _].
Qed.

Lemma to_series_cells (v : DataArray) : da_dims v ≠ [] → to_series v = Ok (cells v).
Proof. unfold to_series. by destruct (da_dims v). Qed.

Lemma to_series_Ok (v : DataArray) (series : list (index * pyval)) :
  to_series v = Ok series → da_dims v ≠ [] ∧ series = cells v.
Proof. unfold to_series. destruct (da_dims v); [done|]. by intros [= <-]. Qed.

Lemma getattr_po_Ok (name within : string) :
  getattr_po name = Ok within → po name = true ∧ within = name.
Proof. unfold getattr_po. destruct (po name); [|done]. by intros [= <-]. Qed.

(** What [declare_param] does for an input that has dimensions, a domain
    [pyomo.core] knows and index sets on the model. *)
Lemma declare_param_input (defaults : gmap string pyval) (run_config : RunConfig)
    (m : model) (k : string) (v : DataArray) (dims : list (string * list label)) :
  is_input run_config v = Ok true →
  da_dims v ≠ [] →
  po (get_domain v) = true →
  index_sets m (da_dims v) = Ok dims →
  declare_param defaults run_config m k v
  = Ok (setattr m (param_name m k)
          (AParam (param_of defaults k (cells v) (get_domain v) dims))).
Proof.
  intros Hinput Hdims Hpo Hsets. unfold declare_param, getattr_po.
  by rewrite Hinput, to_series_cells, Hpo, Hsets.
Qed.

(** A declaration that went through either skipped the variable or stored
    its parameter. *)
Lemma declare_param_Ok (defaults : gmap string pyval) (run_config : RunConfig)
    (m m' : model) (k : string) (v : DataArray) :
  declare_param defaults run_config m k v = Ok m' →
  (is_input run_config v = Ok false ∧ m' = m)
  ∨ (is_input run_config v = Ok true
     ∧ da_dims v ≠ []
     ∧ po (get_domain v) = true
     ∧ ∃ dims, index_sets m (da_dims v) = Ok dims
         ∧ m' = setattr m (param_name m k)
                  (AParam (param_of defaults k (cells v) (get_domain v) dims))).
Proof.
  unfold declare_param.
  destruct (is_input run_config v) as [[]|]; [|intros [= <-]; by left|done].
  destruct (to_series v) as [series|] eqn:Hseries; [|done].
  apply to_series_Ok in Hseries as [Hdims ->].
  destruct (getattr_po (get_domain v)) as [within|] eqn:Hpo; [|done].
  apply getattr_po_Ok in Hpo as [Hpo ->].
  destruct (index_sets m (da_dims v)) as [dims|]; [|done].
  intros [= <-]. right. split_and!; [done..|]. by exists dims.
Qed.

Lemma infinite_is_null (x : pyval) :
  is_infinite x = true → isnull true x = true ∧ isnull false x = false.
Proof. by destruct x as [| | |[]|]. Qed.

Lemma missing_is_null (x : pyval) : isnull false x = true → isnull true x = true.
Proof. by destruct x as [| | |[]|]. Qed.

(** C10 (as the code has it): in the parameter [build_params] declares
    for an input data variable, a cell holding plus or minus infinity has no
    entry in the initialisation data, exactly as a missing cell has none,
    while every other cell keeps its value; a lookup at such a tuple answers
    with the default supplied for the variable, whatever it is: the default
    is tested for null without infinities counting, so the lookup returns
    infinity exactly when the default is infinite. *)
Theorem build_params_infinite_as_missing (defaults : gmap string pyval)
    (run_config : RunConfig) (m m' : model) (k : string) (v : DataArray) (d : pyval) :
  declare_param defaults run_config m k v = Ok m' →
  is_input run_config v = Ok true →
  defaults !! k = Some d →
  isnull false d = false →
  ∃ p, m' = setattr m (param_name m k) (AParam p)
    ∧ p_default p = Some d
    ∧ (∀ i, is_infinite (da_data v i) = true ∨ isnull false (da_data v i) = true →
            p_initialize p !! i = None ∧ param_value p i = Ok d)
    ∧ (∀ i, is_infinite (da_data v i) = true →
            ∃ x, param_value p i = Ok x ∧ is_infinite x = is_infinite d)
    ∧ (∀ i, i ∈ product (da_coords v) → isnull true (da_data v i) = false →
            p_initialize p !! i = Some (da_data v i)
            ∧ param_value p i = Ok (da_data v i)).
Proof.
  intros Hdeclared Hinput Hdef Hnotnull.
  apply declare_param_Ok in Hdeclared as [[Hskip _]|(_ & _ & _ & dims & _ & ->)];
    [congruence|].
  set (p := param_of defaults k (cells v) (get_domain v) dims).
  exists p. split; [done|].
  assert (p_default p = Some d) as Hd.
  { unfold p, param_of. cbn. by rewrite Hdef, Hnotnull. }
  assert (∀ i, is_infinite (da_data v i) = true ∨ isnull false (da_data v i) = true →
               p_initialize p !! i = None ∧ param_value p i = Ok d) as Hdropped.
  { intros i Hcell.
    assert (isnull true (da_data v i) = true) as Hnull.
    { destruct Hcell as [Hinf|Hmiss];
        [by apply infinite_is_null | by apply missing_is_null]. }
    assert (p_initialize p !! i = None) as Hnone.
    { unfold p. cbn. rewrite param_initialize_lookup, Hnull. by case_decide. }
    split; [done|]. unfold param_value. by rewrite Hnone, Hd. }
  split; [done|]. split; [done|]. split.
  - intros i Hinf. exists d. split; [|done]. apply Hdropped. by left.
  - intros i Hin Hnull.
    assert (p_initialize p !! i = Some (da_data v i)) as Hsome.
    { unfold p. cbn. rewrite param_initialize_lookup, Hnull. by rewrite decide_True. }
    split; [done|]. unfold param_value. by rewrite Hsome.
Qed.

Lemma string_length_app (a b : string) :
  String.length (a +:+ b) = String.length a + String.length b.
Proof.
  induction a as [|c a IH]; [done|].
  change (String c a +:+ b) with (String c (a +:+ b)).
  cbn [String.length]. by rewrite IH.
Qed.

Lemma prefixed_ne (k : string) : "calliope_" +:+ k ≠ k.
Proof.
  intros Heq. apply (f_equal String.length) in Heq.
  rewrite string_length_app in Heq. cbn in Heq. lia.
Qed.

(** C6 (as the code has it): when the name [k] of a data variable is taken
    by an attribute of the model, the parameter is stored under
    [calliope_k]; the attribute [k] is as before, as is every attribute
    other than [calliope_k] and the index set [calliope_k_index] that Pyomo
    keeps beside a parameter over several sets, and the declaration does
    not fail for the collision.  The name [calliope_k_index] is taken to be
    free, as it is unless an earlier parameter was stored under
    [calliope_k]. *)
Theorem declare_param_collision_renames (defaults : gmap string pyval)
    (run_config : RunConfig) (m : model) (k : string) (v : DataArray) (a : attr)
    (dims : list (string * list label)) :
  m !! k = Some a →
  hasattr m ("calliope_" +:+ k +:+ "_index") = false →
  is_input run_config v = Ok true →
  da_dims v ≠ [] →
  po (get_domain v) = true →
  index_sets m (da_dims v) = Ok dims →
  ∃ m', declare_param defaults run_config m k v = Ok m'
    ∧ m' !! ("calliope_" +:+ k)
      = Some (AParam (param_of defaults k (cells v) (get_domain v) dims))
    ∧ m' !! k = Some a
    ∧ ∀ n, n ≠ "calliope_" +:+ k → n ≠ "calliope_" +:+ k +:+ "_index" →
           m' !! n = m !! n.
Proof.
  intros Hk _ Hinput Hnonscalar Hpo Hdims.
  rewrite (declare_param_input _ _ _ _ _ dims) by done.
  assert (param_name m k = "calliope_" +:+ k) as ->.
  { unfold param_name, hasattr. by rewrite bool_decide_eq_true_2. }
  eexists. split; [done|]. unfold setattr. split_and!.
  - apply lookup_insert_eq.
  - rewrite lookup_insert_ne by apply prefixed_ne. done.
  - intros n Hn _. by rewrite lookup_insert_ne.
Qed.

Lemma declare_param_keeps (defaults : gmap string pyval) (run_config : RunConfig)
    (m m' : model) (k : string) (v : DataArray) (n : string) (a : attr) :
  m !! n = Some a →
  (∀ k', n ≠ "calliope_" +:+ k') →
  declare_param defaults run_config m k v = Ok m' →
  m' !! n = Some a.
Proof.
  intros Hn Hpre [[_ ->]|(_ & _ & _ & dims & _ & ->)]%declare_param_Ok; [done|].
  unfold setattr, param_name, hasattr.
  case_bool_decide as Hk.
  - by rewrite lookup_insert_ne.
  - rewrite lookup_insert_ne; [done|]. intros ->. apply Hk. by rewrite Hn.
Qed.

Lemma declare_params_keep (defaults : gmap string pyval) (run_config : RunConfig)
    (vars : list (string * DataArray)) (m m' : model) (n : string) (a : attr) :
  m !! n = Some a →
  (∀ k', n ≠ "calliope_" +:+ k') →
  for_items (declare_param defaults run_config) vars m = Ok m' →
  m' !! n = Some a.
Proof.
  intros Hn Hpre. revert m Hn.
  induction vars as [|[k v] vars IH]; intros m Hn; cbn [for_items].
  - by intros [= <-].
  - destruct (declare_param defaults run_config m k v) as [m1|] eqn:Hstep; [|done].
    apply IH. by eapply declare_param_keeps.
Qed.

Lemma declare_option_keeps (m m' : model) (name : string) (val : optval) (n : string) :
  n ≠ "objective_" +:+ name →
  declare_option m name val = Ok m' →
  m' !! n = m !! n.
Proof.
  intros Hn. unfold declare_option.
  destruct (decide (name = "cost_class")) as [->|_].
  - destruct val; [done|]. destruct (m !! "costs") as [[]|]; try done.
    intros [= <-]. unfold setattr. by rewrite lookup_insert_ne.
  - intros [= <-]. unfold setattr. by rewrite lookup_insert_ne.
Qed.

Lemma other_options_pass (options : list (string * optval)) (m : model) :
  "cost_class" ∉ options.*1 →
  ∃ m', for_items declare_option options m = Ok m'
    ∧ ∀ n, (∀ o, o ∈ options.*1 → n ≠ "objective_" +:+ o) → m' !! n = m !! n.
Proof.
  revert m. induction options as [|[name val] options IH]; intros m Hnot.
  - by exists m.
  - rewrite fmap_cons in Hnot. cbn [fst] in Hnot.
    apply not_elem_of_cons in Hnot as [Hne Hnot].
    cbn [for_items].
    assert (declare_option m name val
            = Ok (setattr m ("objective_" +:+ name) (AOption val))) as Hstep.
    { unfold declare_option. by rewrite decide_False. }
    rewrite Hstep. destruct (IH (setattr m ("objective_" +:+ name) (AOption val)) Hnot)
      as (m' & Hrun & Hkeep).
    exists m'. split; [done|]. intros n Hn.
    rewrite Hkeep.
    + unfold setattr. rewrite lookup_insert_ne; [done|]. intros Heq.
      apply (Hn name); [|done]. rewrite fmap_cons. by left.
    + intros o Ho. apply Hn. rewrite fmap_cons. by right.
Qed.

Lemma objective_prefix_inj (a b : string) : "objective_" +:+ a = "objective_" +:+ b → a = b.
Proof. apply String.app_inj. Qed.

Lemma options_loop_cost_class (options : list (string * optval)) (m : model)
    (costs : list label) (cc : list (string * pyval)) :
  NoDup options.*1 →
  ("cost_class", ODict cc) ∈ options →
  m !! "costs" = Some (ASet costs) →
  ∃ m', for_items declare_option options m = Ok m'
    ∧ m' !! "objective_cost_class" = Some (AParam (cost_class_param cc costs))
    ∧ ∀ n, (∀ o, n ≠ "objective_" +:+ o) → m' !! n = m !! n.
Proof.
  revert m. induction options as [|[name val] options IH]; intros m Hnd Hin Hcosts.
  - by apply elem_of_nil in Hin.
  - rewrite fmap_cons in Hnd. cbn [fst] in Hnd. apply NoDup_cons in Hnd as [Hfresh Hnd].
    cbn [for_items]. apply elem_of_cons in Hin as [[= <- <-]|Hin].
    + unfold declare_option at 1. rewrite decide_True by done. rewrite Hcosts.
      fold (cost_class_param cc costs).
      destruct (other_options_pass options
                  (setattr m "objective_cost_class" (AParam (cost_class_param cc costs)))
                  Hfresh) as (m' & Hrun & Hkeep).
      exists m'. split; [done|]. split.
      * rewrite Hkeep; [apply lookup_insert_eq|].
        intros o Ho Heq. apply (objective_prefix_inj "cost_class" o) in Heq. congruence.
      * intros n Hn. rewrite Hkeep by (intros; apply Hn).
        unfold setattr. rewrite lookup_insert_ne; [done|]. intros Heq.
        by apply (Hn "cost_class").
    + assert (name ≠ "cost_class") as Hne.
      { intros ->. apply Hfresh. apply list_elem_of_fmap. by exists ("cost_class", ODict cc). }
      unfold declare_option at 1. rewrite decide_False by done.
      destruct (IH (setattr m ("objective_" +:+ name) (AOption val)) Hnd Hin)
        as (m' & Hrun & Hcc & Hkeep).
      { unfold setattr. by rewrite lookup_insert_ne. }
      exists m'. split; [done|]. split; [done|]. intros n Hn.
      rewrite Hkeep by done. unfold setattr. rewrite lookup_insert_ne; [done|].
      intros Heq. by apply (Hn name).
Qed.

Lemma options_keep (options : list (string * optval)) (m m' : model) (n : string) :
  (∀ o, n ≠ "objective_" +:+ o) →
  for_items declare_option options m = Ok m' →
  m' !! n = m !! n.
Proof.
  intros Hn. revert m. induction options as [|[name val] options IH]; intros m; cbn [for_items].
  - by intros [= <-].
  - destruct (declare_option m name val) as [m1|] eqn:Hstep; [|done].
    intros Hrun. rewrite (IH _ Hrun). by eapply declare_option_keeps.
Qed.

(** The two configuration attributes stay what [build_params] first set
    them to: no later assignment of the function targets them. *)
Lemma build_params_keeps_config (model_data : Dataset) (m m' : model) :
  build_params model_data m = Ok m' →
  m' !! "__calliope_defaults" = Some (ADefaults (ds_defaults model_data))
  ∧ m' !! "__calliope_run_config" = Some (ARunConfig (ds_run_config model_data)).
Proof.
  unfold build_params, declare_params.
  destruct (for_items _ (ds_data_vars model_data) _) as [m1|] eqn:Hvars; [|done].
  destruct (rc_objective_options (ds_run_config model_data)) as [options|]; [|done].
  destruct (for_items declare_option options m1) as [m2|] eqn:Hopts; [|done].
  intros [= <-].
  assert (∀ n a, n ≠ "bigM" → (∀ o, n ≠ "objective_" +:+ o) → (∀ k, n ≠ "calliope_" +:+ k) →
                 store_config model_data m !! n = Some a →
                 setattr m2 "bigM" (AParam (bigM_param (ds_run_config model_data))) !! n
                 = Some a) as Hkeep.
  { intros n a Hbig Hobj Hcal Hn. unfold setattr at 1. rewrite lookup_insert_ne by done.
    rewrite (options_keep _ _ _ _ Hobj Hopts).
    by eapply declare_params_keep. }
  split; apply Hkeep; try done; try (by intros []).
  - unfold store_config, setattr. by rewrite lookup_insert_ne, lookup_insert_eq.
  - unfold store_config, setattr. by rewrite lookup_insert_eq.
Qed.

Lemma dict_get_None {V} (d : list (string * V)) (k : string) :
  dict_get d k = None ↔ k ∉ d.*1.
Proof.
  induction d as [|[k' v] d IH]; cbn [dict_get].
  - split; [intros _; apply not_elem_of_nil|done].
  - rewrite fmap_cons, not_elem_of_cons. cbn [fst].
    destruct (decide (k' = k)) as [->|Hne]; [split; [done|by intros [? _]]|].
    rewrite IH. split; [by intros ?; split|by intros [_ ?]].
Qed.

Lemma dict_get_elem {V} (d : list (string * V)) (k : string) (v : V) :
  NoDup d.*1 → (k, v) ∈ d → dict_get d k = Some v.
Proof.
  induction d as [|[k' v'] d IH]; intros Hnd Hin.
  - by apply elem_of_nil in Hin.
  - rewrite fmap_cons in Hnd. cbn [fst] in Hnd. apply NoDup_cons in Hnd as [Hfresh Hnd].
    cbn [dict_get]. apply elem_of_cons in Hin as [[= -> ->]|Hin].
    + by rewrite decide_True.
    + rewrite decide_False; [by apply IH|].
      intros ->. apply Hfresh. apply list_elem_of_fmap. by exists (k, v).
Qed.

Lemma dict_get_Some_elem {V} (d : list (string * V)) (k : string) (v : V) :
  dict_get d k = Some v → (k, v) ∈ d.
Proof.
  induction d as [|[k' v'] d IH]; cbn [dict_get]; [done|].
  destruct (decide (k' = k)) as [->|Hne].
  - intros [= ->]. by left.
  - intros H. right. by apply IH.
Qed.

(** A dictionary with single-label keys, turned into initialisation data,
    answers as the dictionary does. *)
Lemma dict_init_lookup (d : list (string * pyval)) (k : string) :
  NoDup d.*1 → dict_init d !! [LStr k] = dict_get d k.
Proof.
  intros Hnd. unfold dict_init, to_dict.
  rewrite (to_dict_acc_lookup
             (λ i, match i with
                   | [LStr k'] => default PyNone (dict_get d k')
                   | _ => PyNone
                   end)).
  2: { intros e ([k' v'] & -> & Hin)%list_elem_of_fmap. cbn.
       by rewrite (dict_get_elem d k' v' Hnd Hin). }
  rewrite lookup_empty. case_decide as Hin.
  - apply list_elem_of_fmap in Hin as (e & He & Hin).
    apply list_elem_of_fmap in Hin as ([k' v'] & -> & Hin'). cbn in He.
    injection He as ->. by rewrite (dict_get_elem d k' v' Hnd Hin').
  - symmetry. apply dict_get_None. intros Hk. apply Hin.
    apply list_elem_of_fmap in Hk as ([k' v'] & -> & Hin').
    apply list_elem_of_fmap. exists ([LStr k'], v'). split; [done|].
    apply list_elem_of_fmap. by exists (k', v').
Qed.

Lemma filter_cost_class_get (cc : list (string * pyval)) (costs : list label) (k : string) :
  dict_get (filter_cost_class cc costs) k
  = if decide (LStr k ∈ costs) then dict_get cc k else None.
Proof.
  unfold filter_cost_class. induction cc as [|[k' v] cc IH].
  - by case_decide.
  - rewrite filter_cons. cbn [fst dict_get].
    destruct (decide (LStr k' ∈ costs)) as [Hin|Hnot]; cbn [dict_get].
    + destruct (decide (k' = k)) as [->|Hne]; [by rewrite decide_True|done].
    + destruct (decide (k' = k)) as [->|Hne]; [by rewrite IH, !decide_False by done|done].
Qed.

Lemma filter_cost_class_NoDup (cc : list (string * pyval)) (costs : list label) :
  NoDup cc.*1 → NoDup (filter_cost_class cc costs).*1.
Proof.
  unfold filter_cost_class. induction cc as [|[k v] cc IH]; intros Hnd; [done|].
  rewrite fmap_cons in Hnd. cbn [fst] in Hnd. apply NoDup_cons in Hnd as [Hfresh Hnd].
  rewrite filter_cons. case_decide; [|by apply IH].
  rewrite fmap_cons. apply NoDup_cons. split; [|by apply IH].
  cbn [fst]. intros ([k' v'] & Heq & [_ Hin]%list_elem_of_filter)%list_elem_of_fmap.
  cbn in Heq. subst k'. apply Hfresh. apply list_elem_of_fmap. by exists (k, v').
Qed.

(** C5: with a [cost_class] option among the objective options and the set
    [costs] on the model, [build_params] declares [objective_cost_class]
    over [costs], mutable and real-valued, and every weight of
    [cost_class] whose key is in [costs] is in it with its value; for
    [cost_class={monetary: 1, co2: 0}] and [costs={monetary, co2}] these are
    both keys. *)
Theorem build_params_keeps_cost_classes (model_data : Dataset) (m m1 : model)
    (costs : list label) (options : list (string * optval)) (cc : list (string * pyval)) :
  m !! "costs" = Some (ASet costs) →
  rc_objective_options (ds_run_config model_data) = Some options →
  NoDup options.*1 →
  ("cost_class", ODict cc) ∈ options →
  NoDup cc.*1 →
  declare_params model_data (store_config model_data m) = Ok m1 →
  ∃ m' p, build_params model_data m = Ok m'
    ∧ m' !! "objective_cost_class" = Some (AParam p)
    ∧ p_index p = [("costs", costs)]
    ∧ p_mutable p = true
    ∧ p_within p = "Reals"
    ∧ (∀ k v, dict_get cc k = Some v → LStr k ∈ costs →
              p_initialize p !! [LStr k] = Some v ∧ param_value p [LStr k] = Ok v)
    ∧ (∀ k, LStr k ∉ costs → p_initialize p !! [LStr k] = None).
Proof.
  intros Hcosts Hopts Hnd Hin Hcc Hvars.
  assert (m1 !! "costs" = Some (ASet costs)) as Hcosts1.
  { eapply declare_params_keep; [|by intros []|exact Hvars].
    unfold store_config, setattr. by rewrite !lookup_insert_ne. }
  destruct (options_loop_cost_class options m1 costs cc Hnd Hin Hcosts1)
    as (m2 & Hrun & Hparam & _).
  exists (setattr m2 "bigM" (AParam (bigM_param (ds_run_config model_data)))),
         (cost_class_param cc costs).
  split.
  { unfold build_params. by rewrite Hvars, Hopts, Hrun. }
  split.
  { unfold setattr. by rewrite lookup_insert_ne. }
  split_and!; try done.
  - intros k v Hget Hk.
    assert (p_initialize (cost_class_param cc costs) !! ([LStr k] : index) = Some v)
      as Hinit.
    { cbn. rewrite dict_init_lookup by by apply filter_cost_class_NoDup.
      by rewrite filter_cost_class_get, decide_True. }
    split; [done|]. unfold param_value.
    change (list label) with index. by rewrite Hinit.
  - intros k Hk. cbn. rewrite dict_init_lookup by by apply filter_cost_class_NoDup.
    by rewrite filter_cost_class_get, decide_False.
Qed.

(** ** Properties of result extraction *)

Lemma dict_get_set {V} (d : list (string * V)) (k k' : string) (v : V) :
  dict_get (dict_set d k v) k' = if decide (k = k') then Some v else dict_get d k'.
Proof.
  induction d as [|[k0 v0] d IH]; cbn [dict_set dict_get]; [done|].
  destruct (decide (k0 = k)) as [->|Hne]; cbn [dict_get].
  - by destruct (decide (k = k')).
  - rewrite IH. destruct (decide (k0 = k')) as [->|?]; [by rewrite decide_False|done].
Qed.

Lemma dict_update_get {V} (d other : list (string * V)) (k : string) :
  NoDup other.*1 →
  dict_get (dict_update d other) k
  = match dict_get other k with Some v => Some v | None => dict_get d k end.
Proof.
  unfold dict_update. revert d.
  induction other as [|[k0 v0] other IH]; intros d Hnd; [done|].
  rewrite fmap_cons in Hnd. cbn [fst] in Hnd. apply NoDup_cons in Hnd as [Hfresh Hnd].
  cbn [foldl fst snd dict_get]. rewrite IH by done. rewrite dict_get_set.
  destruct (decide (k0 = k)) as [->|Hne]; [|done].
  by rewrite (proj2 (dict_get_None other k) Hfresh).
Qed.

Lemma dict_update_keys {V} (other : list (string * V)) :
  NoDup other.*1 → ∀ k, dict_get (dict_update [] other) k = dict_get other k.
Proof. intros Hnd k. rewrite dict_update_get by done. by destruct (dict_get other k). Qed.

Lemma dict_get_fmap {V W} (g : V → W) (d : list (string * V)) (k : string) :
  dict_get ((λ na, (na.1, g na.2)) <$> d) k = g <$> dict_get d k.
Proof.
  induction d as [|[k0 v0] d IH]; [done|].
  rewrite fmap_cons. cbn [dict_get fst snd]. by destruct (decide (k0 = k)).
Qed.

Lemma dict_get_map_to_list {V} (m : gmap string V) (k : string) :
  dict_get (map_to_list m) k = m !! k.
Proof.
  destruct (m !! k) as [v|] eqn:Hk.
  - apply dict_get_elem; [apply NoDup_fst_map_to_list|by apply elem_of_map_to_list].
  - apply dict_get_None. intros ([k' v] & -> & Hin)%list_elem_of_fmap.
    apply elem_of_map_to_list in Hin. cbn in Hk. congruence.
Qed.

(** Selecting from a dictionary keeps the keys apart and answers a lookup
    with the selection of what the dictionary holds. *)
Lemma dict_get_omap {A B} (g : string → A → option B) (d : list (string * A)) (k : string) :
  NoDup d.*1 →
  NoDup (omap (λ na, (λ b, (na.1, b)) <$> g na.1 na.2) d).*1
  ∧ dict_get (omap (λ na, (λ b, (na.1, b)) <$> g na.1 na.2) d) k = dict_get d k ≫= g k.
Proof.
  induction d as [|[k0 a0] d IH]; intros Hnd.
  - split; [constructor|done].
  - rewrite fmap_cons in Hnd. cbn [fst] in Hnd. apply NoDup_cons in Hnd as [Hfresh Hnd].
    destruct (IH Hnd) as [IH1 IH2].
    cbn [omap list_omap fst snd dict_get].
    destruct (g k0 a0) as [b|] eqn:Hg; cbn [fmap option_fmap option_map].
    + split.
      * rewrite fmap_cons. apply NoDup_cons. split; [|done]. cbn [fst].
        intros ([k1 b1] & Heq & Hin)%list_elem_of_fmap. cbn in Heq. subst k1.
        apply list_elem_of_omap in Hin as ([k2 a2] & Hin & Hsel).
        cbn [fst snd] in Hsel. destruct (g k2 a2); [|done]. injection Hsel as -> _.
        apply Hfresh. apply list_elem_of_fmap. by exists (k0, a2).
      * cbn [dict_get]. destruct (decide (k0 = k)) as [->|?]; [|done].
        cbn [mbind option_bind]. by rewrite Hg.
    + split; [done|]. destruct (decide (k0 = k)) as [->|?]; [|done].
      cbn [mbind option_bind]. rewrite Hg. rewrite IH2.
      by rewrite (proj2 (dict_get_None d k) Hfresh).
Qed.

Lemma component_objects_get {C} (ctype : attr → option C) (m : model) (k : string) :
  NoDup (component_objects ctype m).*1
  ∧ dict_get (component_objects ctype m) k = m !! k ≫= ctype.
Proof.
  unfold component_objects.
  destruct (dict_get_omap (λ _ a, ctype a) (map_to_list m) k (NoDup_fst_map_to_list m))
    as [H1 H2].
  split; [done|]. by rewrite H2, dict_get_map_to_list.
Qed.

Lemma family_arrays_get (model_data : Dataset) (m : model)
    (families : list (string * Family)) (components : list (string * attr))
    (arrays : list (string * DataArray)) (k : string) :
  family_arrays model_data m families components = Ok arrays →
  arrays.*1 = components.*1
  ∧ dict_get arrays k
    = (a ← dict_get components k;
       family ← dict_get families k;
       Some (family_array model_data m family a)).
Proof.
  revert arrays. induction components as [|[k0 a0] components IH]; intros arrays.
  - cbn. by intros [= <-].
  - cbn [family_arrays]. destruct (dict_get families k0) as [family|] eqn:Hfam; [|done].
    destruct (family_arrays _ _ _ components) as [rest|]; [|done].
    intros [= <-]. destruct (IH rest eq_refl) as [IH1 IH2].
    split; [by rewrite !fmap_cons, IH1|].
    cbn [dict_get]. destruct (decide (k0 = k)) as [->|?]; [|done].
    cbn. by rewrite Hfam.
Qed.

Lemma family_arrays_Ok (model_data : Dataset) (m : model)
    (families : list (string * Family)) (components : list (string * attr)) :
  (∀ k, k ∈ components.*1 → is_Some (dict_get families k)) →
  ∃ arrays, family_arrays model_data m families components = Ok arrays.
Proof.
  induction components as [|[k0 a0] components IH]; intros Hall; [by eexists|].
  cbn [family_arrays].
  destruct (Hall k0) as [family ->]; [rewrite fmap_cons; by left|].
  destruct IH as [rest ->]; [|by eexists].
  intros k Hk. apply Hall. rewrite fmap_cons. by right.
Qed.

Lemma wrapped_components_get {C} (ctype : attr → option C) (wrap : C → attr)
    (m : model) (k : string) :
  NoDup ((λ nc, (nc.1, wrap nc.2)) <$> component_objects ctype m).*1
  ∧ dict_get ((λ nc, (nc.1, wrap nc.2)) <$> component_objects ctype m) k
    = wrap <$> (m !! k ≫= ctype).
Proof.
  destruct (component_objects_get ctype m k) as [Hnd Hget].
  split.
  - rewrite <- list_fmap_compose.
    by rewrite (list_fmap_ext _ fst (component_objects ctype m)) by done.
  - by rewrite dict_get_fmap, Hget.
Qed.

Lemma dict_set_keys {V} (d : list (string * V)) (k : string) (v : V) (k' : string) :
  k' ∈ (dict_set d k v).*1 ↔ k' = k ∨ k' ∈ d.*1.
Proof.
  induction d as [|[k0 v0] d IH]; cbn [dict_set].
  - rewrite !fmap_cons, elem_of_cons. cbn. by rewrite elem_of_nil.
  - destruct (decide (k0 = k)) as [->|Hne]; rewrite !fmap_cons, !elem_of_cons; cbn [fst].
    + split; [intros [?|?]; auto | intros [?|[?|?]]; auto].
    + rewrite IH. split; [intros [?|[?|?]]; auto | intros [?|[?|?]]; auto].
Qed.

Lemma dict_set_NoDup {V} (d : list (string * V)) (k : string) (v : V) :
  NoDup d.*1 → NoDup (dict_set d k v).*1.
Proof.
  induction d as [|[k0 v0] d IH]; intros Hnd; cbn [dict_set].
  - rewrite fmap_cons. apply NoDup_cons. split; [apply not_elem_of_nil|constructor].
  - rewrite fmap_cons in Hnd. cbn [fst] in Hnd. apply NoDup_cons in Hnd as [Hfresh Hnd].
    destruct (decide (k0 = k)) as [->|Hne]; rewrite fmap_cons; apply NoDup_cons; cbn [fst].
    + done.
    + split; [|by apply IH]. rewrite dict_set_keys. intros [?|?]; congruence.
Qed.

Lemma dict_update_NoDup {V} (d other : list (string * V)) :
  NoDup d.*1 → NoDup (dict_update d other).*1.
Proof.
  unfold dict_update. revert d. induction other as [|[k v] other IH]; intros d Hnd; [done|].
  cbn [foldl]. apply IH. by apply dict_set_NoDup.
Qed.

Lemma all_variables_get (m : model) (model_data : Dataset)
    (arrays : list (string * DataArray)) (k : string) :
  all_variables m model_data = Ok arrays →
  NoDup arrays.*1
  ∧ dict_get arrays k
    = (a ← m !! k;
       family ← family_of (ds_imasks model_data) k a;
       Some (family_array model_data m family a)).
Proof.
  unfold all_variables.
  destruct (family_arrays _ _ (ic_variables _) _) as [variables|] eqn:Hvars; [|done].
  destruct (family_arrays _ _ (ic_expressions _) _) as [expressions|] eqn:Hexprs; [|done].
  intros [= <-].
  destruct (family_arrays_get _ _ _ _ _ k Hvars) as [Hkv Hgv].
  destruct (family_arrays_get _ _ _ _ _ k Hexprs) as [Hke Hge].
  destruct (wrapped_components_get is_Var AVar m k) as [Hndv Hcv].
  destruct (wrapped_components_get is_Expression AExpression m k) as [Hnde Hce].
  rewrite <- Hkv in Hndv. rewrite <- Hke in Hnde.
  split.
  { apply dict_update_NoDup, dict_update_NoDup. constructor. }
  rewrite dict_update_get by done. rewrite dict_update_keys by done.
  rewrite Hge, Hgv, Hce, Hcv.
  destruct (m !! k) as [[]|]; cbn; try done.
  by destruct (dict_get (ic_expressions (ds_imasks model_data)) k).
Qed.

Lemma all_variables_Ok (m : model) (model_data : Dataset) :
  (∀ k a, m !! k = Some a → is_family a = true →
          is_Some (family_of (ds_imasks model_data) k a)) →
  ∃ arrays, all_variables m model_data = Ok arrays.
Proof.
  intros Hall. unfold all_variables.
  destruct (family_arrays_Ok model_data m (ic_variables (ds_imasks model_data))
              ((λ nv, (nv.1, AVar nv.2)) <$> component_objects is_Var m)) as [variables ->].
  { intros k Hk.
    destruct (wrapped_components_get is_Var AVar m k) as [_ Hget].
    destruct (dict_get ((λ nv, (nv.1, AVar nv.2)) <$> component_objects is_Var m) k)
      as [a|] eqn:Hd; [|by apply dict_get_None in Hd].
    destruct (m !! k) as [[]|] eqn:Hm; try done. by apply (Hall k (AVar v)). }
  destruct (family_arrays_Ok model_data m (ic_expressions (ds_imasks model_data))
              ((λ ne, (ne.1, AExpression ne.2)) <$> component_objects is_Expression m))
    as [expressions ->]; [|by eexists].
  intros k Hk.
  destruct (wrapped_components_get is_Expression AExpression m k) as [_ Hget].
  destruct (dict_get ((λ ne, (ne.1, AExpression ne.2))
                      <$> component_objects is_Expression m) k)
    as [a|] eqn:Hd; [|by apply dict_get_None in Hd].
  destruct (m !! k) as [[]|] eqn:Hm; try done. by apply (Hall k (AExpression e)).
Qed.

Lemma dict_get_is_Some {V} (d : list (string * V)) (k : string) :
  is_Some (dict_get d k) ↔ k ∈ d.*1.
Proof.
  destruct (dict_get d k) as [v|] eqn:Hget.
  - split; [intros _|by eexists].
    destruct (decide (k ∈ d.*1)) as [Hin|Hnot]; [done|].
    apply dict_get_None in Hnot. congruence.
  - split; [by intros [? ?]|]. intros Hin. by apply dict_get_None in Hget.
Qed.

(** Joining coordinates to those known keeps the known ones in place and
    puts behind them, once each, the new ones. *)
Lemma add_coords_split (axes coords : list (string * list label)) :
  ∃ new, foldl add_coord coords axes = coords ++ new
    ∧ (∀ ax, ax ∈ new → ax ∈ axes ∧ ax.1 ∉ coords.*1)
    ∧ (∀ k, k ∈ axes.*1 → k ∈ (coords ++ new).*1).
Proof.
  revert coords. induction axes as [|ax axes IH]; intros coords.
  - exists []. rewrite app_nil_r. split; [done|].
    split; [intros ? Hin|intros ? Hin]; by apply elem_of_nil in Hin.
  - cbn [foldl]. destruct (dict_get coords ax.1) as [labels|] eqn:Hget.
    + assert (add_coord coords ax = coords) as -> by (unfold add_coord; by rewrite Hget).
      destruct (IH coords) as (new & Heq & Hnew & Hkeys).
      exists new. split; [done|]. split.
      * intros ax' Hin. destruct (Hnew ax' Hin). split; [by right|done].
      * intros k. rewrite fmap_cons. intros [->|Hk]%elem_of_cons; [|by apply Hkeys].
        rewrite fmap_app. apply elem_of_app. left.
        apply dict_get_is_Some. by eexists.
    + assert (add_coord coords ax = coords ++ [ax]) as ->
        by (unfold add_coord; by rewrite Hget).
      destruct (IH (coords ++ [ax])) as (new & Heq & Hnew & Hkeys).
      exists (ax :: new). rewrite <- app_assoc in Heq, Hkeys. cbn [app] in Heq, Hkeys.
      split; [done|]. split.
      * intros ax' [->|Hin]%elem_of_cons.
        { split; [by left|by apply dict_get_None]. }
        destruct (Hnew ax' Hin) as [Hax Hfresh]. split; [by right|].
        intros Hc. apply Hfresh. rewrite fmap_app. apply elem_of_app. by left.
      * intros k. rewrite fmap_cons. intros [->|Hk]%elem_of_cons; [|by apply Hkeys].
        rewrite fmap_app, fmap_cons. apply elem_of_app. right. by left.
Qed.

Lemma add_dims_split (ds dims : list string) :
  ∃ new, foldl add_dim dims ds = dims ++ new ∧ ∀ d, d ∈ new → d ∈ ds ∧ d ∉ dims.
Proof.
  revert dims. induction ds as [|d ds IH]; intros dims.
  - exists []. rewrite app_nil_r. split; [done|]. intros ? Hin. by apply elem_of_nil in Hin.
  - cbn [foldl]. unfold add_dim at 2. destruct (decide (d ∈ dims)) as [Hin|Hnot].
    + destruct (IH dims) as (new & Heq & Hnew). exists new. split; [done|].
      intros d' Hd'. destruct (Hnew d' Hd'). split; [by right|done].
    + destruct (IH (dims ++ [d])) as (new & Heq & Hnew).
      exists (d :: new). rewrite <- app_assoc in Heq. split; [done|].
      intros d' [->|Hd']%elem_of_cons; [split; [by left|done]|].
      destruct (Hnew d' Hd') as [Hds Hfresh]. split; [by right|].
      intros Hc. apply Hfresh. apply elem_of_app. by left.
Qed.

Lemma filter_app_fresh {A} (P : A → Prop) `{∀ x, Decision (P x)} (old new : list A) :
  (∀ x, x ∈ old → P x) → (∀ x, x ∈ new → ¬ P x) → filter P (old ++ new) = old.
Proof.
  intros Hold Hnew. rewrite filter_app.
  assert (filter P old = old) as ->.
  { clear Hnew. induction old as [|x old IH]; [done|].
    rewrite filter_cons_True by (apply Hold; by left).
    f_equal. apply IH. intros y Hy. apply Hold. by right. }
  assert (filter P new = []) as ->; [|by rewrite app_nil_r].
  clear Hold. induction new as [|x new IH]; [done|].
  rewrite filter_cons_False by (apply Hnew; by left).
  apply IH. intros y Hy. apply Hnew. by right.
Qed.

Lemma dict_get_app_l {V} (d new : list (string * V)) (k : string) (v : V) :
  dict_get d k = Some v → dict_get (d ++ new) k = Some v.
Proof.
  induction d as [|[k0 v0] d IH]; cbn [dict_get app]; [done|].
  destruct (decide (k0 = k)); [done|apply IH].
Qed.




Lemma all_params_get (m : model) (model_data : Dataset) (k : string) :
  NoDup (all_params m model_data).*1
  ∧ dict_get (all_params m model_data) k
    = (p ← m !! k ≫= is_Param; additional_input model_data m k p).
Proof.
  unfold all_params.
  destruct (component_objects_get is_Param m k) as [Hnd Hget].
  destruct (dict_get_omap (additional_input model_data m)
              (component_objects is_Param m) k Hnd) as [H1 H2].
  split; [done|]. by rewrite H2, Hget.
Qed.

Lemma fmap_values_keys {V W} (g : V → W) (d : list (string * V)) :
  ((λ na, (na.1, g na.2)) <$> d).*1 = d.*1.
Proof. rewrite <- list_fmap_compose. by apply list_fmap_ext. Qed.

(** The data variables of [model_data] after the merge. *)
Lemma merge_params_get (m : model) (model_data : Dataset) (k : string) :
  dict_get (ds_data_vars (merge_params m model_data)) k
  = match dict_get (ds_data_vars model_data) k with
    | Some a => Some a
    | None => as_input <$> (p ← m !! k ≫= is_Param; additional_input model_data m k p)
    end.
Proof.
  destruct (all_params_get m model_data k) as [Hnd Hget].
  assert ((p ← m !! k ≫= is_Param; additional_input model_data m k p) ≠ None →
          dict_get (ds_data_vars model_data) k = None) as Hfresh.
  { destruct (m !! k ≫= is_Param) as [p|]; [|done]. cbn.
    unfold additional_input, is_additional_input.
    case_bool_decide as Hk; [done|]. cbn. done. }
  unfold merge_params. destruct (all_params m model_data) as [|x params] eqn:Hparams.
  - cbn in Hget. rewrite <- Hget. by destruct (dict_get (ds_data_vars model_data) k).
  - rewrite <- Hparams in *. clear Hparams x params.
    unfold update, mark_inputs, reorganise_xarray_dimensions, xr_Dataset. cbn [ds_data_vars].
    rewrite dict_update_get by (rewrite !fmap_values_keys; by apply dict_update_NoDup; constructor).
    rewrite !dict_get_fmap, dict_update_keys, Hget by done.
    destruct (p ← m !! k ≫= is_Param; additional_input model_data m k p) as [array|] eqn:Hp.
    + cbn. rewrite Hfresh by done. done.
    + cbn. by destruct (dict_get (ds_data_vars model_data) k).
Qed.

(** Where a coordinate of the arrays of the parameters handed back comes
    from: an index set of one of these parameters. *)
Lemma all_params_axes (m : model) (model_data : Dataset) (ax : string * list label) :
  ax ∈ all_params m model_data ≫= (λ na, zip (da_dims na.2) (da_coords na.2)) →
  ∃ k p, m !! k = Some (AParam p)
    ∧ is_additional_input model_data k p = true
    ∧ ax.1 ∈ (p_index p).*1.
Proof.
  intros ([k array] & Hzip & Hin)%list_elem_of_bind. cbn [snd] in Hzip.
  destruct ax as [d labels]. apply elem_of_zip_l in Hzip.
  destruct (all_params_get m model_data k) as [Hnd Hget].
  rewrite (dict_get_elem _ k array Hnd Hin) in Hget.
  destruct (m !! k) as [[]|] eqn:Hk; try done. cbn in Hget.
  unfold additional_input in Hget.
  destruct (is_additional_input model_data k p) eqn:Hsel; [|done].
  injection Hget as ->. by exists k, p.
Qed.

(** The dimensions and coordinates of [model_data] after the merge: those
    it had, in place, and behind them those that index sets of the merged
    parameters bring. *)
Lemma merge_params_dims (m : model) (model_data : Dataset) :
  ∃ new_dims new_coords,
    ds_dims (merge_params m model_data) = ds_dims model_data ++ new_dims
    ∧ ds_coords (merge_params m model_data) = ds_coords model_data ++ new_coords
    ∧ (∀ d, d ∈ new_dims → d ∉ ds_dims model_data)
    ∧ (∀ d, d ∈ new_coords.*1 → d ∉ (ds_coords model_data).*1)
    ∧ ∀ d, d ∈ new_dims ∨ d ∈ new_coords.*1 →
           ∃ k p, m !! k = Some (AParam p)
             ∧ is_additional_input model_data k p = true
             ∧ d ∈ (p_index p).*1.
Proof.
  unfold merge_params. destruct (all_params m model_data) as [|x params] eqn:Hparams.
  { exists [], []. rewrite !app_nil_r. split; [done|]. split; [done|].
    split; [intros ? Hin; by apply elem_of_nil in Hin|].
    split; [intros ? Hin; by apply elem_of_nil in Hin|].
    intros d [Hin|Hin]; by apply elem_of_nil in Hin. }
  rewrite <- Hparams. clear Hparams x params.
  cbn [update mark_inputs reorganise_xarray_dimensions xr_Dataset ds_dims ds_coords].
  destruct (add_coords_split
              (all_params m model_data ≫= (λ na, zip (da_dims na.2) (da_coords na.2))) [])
    as (other & -> & Hother & _). cbn [app].
  destruct (add_dims_split other.*1 (ds_dims model_data)) as (new_dims & -> & Hdims).
  destruct (add_coords_split other (ds_coords model_data))
    as (new_coords & -> & Hcoords & _).
  exists new_dims, new_coords. split; [done|]. split; [done|].
  split; [intros d Hd; by apply Hdims|].
  split.
  { intros d ([d' labels] & -> & Hin)%list_elem_of_fmap. by apply (Hcoords _ Hin). }
  intros d [Hd|Hd].
  - destruct (Hdims d Hd) as [([d' labels] & -> & Hin)%list_elem_of_fmap _].
    by apply (all_params_axes m model_data (d', labels)), Hother.
  - apply list_elem_of_fmap in Hd as ([d' labels] & -> & Hin).
    apply (all_params_axes m model_data (d', labels)), Hother.
    by apply (Hcoords _ Hin).
Qed.

(** C8 (as the code has it): [get_result_array] changes the dataset it is
    given only by adding parameters to it.  Every data variable the dataset
    had is still there with the same array; a data variable it gained is a
    parameter of the model that is indexed, whose name is not a data
    variable of the dataset and does not contain [objective_]; and once the
    arrays of the variables and expressions are built, every such parameter
    is added, whether it is mutable or not.  The attributes of the dataset
    are as before; its dimensions and coordinates are still there, in their
    order and with their labels, and a dimension or coordinate it gained is
    an index set of an added parameter. *)
Theorem get_result_array_adds_params (m : model) (model_data : Dataset) :
  let after := (get_result_array m model_data).2 in
  (∀ k a, dict_get (ds_data_vars model_data) k = Some a →
          dict_get (ds_data_vars after) k = Some a)
  ∧ (∀ k array,
       dict_get (ds_data_vars model_data) k = None →
       dict_get (ds_data_vars after) k = Some array →
       ∃ p, m !! k = Some (AParam p)
         ∧ p_index p ≠ []
         ∧ contains "objective_" k = false
         ∧ array = as_input (get_var model_data m (AParam p) ((p_index p).*1)))
  ∧ (∀ arrays k p,
       all_variables m model_data = Ok arrays →
       m !! k = Some (AParam p) →
       dict_get (ds_data_vars model_data) k = None →
       p_index p ≠ [] →
       contains "objective_" k = false →
       dict_get (ds_data_vars after) k
       = Some (as_input (get_var model_data m (AParam p) ((p_index p).*1))))
  ∧ ds_defaults after = ds_defaults model_data
  ∧ ds_run_config after = ds_run_config model_data
  ∧ ds_imasks after = ds_imasks model_data
  ∧ (∀ k labels, dict_get (ds_coords model_data) k = Some labels →
                 dict_get (ds_coords after) k = Some labels)
  ∧ filter (λ d, d ∈ ds_dims model_data) (ds_dims after) = ds_dims model_data
  ∧ filter (λ c, c.1 ∈ (ds_coords model_data).*1) (ds_coords after)
    = ds_coords model_data
  ∧ ∀ d, (d ∈ ds_dims after ∧ d ∉ ds_dims model_data)
         ∨ (d ∈ (ds_coords after).*1 ∧ d ∉ (ds_coords model_data).*1) →
         ∃ k p array,
           m !! k = Some (AParam p)
           ∧ d ∈ (p_index p).*1
           ∧ dict_get (ds_data_vars model_data) k = None
           ∧ dict_get (ds_data_vars after) k = Some array.
Proof.
  intros after.
  assert (after = model_data ∨ after = merge_params m model_data) as Hafter.
  { subst after. unfold get_result_array.
    destruct (all_variables m model_data); [|by left].
    right. by destruct (dict_get _ "timesteps"). }
  assert (∃ new_dims new_coords,
            ds_dims after = ds_dims model_data ++ new_dims
            ∧ ds_coords after = ds_coords model_data ++ new_coords
            ∧ (∀ d, d ∈ new_dims → d ∉ ds_dims model_data)
            ∧ (∀ d, d ∈ new_coords.*1 → d ∉ (ds_coords model_data).*1)
            ∧ ∀ d, d ∈ new_dims ∨ d ∈ new_coords.*1 →
                   ∃ k p array,
                     m !! k = Some (AParam p)
                     ∧ d ∈ (p_index p).*1
                     ∧ dict_get (ds_data_vars model_data) k = None
                     ∧ dict_get (ds_data_vars after) k = Some array) as Hshape.
  { destruct Hafter as [->| ->].
    - exists [], []. rewrite !app_nil_r. split; [done|]. split; [done|].
      split; [intros ? Hin; by apply elem_of_nil in Hin|].
      split; [intros ? Hin; by apply elem_of_nil in Hin|].
      intros d [Hin|Hin]; by apply elem_of_nil in Hin.
    - destruct (merge_params_dims m model_data)
        as (new_dims & new_coords & Hd & Hc & Hfd & Hfc & Horigin).
      exists new_dims, new_coords. split; [done|]. split; [done|].
      split; [done|]. split; [done|].
      intros d Hd'. destruct (Horigin d Hd') as (k & p & Hk & Hsel & Hin).
      assert (dict_get (ds_data_vars model_data) k = None) as Hfresh.
      { unfold is_additional_input in Hsel.
        apply andb_prop in Hsel as [[Hf _]%andb_prop _].
        by apply bool_decide_eq_true_1 in Hf. }
      exists k, p, (as_input (get_var model_data m (AParam p) ((p_index p).*1))).
      split; [done|]. split; [done|]. split; [done|].
      rewrite merge_params_get, Hfresh, Hk. cbn. unfold additional_input.
      by rewrite Hsel. }
  assert (ds_defaults after = ds_defaults model_data
          ∧ ds_run_config after = ds_run_config model_data
          ∧ ds_imasks after = ds_imasks model_data) as (Hdefaults & Hconfig & Himasks).
  { destruct Hafter as [->| ->]; [done|]. unfold merge_params.
    by destruct (all_params m model_data). }
  split; [|split; [|split]].
  - intros k a Hk. destruct Hafter as [->| ->]; [done|].
    by rewrite merge_params_get, Hk.
  - intros k array Hk. destruct Hafter as [->| ->]; [congruence|].
    rewrite merge_params_get, Hk.
    destruct (m !! k) as [[]|]; cbn; try done.
    unfold additional_input, is_additional_input.
    destruct (contains "objective_" k); cbn; [by rewrite andb_false_r|].
    rewrite andb_true_r. rewrite (bool_decide_eq_true_2 _ Hk). cbn.
    case_bool_decide; [|done]. cbn. intros [= <-]. by exists p.
  - intros arrays k p Hvars Hm Hk Hindexed Hname.
    assert (after = merge_params m model_data) as ->.
    { subst after. unfold get_result_array. rewrite Hvars.
      by destruct (dict_get _ "timesteps"). }
    rewrite merge_params_get, Hk, Hm. cbn.
    unfold additional_input, is_additional_input.
    rewrite Hname, (bool_decide_eq_true_2 _ Hk), (bool_decide_eq_true_2 _ Hindexed).
    done.
  - destruct Hshape as (new_dims & new_coords & Hd & Hc & Hfd & Hfc & Horigin).
    split; [done|]. split; [done|]. split; [done|]. rewrite Hd, Hc. split_and!.
    + intros k labels Hk. by apply dict_get_app_l.
    + by apply filter_app_fresh.
    + apply filter_app_fresh.
      * intros c Hin. apply list_elem_of_fmap. by exists c.
      * intros c Hin. apply Hfc. apply list_elem_of_fmap. by exists c.
    + intros d [[Hin Hnot]|[Hin Hnot]]; apply Horigin.
      * apply elem_of_app in Hin as [?|?]; [done|by left].
      * rewrite fmap_app in Hin. apply elem_of_app in Hin as [?|?]; [done|by right].
Qed.

(** ** Further properties of model generation *)

Lemma for_items_app {K V S} (body : S → K → V → result S) (l1 l2 : list (K * V)) (s : S) :
  for_items body (l1 ++ l2) s
  = match for_items body l1 s with
    | Ok s1 => for_items body l2 s1
    | Err e => Err e
    end.
Proof.
  revert s. induction l1 as [|[k v] l1 IH]; intros s; [done|].
  cbn [app for_items]. destruct (body s k v); [apply IH|done].
Qed.

(** X1: on a model where the names of the coordinates are free,
    [build_sets] turns every coordinate of the dataset, its labels being
    distinct, into a set holding these labels in their order, and touches no
    attribute that is not named after a coordinate. *)
Theorem build_sets_declares_coords (model_data : Dataset) (m : model) :
  NoDup (ds_coords model_data).*1 →
  Forall (λ c, hasattr m c.1 = false ∧ NoDup c.2) (ds_coords model_data) →
  (∀ name labels, (name, labels) ∈ ds_coords model_data →
                  build_sets model_data m !! name = Some (ASet labels))
  ∧ (∀ n, n ∉ (ds_coords model_data).*1 → build_sets model_data m !! n = m !! n).
Proof.
  intros Hnd _. revert Hnd.
  unfold build_sets. generalize (ds_coords model_data) as coords. intros coords.
  revert m. induction coords as [|[c labels] coords IH]; intros m Hnd.
  - split; [intros ?? Hin; by apply elem_of_nil in Hin|done].
  - rewrite fmap_cons in Hnd. cbn [fst] in Hnd. apply NoDup_cons in Hnd as [Hfresh Hnd].
    cbn [foldl fst snd]. destruct (IH (setattr m c (ASet labels)) Hnd) as [IH1 IH2].
    split.
    + intros name labels' [[= -> ->]|Hin]%elem_of_cons; [|by apply IH1].
      rewrite IH2 by done. apply lookup_insert_eq.
    + intros n Hn. rewrite fmap_cons in Hn. cbn [fst] in Hn.
      apply not_elem_of_cons in Hn as [Hne Hn].
      rewrite IH2 by done. unfold setattr. by rewrite lookup_insert_ne.
Qed.

(** One turn of the loop of [build_variables] that went through. *)
Lemma declare_variable_Ok (configs : list (string * Family)) (m m1 : model)
    (name : string) (imask : list index) :
  for_items (λ m var_name imask,
    match dict_get configs var_name with
    | None => Err (KeyError var_name)
    | Some config =>
        match f_domain config with
        | None => Err (KeyError "domain")
        | Some name =>
            match getattr_po name with
            | Err e => Err e
            | Ok domain =>
                Ok (setattr m var_name (AVar (mkVar imask domain (f_bounds config) ∅)))
            end
        end
    end) [(name, imask)] m = Ok m1 →
  ∃ config domain,
    dict_get configs name = Some config
    ∧ f_domain config = Some domain
    ∧ po domain = true
    ∧ m1 = setattr m name (AVar (mkVar imask domain (f_bounds config) ∅)).
Proof.
  cbn [for_items].
  destruct (dict_get configs name) as [config|]; [|done].
  destruct (f_domain config) as [domain|] eqn:Hdomain; [|done].
  destruct (getattr_po domain) as [within|] eqn:Hpo; [|done].
  apply getattr_po_Ok in Hpo as [Hpo ->].
  intros [= <-]. by exists config, domain.
Qed.

Lemma build_variables_cons (m : model) (configs : list (string * Family))
    (name : string) (imask : list index) (imasks : list (string * list index)) :
  build_variables m configs ((name, imask) :: imasks)
  = match build_variables m configs [(name, imask)] with
    | Ok m1 => build_variables m1 configs imasks
    | Err e => Err e
    end.
Proof. unfold build_variables. apply (for_items_app _ [(name, imask)]). Qed.

Lemma build_variables_other (m m' : model) (configs : list (string * Family))
    (imasks : list (string * list index)) (n : string) :
  n ∉ imasks.*1 →
  build_variables m configs imasks = Ok m' →
  m' !! n = m !! n.
Proof.
  revert m. induction imasks as [|[name imask] imasks IH]; intros m Hn.
  - by intros [= <-].
  - rewrite fmap_cons in Hn. cbn [fst] in Hn. apply not_elem_of_cons in Hn as [Hne Hn].
    rewrite build_variables_cons.
    destruct (build_variables m configs [(name, imask)]) as [m1|] eqn:Hstep; [|done].
    apply declare_variable_Ok in Hstep as (config & domain & _ & _ & _ & ->).
    intros Hrun. rewrite (IH _ Hn Hrun). unfold setattr. by rewrite lookup_insert_ne.
Qed.

(** X4: when [build_variables] returns, every variable family of the masks
    had a configuration with a domain that [pyomo.core] defines, and is
    declared over its mask alone (two active tuples give a variable with two
    entries, however large the product of its dimensions), with that domain
    and the bounds configuration if there is one; an attribute that is
    neither named after a family nor the index set Pyomo keeps beside one is
    untouched. *)
Theorem build_variables_declares (m m' : model) (configs : list (string * Family))
    (imasks : list (string * list index)) :
  NoDup imasks.*1 →
  build_variables m configs imasks = Ok m' →
  (∀ name imask,
     (name, imask) ∈ imasks →
     ∃ config domain,
       dict_get configs name = Some config
       ∧ f_domain config = Some domain
       ∧ po domain = true
       ∧ m' !! name = Some (AVar (mkVar imask domain (f_bounds config) ∅)))
  ∧ (∀ n, n ∉ imasks.*1 → (∀ name, name ∈ imasks.*1 → n ≠ name +:+ "_index") →
          m' !! n = m !! n).
Proof.
  intros Hnd Hrun. split; [|intros n Hn _; by eapply build_variables_other].
  revert m Hnd Hrun. induction imasks as [|[name imask] imasks IH]; intros m Hnd Hrun.
  - intros ?? Hin. by apply elem_of_nil in Hin.
  - rewrite fmap_cons in Hnd. cbn [fst] in Hnd. apply NoDup_cons in Hnd as [Hfresh Hnd].
    rewrite build_variables_cons in Hrun.
    destruct (build_variables m configs [(name, imask)]) as [m1|] eqn:Hstep; [|done].
    apply declare_variable_Ok in Hstep as (config & domain & Hconfig & Hdomain & Hpo & ->).
    intros name' imask' [[= -> ->]|Hin]%elem_of_cons; [|exact (IH _ Hnd Hrun _ _ Hin)].
    exists config, domain. split_and!; [done..|].
    rewrite (build_variables_other _ _ _ _ _ Hfresh Hrun). apply lookup_insert_eq.
Qed.

(** X5: the first variable family that cannot be declared decides how
    [build_variables] ends, the families before it having been declared
    under names Pyomo accepts: a
    family without a configuration raises the [KeyError] of its name, a
    configuration without a domain the [KeyError] of [domain], and a domain
    that [pyomo.core] does not define the [AttributeError] of that domain;
    the family is not skipped and the families after it are not reached. *)
Theorem build_variables_missing_config (m m0 : model) (configs : list (string * Family))
    (before after : list (string * list index)) (name : string) (imask : list index) :
  attachable m before.*1 →
  build_variables m configs before = Ok m0 →
  let run := build_variables m configs (before ++ (name, imask) :: after) in
  (dict_get configs name = None → run = Err (KeyError name))
  ∧ (∀ config, dict_get configs name = Some config → f_domain config = None →
               run = Err (KeyError "domain"))
  ∧ (∀ config domain,
       dict_get configs name = Some config → f_domain config = Some domain →
       po domain = false →
       run = Err (AttributeError "pyomo.core" domain)).
Proof.
  intros _ Hbefore run. subst run. unfold build_variables in *.
  rewrite for_items_app, Hbefore. cbn [for_items]. split_and!.
  - by intros ->.
  - by intros config -> ->.
  - intros config domain -> -> Hpo. unfold getattr_po. by rewrite Hpo.
Qed.

(** ** Further properties of the parameters *)

Lemma declare_param_keeps_None (defaults : gmap string pyval) (run_config : RunConfig)
    (m m' : model) (k : string) (v : DataArray) (n : string) :
  m !! n = None →
  n ≠ k →
  n ≠ "calliope_" +:+ k →
  declare_param defaults run_config m k v = Ok m' →
  m' !! n = None.
Proof.
  intros Hn Hk Hpre [[_ ->]|(_ & _ & _ & dims & _ & ->)]%declare_param_Ok; [done|].
  unfold setattr, param_name. rewrite lookup_insert_ne; [done|].
  by destruct (hasattr m k).
Qed.

Lemma declare_params_keep_None (defaults : gmap string pyval) (run_config : RunConfig)
    (vars : list (string * DataArray)) (m m' : model) (n : string) :
  m !! n = None →
  n ∉ vars.*1 →
  (∀ k, n ≠ "calliope_" +:+ k) →
  for_items (declare_param defaults run_config) vars m = Ok m' →
  m' !! n = None.
Proof.
  intros Hn Hnot Hpre. revert m Hn.
  induction vars as [|[k v] vars IH]; intros m Hn; cbn [for_items].
  - by intros [= <-].
  - rewrite fmap_cons in Hnot. cbn [fst] in Hnot.
    apply not_elem_of_cons in Hnot as [Hne Hnot].
    destruct (declare_param defaults run_config m k v) as [m1|] eqn:Hstep; [|done].
    apply IH; [done|]. by eapply declare_param_keeps_None.
Qed.

Lemma index_sets_names (m : model) (dims : list string) (sets : list (string * list label)) :
  index_sets m dims = Ok sets →
  sets.*1 = dims ∧ ∀ i members, (i, members) ∈ sets → m !! i = Some (ASet members).
Proof.
  revert sets. induction dims as [|i dims IH]; intros sets; cbn [index_sets].
  - intros [= <-]. split; [done|]. intros ?? Hin. by apply elem_of_nil in Hin.
  - destruct (m !! i) as [[members| | | | | | | |]|] eqn:Hi; try done.
    destruct (index_sets m dims) as [rest|]; [|done].
    intros [= <-]. destruct (IH rest eq_refl) as [IH1 IH2]. split.
    + rewrite fmap_cons. cbn [fst]. by rewrite IH1.
    + intros j members' [[= -> ->]|Hin]%elem_of_cons; [done|by apply IH2].
Qed.

(** What the loop over the data variables leaves under the name of one of
    them, when the name was free and does not begin with [calliope_]. *)
Lemma declare_params_at (defaults : gmap string pyval) (run_config : RunConfig)
    (vars : list (string * DataArray)) (m m' : model) (k : string) (v : DataArray) :
  NoDup vars.*1 →
  (k, v) ∈ vars →
  m !! k = None →
  (∀ k', k ≠ "calliope_" +:+ k') →
  for_items (declare_param defaults run_config) vars m = Ok m' →
  match is_input run_config v with
  | Ok true =>
      ∃ dims, dims.*1 = da_dims v
        ∧ to_series v = Ok (cells v)
        ∧ m' !! k = Some (AParam (param_of defaults k (cells v) (get_domain v) dims))
  | _ => m' !! k = None
  end.
Proof.
  intros Hnd Hin Hfree Hpre Hrun.
  apply list_elem_of_split in Hin as (before & after & ->).
  rewrite fmap_app, fmap_cons in Hnd. cbn [fst] in Hnd.
  assert ((k ∉ before.*1) ∧ (k ∉ after.*1)) as [Hb Ha].
  { apply NoDup_app in Hnd as (_ & Hdisj & Hnd). apply NoDup_cons in Hnd as [Ha _].
    split; [|done]. intros Hb. apply (Hdisj k Hb). by left. }
  rewrite for_items_app in Hrun.
  destruct (for_items _ before m) as [m0|] eqn:Hbefore; [|done].
  cbn [for_items] in Hrun.
  destruct (declare_param defaults run_config m0 k v) as [m1|] eqn:Hstep; [|done].
  pose proof (declare_params_keep_None _ _ _ _ _ _ Hfree Hb Hpre Hbefore) as Hfree0.
  apply declare_param_Ok in Hstep
    as [[-> ->]|(-> & Hnonscalar & _ & dims & Hdims & ->)].
  - by eapply declare_params_keep_None.
  - exists dims. split; [by apply (index_sets_names m0)|].
    split; [by apply to_series_cells|].
    eapply declare_params_keep; [|done|exact Hrun].
    unfold setattr, param_name, hasattr.
    rewrite bool_decide_eq_false_2 by (rewrite Hfree0; intros [? ?]; done).
    apply lookup_insert_eq.
Qed.

(** The options and the final [bigM] leave a name alone that neither is
    [bigM] nor begins with [objective_]. *)
Lemma build_params_tail (model_data : Dataset) (m m' : model) (n : string) :
  build_params model_data m = Ok m' →
  n ≠ "bigM" →
  (∀ o, n ≠ "objective_" +:+ o) →
  ∃ m1, declare_params model_data (store_config model_data m) = Ok m1
        ∧ m' !! n = m1 !! n.
Proof.
  unfold build_params. intros Hrun Hbig Hobj.
  destruct (declare_params model_data _) as [m1|]; [|done].
  destruct (rc_objective_options (ds_run_config model_data)) as [options|]; [|done].
  destruct (for_items declare_option options m1) as [m2|] eqn:Hopts; [|done].
  injection Hrun as <-. exists m1. split; [done|].
  unfold setattr. rewrite lookup_insert_ne by done.
  by eapply options_keep.
Qed.

(** X7: when [build_params] returns, an input data variable whose name was
    free on the model, does not begin with [calliope_] or [objective_] and
    is not [bigM] is a parameter under its own name, indexed by the sets of
    its dimensions, mutable, initialised with the cells of its array that
    are neither missing nor infinite; a data variable that is a result (and
    no operate-mode parameter) has declared nothing under its name. *)
Theorem build_params_declares_inputs (model_data : Dataset) (m m' : model)
    (k : string) (v : DataArray) :
  build_params model_data m = Ok m' →
  NoDup (ds_data_vars model_data).*1 →
  (k, v) ∈ ds_data_vars model_data →
  store_config model_data m !! k = None →
  k ≠ "bigM" →
  (∀ k', k ≠ "calliope_" +:+ k') →
  (∀ o, k ≠ "objective_" +:+ o) →
  match is_input (ds_run_config model_data) v with
  | Ok true =>
      ∃ p series, m' !! k = Some (AParam p)
        ∧ p_mutable p = true
        ∧ to_series v = Ok series
        ∧ p_initialize p = to_dict (dropna true series)
        ∧ (p_index p).*1 = da_dims v
  | _ => m' !! k = None
  end.
Proof.
  intros Hrun Hnd Hin Hfree Hbig Hcal Hobj.
  destruct (build_params_tail model_data m m' k Hrun Hbig Hobj) as (m1 & Hvars & ->).
  pose proof (declare_params_at _ _ _ _ _ k v Hnd Hin Hfree Hcal Hvars) as Hat.
  destruct (is_input (ds_run_config model_data) v) as [[]|] eqn:Hinput; try done.
  destruct Hat as (dims & Hnames & Hseries & Hat).
  by exists (param_of (ds_defaults model_data) k (cells v) (get_domain v) dims), (cells v).
Qed.

(** X8: [build_params] changes no attribute the model already had, save
    those called [__calliope_defaults], [__calliope_run_config] or [bigM]
    and those whose name begins with [calliope_] or [objective_]: the index
    sets in particular are as [build_sets] left them. *)
Theorem build_params_keeps_attributes (model_data : Dataset) (m m' : model)
    (n : string) (a : attr) :
  build_params model_data m = Ok m' →
  m !! n = Some a →
  n ∉ ["__calliope_defaults"; "__calliope_run_config"; "bigM"] →
  (∀ k, n ≠ "calliope_" +:+ k) →
  (∀ o, n ≠ "objective_" +:+ o) →
  m' !! n = Some a.
Proof.
  intros Hrun Hn Hnames Hcal Hobj.
  destruct (build_params_tail model_data m m' n Hrun) as (m1 & Hvars & ->); [|done|].
  { intros ->. apply Hnames. do 2 apply list_elem_of_further. apply list_elem_of_here. }
  eapply declare_params_keep; [|done|exact Hvars].
  unfold store_config, setattr. rewrite !lookup_insert_ne; [done| |].
  - intros <-. apply Hnames. apply list_elem_of_here.
  - intros <-. apply Hnames. apply list_elem_of_further, list_elem_of_here.
Qed.

Lemma options_keep_others (options : list (string * optval)) (m m' : model) (n : string) :
  (∀ o, o ∈ options.*1 → n ≠ "objective_" +:+ o) →
  for_items declare_option options m = Ok m' →
  m' !! n = m !! n.
Proof.
  revert m. induction options as [|[name val] options IH]; intros m Hn; cbn [for_items].
  - by intros [= <-].
  - destruct (declare_option m name val) as [m1|] eqn:Hstep; [|done].
    intros Hrun. rewrite (IH m1); [|intros o Ho; apply Hn; rewrite fmap_cons; by right|done].
    eapply declare_option_keeps; [|exact Hstep].
    apply Hn. rewrite fmap_cons. by left.
Qed.

(** X9: every objective option other than [cost_class] is stored on the
    model as the plain attribute [objective_<option>] holding the option's
    value, and is still there when [build_params] returns. *)
Theorem build_params_stores_objective_options (model_data : Dataset) (m m' : model)
    (options : list (string * optval)) (name : string) (val : optval) :
  build_params model_data m = Ok m' →
  rc_objective_options (ds_run_config model_data) = Some options →
  NoDup options.*1 →
  (name, val) ∈ options →
  name ≠ "cost_class" →
  m' !! ("objective_" +:+ name) = Some (AOption val).
Proof.
  unfold build_params. intros Hrun Hopts Hnd Hin Hname.
  destruct (declare_params model_data _) as [m1|]; [|done].
  rewrite Hopts in Hrun.
  destruct (for_items declare_option options m1) as [m2|] eqn:Hloop; [|done].
  injection Hrun as <-. unfold setattr at 1.
  rewrite lookup_insert_ne by (by destruct name).
  apply list_elem_of_split in Hin as (before & after & ->).
  rewrite fmap_app, fmap_cons in Hnd. apply NoDup_app in Hnd as (_ & _ & Hnd).
  apply NoDup_cons in Hnd as [Hfresh _]. cbn [fst] in Hfresh.
  rewrite for_items_app in Hloop.
  destruct (for_items declare_option before m1) as [m0|]; [|done].
  cbn [for_items] in Hloop. unfold declare_option at 1 in Hloop.
  rewrite decide_False in Hloop by done.
  assert (∀ o, o ∈ after.*1 → "objective_" +:+ name ≠ "objective_" +:+ o) as Hother.
  { intros o Ho Heq. apply objective_prefix_inj in Heq. congruence. }
  rewrite (options_keep_others after _ _ _ Hother Hloop). apply lookup_insert_eq.
Qed.

(** X10: a [cost_class] option on a model without the set [costs] (no
    coordinate and no earlier attribute of that name) makes [build_params]
    raise the [AttributeError] of [backend_model.costs], once the data
    variables have been declared. *)
Theorem build_params_cost_class_needs_costs (model_data : Dataset) (m m1 : model)
    (options : list (string * optval)) (cc : list (string * pyval)) :
  declare_params model_data (store_config model_data m) = Ok m1 →
  rc_objective_options (ds_run_config model_data) = Some options →
  NoDup options.*1 →
  ("cost_class", ODict cc) ∈ options →
  m !! "costs" = None →
  "costs" ∉ (ds_data_vars model_data).*1 →
  build_params model_data m = Err (AttributeError "ConcreteModel" "costs").
Proof.
  intros Hvars Hopts Hnd Hin Hcosts Hnot.
  unfold build_params. rewrite Hvars, Hopts.
  assert (m1 !! "costs" = None) as Hcosts1.
  { eapply declare_params_keep_None; [|exact Hnot|by intros []|exact Hvars].
    unfold store_config, setattr. by rewrite !lookup_insert_ne. }
  apply list_elem_of_split in Hin as (before & after & ->).
  rewrite fmap_app, fmap_cons in Hnd. cbn [fst] in Hnd.
  assert ("cost_class" ∉ before.*1) as Hbefore.
  { apply NoDup_app in Hnd as (_ & Hdisj & _). intros Hb. apply (Hdisj _ Hb). by left. }
  rewrite for_items_app.
  destruct (other_options_pass before m1 Hbefore) as (m0 & -> & Hkeep).
  cbn [for_items]. unfold declare_option at 1. rewrite decide_True by done.
  rewrite Hkeep, Hcosts1; [done|]. by intros [].
Qed.

Lemma index_sets_missing (m : model) (before after : list string) (i : string) :
  (∀ j, j ∈ before → ∃ members, m !! j = Some (ASet members)) →
  m !! i = None →
  index_sets m (before ++ i :: after) = Err (AttributeError "ConcreteModel" i).
Proof.
  intros Hbefore Hi. induction before as [|j before IH]; cbn [app index_sets].
  - by rewrite Hi.
  - destruct (Hbefore j) as [members ->]; [by left|].
    rewrite IH; [done|]. intros j' Hj'. apply Hbefore. by right.
Qed.

(** X24: the first input data variable that cannot be declared decides how
    [build_params] ends, the data variables before it having been dealt
    with: an array without dimensions raises the [ValueError] of
    [to_series], a domain that [pyomo.core] does not define the
    [AttributeError] of that domain, and a dimension the model has no
    attribute for (those before it being sets) the [AttributeError] of that
    dimension; the checks come in this order, and neither the options nor
    [bigM] are reached. *)
Theorem build_params_undeclarable_input (model_data : Dataset) (m m0 : model)
    (before after : list (string * DataArray)) (k : string) (v : DataArray) :
  ds_data_vars model_data = before ++ (k, v) :: after →
  for_items (declare_param (ds_defaults model_data) (ds_run_config model_data))
            before (store_config model_data m) = Ok m0 →
  is_input (ds_run_config model_data) v = Ok true →
  (da_dims v = [] →
   build_params model_data m
   = Err (Raised "ValueError" "no valid index for a 0-dimensional object"))
  ∧ (da_dims v ≠ [] → po (get_domain v) = false →
     build_params model_data m = Err (AttributeError "pyomo.core" (get_domain v)))
  ∧ (∀ known i rest,
       da_dims v = known ++ i :: rest →
       po (get_domain v) = true →
       (∀ j, j ∈ known → ∃ members, m0 !! j = Some (ASet members)) →
       m0 !! i = None →
       build_params model_data m = Err (AttributeError "ConcreteModel" i)).
Proof.
  intros Hvars Hbefore Hinput.
  assert (∀ e, declare_param (ds_defaults model_data) (ds_run_config model_data) m0 k v
               = Err e →
               build_params model_data m = Err e) as Hstop.
  { intros e Hstep. unfold build_params, declare_params.
    by rewrite Hvars, for_items_app, Hbefore; cbn [for_items]; rewrite Hstep. }
  split_and!.
  - intros Hscalar. apply Hstop. unfold declare_param, to_series.
    by rewrite Hinput, Hscalar.
  - intros Hdims Hpo. apply Hstop. unfold declare_param, getattr_po.
    by rewrite Hinput, to_series_cells, Hpo.
  - intros known i rest Hdims Hpo Hknown Hi. apply Hstop.
    unfold declare_param, getattr_po.
    rewrite Hinput, to_series_cells, Hpo by (rewrite Hdims; by destruct known).
    by rewrite Hdims, index_sets_missing.
Qed.

(** ** Further properties of the solve step *)

Lemma keep_logs_ready (save_logs : option string) (kw : gmap string pyval) (w : world) :
  logs_ready save_logs →
  keep_logs save_logs kw w = (Ok (with_log_flags save_logs kw), logs_world save_logs w).
Proof.
  unfold logs_ready, keep_logs, with_log_flags, logs_world.
  destruct save_logs as [dir|]; [|done].
  destruct (decide (dir = "")); [done|]. by intros [?| ->].
Qed.

Lemma solve_model_ready (m : model) (solver : string) (solver_io : option string)
    (solver_options : option (list (string * pyval))) (save_logs : option string)
    (kw : gmap string pyval) (w : world) :
  logs_ready save_logs →
  let kw1 := with_log_flags save_logs kw in
  solve_model m solver solver_io solver_options save_logs kw w
  = solve_captured (set_options (SolverFactory solver solver_io) solver_options) m
      (if drops_warmstart solver kw1 then delete "warmstart" kw1 else kw1)
      (warned_world solver kw1 (logs_world save_logs w)).
Proof.
  intros Hready kw1. unfold solve_model, bind. rewrite keep_logs_ready by done.
  fold kw1. unfold check_warmstart, warned_world, drops_warmstart.
  by destruct (bool_decide (is_Some (kw1 !! "warmstart")) && bool_decide (solver ∈ ["glpk"; "cbc"])).
Qed.

(** X11: when [warmstart] is not among the solve arguments, or the solver
    is neither glpk nor cbc, [solve_model] records no warning and hands the
    solve arguments to the solver with [warmstart] as the caller gave it. *)
Theorem solve_model_keeps_warmstart (m : model) (solver : string)
    (solver_io : option string) (solver_options : option (list (string * pyval)))
    (save_logs : option string) (kw : gmap string pyval) (w : world) :
  kw !! "warmstart" = None ∨ solver ∉ ["glpk"; "cbc"] →
  kw !! "tee" = None →
  logs_ready save_logs →
  let out := solve_model m solver solver_io solver_options save_logs kw w in
  warned out.2 = warned w
  ∧ ∃ call, solve_calls out.2 = solve_calls w ++ [call]
      ∧ call_kwargs call = <["tee" := PyBool true]> (with_log_flags save_logs kw)
      ∧ call_kwargs call !! "warmstart" = kw !! "warmstart"
      ∧ out.1 = (opt_solve (call_opt call) m (call_kwargs call)).2.
Proof.
  intros Hcase Htee Hready out. subst out.
  rewrite solve_model_ready by done. cbv zeta.
  assert (drops_warmstart solver (with_log_flags save_logs kw) = false) as Hdrop.
  { unfold drops_warmstart. rewrite with_log_flags_other by done.
    destruct Hcase as [Hnone|Hsolver].
    - rewrite Hnone. by rewrite bool_decide_eq_false_2 by (by intros [? ?]).
    - rewrite (bool_decide_eq_false_2 _ Hsolver). apply andb_false_r. }
  unfold warned_world. rewrite Hdrop, solve_captured_eq.
  rewrite with_log_flags_other, Htee by done. cbn [fst snd].
  split.
  { unfold after_solve, logs_world. cbn [warned].
    destruct save_logs as [dir|]; [|done]. by destruct (decide (dir = "")). }
  eexists. split.
  { unfold after_solve, logs_world. cbn [solve_calls].
    destruct save_logs as [dir|]; [|done]. by destruct (decide (dir = "")). }
  cbn [call_kwargs call_opt]. split; [done|]. split; [|done].
  rewrite lookup_insert_ne by done. by rewrite with_log_flags_other.
Qed.

(** X12: when a log directory is asked for and [os.makedirs] raises,
    [solve_model] ends with that exception before anything else happened:
    no warning, no call of the solver, every part of the process as it
    was. *)
Theorem solve_model_makedirs_fails (m : model) (solver : string)
    (solver_io : option string) (solver_options : option (list (string * pyval)))
    (dir : string) (kw : gmap string pyval) (w : world) (e : exn) :
  dir ≠ "" →
  os_makedirs dir = Some e →
  solve_model m solver solver_io solver_options (Some dir) kw w = (Err e, w).
Proof.
  intros Hdir Hmk. unfold solve_model, bind, keep_logs.
  rewrite decide_False by done. by rewrite Hmk.
Qed.

(** X13: with a log directory that can be set up, the solver runs with
    [symbolic_solver_labels] and [keepfiles] both true, whatever the caller
    passed for them, and temporary files go to that directory. *)
Theorem solve_model_save_logs (m : model) (solver : string)
    (solver_io : option string) (solver_options : option (list (string * pyval)))
    (dir : string) (kw : gmap string pyval) (w : world) :
  dir ≠ "" →
  os_makedirs dir = None →
  kw !! "tee" = None →
  let out := solve_model m solver solver_io solver_options (Some dir) kw w in
  tempdir out.2 = Some dir
  ∧ ∃ call, solve_calls out.2 = solve_calls w ++ [call]
      ∧ call_kwargs call !! "symbolic_solver_labels" = Some (PyBool true)
      ∧ call_kwargs call !! "keepfiles" = Some (PyBool true)
      ∧ out.1 = (opt_solve (call_opt call) m (call_kwargs call)).2.
Proof.
  intros Hdir Hmk Htee out. subst out.
  rewrite solve_model_ready by (by right). cbv zeta.
  set (kw1 := with_log_flags (Some dir) kw).
  assert (kw1 !! "tee" = None) as Htee1 by (subst kw1; by rewrite with_log_flags_other).
  assert (kw1 !! "symbolic_solver_labels" = Some (PyBool true)
          ∧ kw1 !! "keepfiles" = Some (PyBool true)) as [Hlabels Hkeep].
  { subst kw1. unfold with_log_flags. rewrite decide_False by done.
    split; [by rewrite lookup_insert_ne, lookup_insert_eq|apply lookup_insert_eq]. }
  set (kw2 := if drops_warmstart solver kw1 then delete "warmstart" kw1 else kw1).
  assert (∀ k, k ≠ "warmstart" → kw2 !! k = kw1 !! k) as Hkw2.
  { intros k Hk. subst kw2.
    destruct (drops_warmstart solver kw1); [by rewrite lookup_delete_ne|done]. }
  rewrite solve_captured_eq, Hkw2, Htee1 by done.
  cbn [fst snd]. unfold after_solve, warned_world, logs_world.
  rewrite decide_False by done. split.
  { by destruct (drops_warmstart solver kw1). }
  exists (mkSolveCall (set_options (SolverFactory solver solver_io) solver_options)
            (<["tee" := PyBool true]> kw2) (LogWriter DEBUG true) (LogWriter ERROR true)).
  split.
  { by destruct (drops_warmstart solver kw1). }
  cbn [call_kwargs call_opt]. split; [|split; [|done]].
  - rewrite lookup_insert_ne by done. by rewrite Hkw2.
  - rewrite lookup_insert_ne by done. by rewrite Hkw2.
Qed.

Lemma set_options_lookup (opt : Solver) (options : list (string * pyval)) (k : string) :
  NoDup options.*1 →
  s_io (set_options opt (Some options)) = s_io opt
  ∧ s_options (set_options opt (Some options)) !! k
    = match dict_get options k with
      | Some v => Some v
      | None => s_options opt !! k
      end.
Proof.
  unfold set_options. change (default [] (Some options)) with options. revert opt.
  induction options as [|[k0 v0] options IH]; intros opt Hnd; [done|].
  rewrite fmap_cons in Hnd. cbn [fst] in Hnd. apply NoDup_cons in Hnd as [Hfresh Hnd].
  cbn [foldl fst snd dict_get].
  destruct (IH (mkSolver (s_name opt) (s_io opt) (<[k0 := v0]> (s_options opt))) Hnd)
    as [Hio Hopts].
  split; [done|]. rewrite Hopts. cbn [s_options].
  destruct (decide (k0 = k)) as [->|Hne].
  - rewrite (proj2 (dict_get_None options k) Hfresh). apply lookup_insert_eq.
  - by rewrite lookup_insert_ne.
Qed.

(** X14: the solver that [solve_model] calls is the one named, with the
    I/O mode given and with exactly the options of [solver_options] set on
    it; without [solver_options] it has no option set. *)
Theorem solve_model_passes_solver_options (m : model) (solver : string)
    (solver_io : option string) (solver_options : option (list (string * pyval)))
    (save_logs : option string) (kw : gmap string pyval) (w : world) :
  NoDup (default [] solver_options).*1 →
  kw !! "tee" = None →
  logs_ready save_logs →
  let out := solve_model m solver solver_io solver_options save_logs kw w in
  ∃ call, solve_calls out.2 = solve_calls w ++ [call]
    ∧ s_name (call_opt call) = solver
    ∧ s_io (call_opt call) = solver_io
    ∧ ∀ k, s_options (call_opt call) !! k = dict_get (default [] solver_options) k.
Proof.
  intros Hnd Htee Hready out. subst out.
  rewrite solve_model_ready by done. cbv zeta.
  set (kw1 := with_log_flags save_logs kw).
  assert (kw1 !! "tee" = None) as Htee1 by (subst kw1; by rewrite with_log_flags_other).
  set (kw2 := if drops_warmstart solver kw1 then delete "warmstart" kw1 else kw1).
  assert (kw2 !! "tee" = None) as Htee2.
  { subst kw2. destruct (drops_warmstart solver kw1); [by rewrite lookup_delete_ne|done]. }
  rewrite solve_captured_eq, Htee2.
  cbn [snd].
  exists (mkSolveCall (set_options (SolverFactory solver solver_io) solver_options)
            (<["tee" := PyBool true]> kw2) (LogWriter DEBUG true) (LogWriter ERROR true)).
  split.
  { unfold after_solve, warned_world, logs_world. cbn [solve_calls].
    destruct (drops_warmstart solver kw1); destruct save_logs as [dir|]; try done;
      by destruct (decide (dir = "")). }
  cbn [call_opt]. split; [apply set_options_name|].
  destruct solver_options as [options|].
  - destruct (set_options_lookup (SolverFactory solver solver_io) options "" Hnd) as [Hio _].
    split; [done|]. intros k.
    destruct (set_options_lookup (SolverFactory solver solver_io) options k Hnd) as [_ ->].
    change (default [] (Some options)) with options.
    destruct (dict_get options k); [done|]. apply lookup_empty.
  - split; [done|]. intros k. apply lookup_empty.
Qed.

(** X15: a [tee] among the solve arguments collides with the [tee=True]
    that [solve_model] passes itself: the call ends with a [TypeError], the
    solver is never called and nothing is logged. *)
Theorem solve_model_refuses_tee (m : model) (solver : string)
    (solver_io : option string) (solver_options : option (list (string * pyval)))
    (save_logs : option string) (kw : gmap string pyval) (w : world) :
  is_Some (kw !! "tee") →
  logs_ready save_logs →
  let out := solve_model m solver solver_io solver_options save_logs kw w in
  (∃ e, out.1 = Err e ∧ exn_class e = "TypeError")
  ∧ solve_calls out.2 = solve_calls w
  ∧ logged out.2 = logged w
  ∧ sys_stdout out.2 = sys_stdout w
  ∧ sys_stderr out.2 = sys_stderr w.
Proof.
  intros [t Htee] Hready out. subst out.
  rewrite solve_model_ready by done. cbv zeta.
  set (kw1 := with_log_flags save_logs kw).
  assert (kw1 !! "tee" = Some t) as Htee1 by (subst kw1; by rewrite with_log_flags_other).
  rewrite solve_captured_eq.
  assert ((if drops_warmstart solver kw1 then delete "warmstart" kw1 else kw1) !! "tee" = Some t)
    as ->.
  { destruct (drops_warmstart solver kw1); [by rewrite lookup_delete_ne|done]. }
  cbn [fst snd]. split; [by eexists|].
  unfold warned_world, logs_world.
  destruct (drops_warmstart solver kw1); destruct save_logs as [dir|]; try done;
    by destruct (decide (dir = "")).
Qed.

(** X16: for a result that is optimal and loads (anything but [False] came
    back from the load), [load_results] returns "optimal" and leaves the
    log and everything else as it was. *)
Theorem load_results_optimal_is_silent (m : model) (results : Results) (w : world)
    (this_result : pyval) :
  load_from m results = Ok this_result →
  this_result ≠ PyBool false →
  res_termination results = "optimal" →
  load_results m results w = (Ok "optimal", w).
Proof.
  intros Hload Hloaded Hoptimal. unfold load_results, bind, lift.
  rewrite Hload, Hoptimal. by rewrite bool_decide_eq_false_2.
Qed.

(** X17: an exception raised while the solution is loaded leaves
    [load_results] as it is, before anything was written to the log, also
    when the termination condition was not "optimal". *)
Theorem load_results_load_raises (m : model) (results : Results) (w : world) (e : exn) :
  load_from m results = Err e →
  load_results m results w = (Err e, w).
Proof. intros Hload. unfold load_results, bind, lift. by rewrite Hload. Qed.

(** ** Further properties of result extraction *)

Lemma family_arrays_Err (model_data : Dataset) (m : model)
    (families : list (string * Family)) (components : list (string * attr)) (k : string) :
  k ∈ components.*1 →
  dict_get families k = None →
  ∃ e, family_arrays model_data m families components = Err e.
Proof.
  induction components as [|[k0 a0] components IH]; intros Hin Hnone.
  - by apply elem_of_nil in Hin.
  - cbn [family_arrays]. destruct (dict_get families k0) as [family|] eqn:Hk0; [|by eexists].
    rewrite fmap_cons in Hin. cbn [fst] in Hin.
    apply elem_of_cons in Hin as [Heq|Hin]; [subst k0; congruence|].
    destruct (IH Hin Hnone) as [e ->]. by eexists.
Qed.

Lemma family_arrays_Err_inv (model_data : Dataset) (m : model)
    (families : list (string * Family)) (components : list (string * attr)) (e : exn) :
  family_arrays model_data m families components = Err e →
  ∃ k, k ∈ components.*1 ∧ dict_get families k = None ∧ e = KeyError k.
Proof.
  induction components as [|[k0 a0] components IH]; cbn [family_arrays]; [done|].
  destruct (dict_get families k0) as [family|] eqn:Hk0.
  - destruct (family_arrays model_data m families components) as [|e']; [done|].
    intros [= <-]. destruct (IH eq_refl) as (k & Hk & Hnone & ->).
    exists k. split; [rewrite fmap_cons; by right|done].
  - intros [= <-]. exists k0. split; [rewrite fmap_cons; by left|done].
Qed.

Lemma wrapped_components_elem {C} (ctype : attr → option C) (wrap : C → attr)
    (m : model) (k : string) :
  k ∈ ((λ nc, (nc.1, wrap nc.2)) <$> component_objects ctype m).*1 ↔
  is_Some (m !! k ≫= ctype).
Proof.
  destruct (wrapped_components_get ctype wrap m k) as [_ Hget].
  destruct (dict_get ((λ nc, (nc.1, wrap nc.2)) <$> component_objects ctype m) k)
    as [a|] eqn:Hd.
  - split.
    + intros _. destruct (m !! k ≫= ctype); [by eexists|done].
    + intros _. apply dict_get_Some_elem in Hd. apply list_elem_of_fmap.
      by exists (k, a).
  - apply dict_get_None in Hd. split; [done|].
    intros [c Hc]. rewrite Hc in Hget. done.
Qed.

Lemma all_variables_Err (m : model) (model_data : Dataset) (k : string) (a : attr) :
  m !! k = Some a →
  is_family a = true →
  family_of (ds_imasks model_data) k a = None →
  ∃ k' a', m !! k' = Some a'
    ∧ is_family a' = true
    ∧ family_of (ds_imasks model_data) k' a' = None
    ∧ all_variables m model_data = Err (KeyError k').
Proof.
  intros Hk Hfam Hnone. unfold all_variables.
  destruct (family_arrays _ _ (ic_variables _) _) as [variables|e] eqn:Hvars.
  - destruct a; try done.
    { destruct (family_arrays_Err model_data m (ic_variables (ds_imasks model_data))
                  ((λ nv, (nv.1, AVar nv.2)) <$> component_objects is_Var m) k)
        as [e Herr]; [|done|congruence].
      apply wrapped_components_elem. rewrite Hk. by eexists. }
    destruct (family_arrays_Err model_data m (ic_expressions (ds_imasks model_data))
                ((λ ne, (ne.1, AExpression ne.2)) <$> component_objects is_Expression m) k)
      as [e' Herr]; [|done|].
    { apply wrapped_components_elem. rewrite Hk. by eexists. }
    rewrite Herr. apply family_arrays_Err_inv in Herr as (k' & Hk' & Hnone' & ->).
    apply wrapped_components_elem in Hk' as [e' He'].
    destruct (m !! k') as [[]|] eqn:Hm; try done.
    exists k', (AExpression e0). by split_and!.
  - apply family_arrays_Err_inv in Hvars as (k' & Hk' & Hnone' & ->).
    apply wrapped_components_elem in Hk' as [v' Hv'].
    destruct (m !! k') as [[]|] eqn:Hm; try done.
    exists k', (AVar v). by split_and!.
Qed.

(** X18: a variable or an expression of the model without a family
    declaration in [imasks] makes [get_result_array] raise a [KeyError]
    naming such a component, and the dataset is left exactly as it was
    given: nothing is merged into it. *)
Theorem get_result_array_missing_family (m : model) (model_data : Dataset)
    (k : string) (a : attr) :
  m !! k = Some a →
  is_family a = true →
  family_of (ds_imasks model_data) k a = None →
  ∃ k' a', m !! k' = Some a'
    ∧ is_family a' = true
    ∧ family_of (ds_imasks model_data) k' a' = None
    ∧ get_result_array m model_data = (Err (KeyError k'), model_data).
Proof.
  intros Hk Hfam Hnone.
  destruct (all_variables_Err m model_data k a Hk Hfam Hnone) as (k' & a' & H1 & H2 & H3 & H4).
  exists k', a'. split_and!; try done. unfold get_result_array. by rewrite H4.
Qed.

Lemma add_coords_None (axes coords : list (string * list label)) (k : string) :
  dict_get coords k = None →
  k ∉ axes.*1 →
  dict_get (foldl add_coord coords axes) k = None.
Proof.
  revert coords. induction axes as [|[d labels] axes IH]; intros coords Hc Hk; [done|].
  rewrite fmap_cons in Hk. cbn [fst] in Hk. apply not_elem_of_cons in Hk as [Hne Hk].
  cbn [foldl]. apply IH; [|done]. unfold add_coord. cbn [fst].
  destruct (dict_get coords d); [done|].
  apply dict_get_None. rewrite fmap_app. intros [Hin|Hin]%elem_of_app.
  - by apply dict_get_None in Hc.
  - cbn in Hin. apply list_elem_of_singleton in Hin. congruence.
Qed.

(** X19: when the dataset has no dimension called [timesteps], so that no
    result array has one, [get_result_array] raises the [AttributeError] of
    [results.timesteps]; the parameters have been merged into the dataset
    by then, and stay merged. *)
Theorem get_result_array_without_timesteps (m : model) (model_data : Dataset) :
  (∀ k a, m !! k = Some a → is_family a = true →
          is_Some (family_of (ds_imasks model_data) k a)) →
  "timesteps" ∉ ds_dims model_data →
  get_result_array m model_data
  = (Err (AttributeError "Dataset" "timesteps"), merge_params m model_data).
Proof.
  intros Hall Htime. destruct (all_variables_Ok m model_data Hall) as [arrays Harrays].
  unfold get_result_array. rewrite Harrays.
  assert (dict_get (ds_coords (reorganise_xarray_dimensions (xr_Dataset arrays))) "timesteps"
          = None) as ->; [|done].
  cbn [reorganise_xarray_dimensions xr_Dataset ds_coords].
  apply add_coords_None; [done|].
  intros ([d labels] & Hd & Hin)%list_elem_of_fmap. cbn in Hd. subst d.
  apply list_elem_of_bind in Hin as ([k array] & Hzip & Hin). cbn [snd] in Hzip.
  apply elem_of_zip_l in Hzip.
  destruct (all_variables_get m model_data arrays k Harrays) as [Hnd Hget].
  rewrite (dict_get_elem arrays k array Hnd Hin) in Hget.
  destruct (m !! k) as [a|]; [|done]. cbn in Hget.
  destruct (family_of (ds_imasks model_data) k a) as [family|]; [|done].
  cbn in Hget. injection Hget as ->. cbn [family_array get_var da_dims] in Hzip.
  unfold _get_dim_order in Hzip. apply list_elem_of_filter in Hzip as [_ Hzip]. done.
Qed.

(** X20: the dimensions [_get_dim_order] returns do not depend on the order
    in which [foreach] lists them, nor on repetitions: they are the
    dimensions of the dataset that occur in [foreach], in the dataset's
    order; a name in [foreach] that is no dimension of the dataset is
    dropped without an error. *)
Theorem get_dim_order_canonical (model_data : Dataset) (foreach foreach' : list string) :
  (∀ i, i ∈ foreach ↔ i ∈ foreach') →
  _get_dim_order model_data foreach = _get_dim_order model_data foreach'
  ∧ _get_dim_order model_data foreach `sublist_of` ds_dims model_data
  ∧ ∀ i, i ∈ _get_dim_order model_data foreach ↔ i ∈ ds_dims model_data ∧ i ∈ foreach.
Proof.
  intros Hsame. unfold _get_dim_order. split; [by apply list_filter_iff|].
  split; [apply sublist_filter|]. intros i. rewrite list_elem_of_filter.
  split; intros [? ?]; by split.
Qed.

Lemma all_params_after_merge (m : model) (model_data : Dataset) :
  all_params m (merge_params m model_data) = [].
Proof.
  destruct (all_params m (merge_params m model_data)) as [|[k array] rest] eqn:Hparams; [done|].
  exfalso.
  destruct (all_params_get m (merge_params m model_data) k) as [_ Hget].
  rewrite Hparams in Hget. cbn [dict_get] in Hget. rewrite decide_True in Hget by done.
  destruct (m !! k) as [[]|] eqn:Hm; try done. cbn in Hget.
  unfold additional_input in Hget.
  destruct (is_additional_input (merge_params m model_data) k p) eqn:Hsel; [|done].
  unfold is_additional_input in Hsel.
  apply andb_true_iff in Hsel as [Hsel Hindexed]. apply andb_true_iff in Hsel as [Hfresh Hname].
  apply bool_decide_eq_true in Hfresh.
  rewrite merge_params_get, Hm in Hfresh. cbn in Hfresh.
  destruct (dict_get (ds_data_vars model_data) k) eqn:Hk; [done|].
  unfold additional_input, is_additional_input in Hfresh.
  rewrite Hname, Hindexed, (bool_decide_eq_true_2 _ Hk) in Hfresh. done.
Qed.

(** X21: extraction merges once: a second [get_result_array] on the
    dataset a first one left behind finds no parameter to add and leaves
    the dataset exactly as it is. *)
Theorem get_result_array_merges_once (m : model) (model_data : Dataset) :
  let after := (get_result_array m model_data).2 in
  (get_result_array m after).2 = after.
Proof.
  cbv zeta.
  assert (∀ d, (get_result_array m d).2 = d ∨ (get_result_array m d).2 = merge_params m d)
    as Hcases.
  { intros d. unfold get_result_array.
    destruct (all_variables m d); [|by left].
    right. by destruct (dict_get _ "timesteps"). }
  destruct (Hcases model_data) as [Hsame|Hmerged].
  - by rewrite !Hsame.
  - rewrite Hmerged.
    destruct (Hcases (merge_params m model_data)) as [->| ->]; [done|].
    unfold merge_params at 1. by rewrite all_params_after_merge.
Qed.

(** X22: every data variable extraction adds to the dataset is tagged
    [is_result = 0], so [build_params] takes it for an input the next time
    a model is generated from the dataset, whatever the run mode. *)
Theorem merged_parameters_are_inputs (m : model) (model_data : Dataset)
    (k : string) (array : DataArray) (run_config : RunConfig) :
  dict_get (ds_data_vars model_data) k = None →
  dict_get (ds_data_vars (get_result_array m model_data).2) k = Some array →
  da_attrs array !! "is_result" = Some (PyInt 0)
  ∧ is_input run_config array = Ok true.
Proof.
  intros Hk Harray.
  assert (da_attrs array !! "is_result" = Some (PyInt 0)) as Htag.
  { assert ((get_result_array m model_data).2 = model_data
            ∨ (get_result_array m model_data).2 = merge_params m model_data) as [Heq|Heq].
    { unfold get_result_array. destruct (all_variables m model_data); [|by left].
      right. by destruct (dict_get _ "timesteps"). }
    - rewrite Heq in Harray. congruence.
    - rewrite Heq, merge_params_get, Hk in Harray.
      destruct (m !! k ≫= is_Param) as [p|]; [|done]. cbn in Harray.
      destruct (additional_input model_data m k p) as [a|]; [|done].
      cbn in Harray. injection Harray as <-. unfold as_input, mark_input. cbn [da_attrs].
      apply lookup_insert_eq. }
  split; [done|]. unfold is_input. by rewrite Htag.
Qed.

(** X23: the results [get_result_array] returns hold one data variable for
    each variable and each expression of the model and nothing else:
    parameters, sets and constraints do not appear in them. *)
Theorem get_result_array_results (m : model) (model_data : Dataset)
    (results after : Dataset) (k : string) :
  get_result_array m model_data = (Ok results, after) →
  match m !! k with
  | Some a =>
      if is_family a then
        ∃ family, family_of (ds_imasks model_data) k a = Some family
          ∧ dict_get (ds_data_vars results) k
            = Some (reorganise_array (family_array model_data m family a))
      else dict_get (ds_data_vars results) k = None
  | None => dict_get (ds_data_vars results) k = None
  end.
Proof.
  unfold get_result_array.
  destruct (all_variables m model_data) as [arrays|] eqn:Harrays; [|done].
  destruct (dict_get _ "timesteps"); [|done]. intros [= <- _]. cbn [ds_data_vars].
  destruct (all_variables_get m model_data arrays k Harrays) as [Hnd Hget].
  unfold reorganise_xarray_dimensions, xr_Dataset. cbn [ds_data_vars].
  rewrite dict_get_fmap, dict_update_keys, Hget by done.
  destruct (m !! k) as [a|] eqn:Hk; [|done]. cbn.
  destruct (is_family a) eqn:Hfam.
  - destruct (family_of (ds_imasks model_data) k a) as [family|] eqn:Hfamily.
    + by exists family.
    + destruct (all_variables_Err m model_data k a Hk Hfam Hfamily) as (? & ? & _ & _ & _ & Herr).
      congruence.
  - by destruct a.
Qed.

End Backend.

(** ** A small system: two technologies, two timesteps, two cost classes *)

Definition example_coords : list (string * list label) :=
  [("costs", [LStr "monetary"; LStr "co2"]);
   ("techs", [LStr "A"; LStr "B"]);
   ("timesteps", [LInt 0; LInt 1])].

(** The float [5.0]. *)
Definition float_5 : spec_float := S754_finite false 5 0.

(** [resource] over the technologies: unlimited for A, 5.0 for B. *)
Definition example_resource : DataArray :=
  {| da_dims := ["techs"];
     da_coords := [[LStr "A"; LStr "B"]];
     da_data := λ i, if decide (i = [LStr "B"]) then PyFloat float_5 else PyFloat float_inf;
     da_attrs := {["is_result" := PyInt 0]} |}.

Definition example_run_config : RunConfig :=
  {| rc_mode := Some "plan";
     rc_objective := Some "minmax_cost_optimization";
     rc_objective_options :=
       Some [("cost_class", ODict [("monetary", PyInt 1); ("co2", PyInt 0)]);
             ("sense", OVal (PyStr "minimize"))];
     rc_bigM := None |}.

Definition example_imask_config : ImaskConfig :=
  {| ic_variables := [("energy_cap", mkFamily ["techs"] (Some "NonNegativeReals") None);
                      ("carrier_prod",
                       mkFamily ["timesteps"; "techs"] (Some "NonNegativeReals") None)];
     ic_expressions := [("cost", mkFamily ["costs"; "techs"] None None)];
     ic_constraints := [("system_balance", mkFamily ["timesteps"] None None)] |}.

Definition example_data : Dataset :=
  {| ds_dims := ["costs"; "techs"; "timesteps"];
     ds_coords := example_coords;
     ds_data_vars := [("resource", example_resource)];
     ds_defaults := {["resource" := PyFloat float_zero]};
     ds_run_config := example_run_config;
     ds_imasks := example_imask_config |}.

(** The index masks: capacity for A only, production for A at both
    timesteps, costs for A in both classes, the balance at both timesteps. *)
Definition example_imasks : Imasks :=
  {| im_variables := [("energy_cap", [[LStr "A"]]);
                      ("carrier_prod", [[LStr "A"; LInt 0]; [LStr "A"; LInt 1]])];
     im_expressions := [("cost", [[LStr "monetary"; LStr "A"]; [LStr "co2"; LStr "A"]])];
     im_constraints := [("system_balance", [[LInt 0]; [LInt 1]])] |}.

(** Rule functions return expression objects; their text stands for them
    here.  The registry of the example has no rule for any family. *)
Definition example_rules : @Registry string string :=
  {| constraint_rules := ∅; expression_rules := ∅ |}.

(** What a fresh [ConcreteModel] brings along, as far as the example goes. *)
Definition example_concrete_model : gmap string (@attr string string) :=
  {["name" := ABuiltin "property"; "solutions" := ABuiltin "ModelSolutions"]}.

Definition example_get_domain (v : DataArray) : string := "Reals".

(** The domains of [pyomo.core] the example uses. *)
Definition example_po (name : string) : bool :=
  bool_decide (name ∈ ["Reals"; "NonNegativeReals"; "Integers"; "Binary"]).

Definition example_model : gmap string (@attr string string) :=
  build_sets example_data example_concrete_model.

(** The process as it starts: both streams on the console, nothing logged. *)
Definition example_world : world :=
  mkWorld (Console Stdout) (Console Stderr) [] [] [] [] None None [].

Definition example_results : Results :=
  {| res_problem := "Lower bound: -inf";
     res_solver := "Status: warning";
     res_termination := "infeasible" |}.

(** A solver that prints on both streams and returns [example_results]. *)
Definition example_solver (opt : Solver) (m : gmap string (@attr string string))
    (kwargs : gmap string pyval) : list (fd * string) * result Results :=
  ([(Stdout, "GLPSOL: GLPK LP/MIP Solver"); (Stderr, "PROBLEM HAS NO FEASIBLE SOLUTION")],
   Ok example_results).

Definition example_logwriter (strip : bool) (text : string) : option string := Some text.

Definition example_value (m : gmap string (@attr string string)) (t : string) : pyval := nan.

Definition example_build_imasks (d : Dataset) (c : ImaskConfig) : result Imasks :=
  Ok example_imasks.

Definition example_convert_datetime (dtype : string) (m : gmap string (@attr string string))
    (d : Dataset) : gmap string (@attr string string) * Dataset := (m, d).

Definition example_load_from (m : gmap string (@attr string string)) (r : Results)
    : result pyval := Ok PyNone.

Definition example_makedirs (dir : string) : option exn := None.

(** A data variable over the technologies holding [x] for A and [y] for B. *)
Definition techs_array (x y : pyval) : DataArray :=
  {| da_dims := ["techs"];
     da_coords := [[LStr "A"; LStr "B"]];
     da_data := λ i, if decide (i = [LStr "A"]) then x else y;
     da_attrs := {["is_result" := PyInt 0]} |}.

(** A dataset with a data variable called [name], as the model's own
    attribute is, and one called [calliope_name]. *)
Definition collision_data : Dataset :=
  {| ds_dims := ["techs"];
     ds_coords := [("techs", [LStr "A"; LStr "B"])];
     ds_data_vars := [("calliope_name", techs_array (PyInt 1) (PyInt 1));
                      ("name", techs_array (PyInt 2) (PyInt 2))];
     ds_defaults := ∅;
     ds_run_config := mkRunConfig (Some "plan") None (Some []) None;
     ds_imasks := mkImaskConfig [] [] [] |}.

(** The model of that dataset once its sets are built. *)
Definition collision_model : gmap string (@attr string string) :=
  build_sets collision_data example_concrete_model.

(** A data variable without dimensions holding [x]. *)
Definition scalar_array (x : pyval) : DataArray :=
  {| da_dims := []; da_coords := []; da_data := λ _, x;
     da_attrs := {["is_result" := PyInt 0]} |}.

(** The small system with a scalar data variable behind [resource]. *)
Definition scalar_data : Dataset :=
  {| ds_dims := ds_dims example_data;
     ds_coords := ds_coords example_data;
     ds_data_vars := [("resource", example_resource);
                      ("interest_rate", scalar_array (PyInt 1))];
     ds_defaults := ds_defaults example_data;
     ds_run_config := ds_run_config example_data;
     ds_imasks := ds_imasks example_data |}.

(** The float [3.0]. *)
Definition float_3 : spec_float := S754_finite false 3 0.

(** The model of the small system after a solve: capacity and production
    of A carry values, the costs have no rule and are zero. *)
Definition example_solved : gmap string (@attr string string) :=
  <["energy_cap" :=
      AVar (mkVar [[LStr "A"]] "NonNegativeReals" None {[ [LStr "A"] := PyFloat float_5 ]})]>
  (<["carrier_prod" :=
       AVar (mkVar [[LStr "A"; LInt 0]; [LStr "A"; LInt 1]] "NonNegativeReals" None
               {[ [LStr "A"; LInt 0] := PyFloat float_3;
                  [LStr "A"; LInt 1] := PyFloat float_5 ]})]>
   (build_expressions example_rules example_model (im_expressions example_imasks))).

Definition example_reorganise (a : DataArray) : DataArray := a.

(** A parameter built inside the backend: indexed, and not mutable. *)
Definition lookup_table : @Param :=
  {| p_index := [("techs", [LStr "A"; LStr "B"])];
     p_initialize := {[ [LStr "A"] := PyInt 1 ]};
     p_mutable := false;
     p_within := "Reals";
     p_default := None |}.

(** A solver that prints on both streams and then fails. *)
Definition failing_solver (opt : Solver) (m : gmap string (@attr string string))
    (kwargs : gmap string pyval) : list (fd * string) * result Results :=
  ([(Stdout, "GLPSOL: GLPK LP/MIP Solver"); (Stderr, "glpsol: not found")],
   Err (Raised "ApplicationError" "Solver (glpk) did not exit normally")).

(** A dataset over the technologies alone, so that the model has no set
    [costs], with a [cost_class] option. *)
Definition no_costs_data : Dataset :=
  {| ds_dims := ["techs"];
     ds_coords := [("techs", [LStr "A"; LStr "B"])];
     ds_data_vars := [("efficiency", techs_array (PyInt 1) (PyInt 1))];
     ds_defaults := ∅;
     ds_run_config :=
       mkRunConfig (Some "plan") None
                   (Some [("cost_class", ODict [("monetary", PyInt 1)])]) None;
     ds_imasks := mkImaskConfig [] [] [] |}.

Definition no_costs_model : gmap string (@attr string string) :=
  build_sets no_costs_data example_concrete_model.

Definition failing_makedirs (dir : string) : option exn :=
  Some (Raised "PermissionError" dir).

Definition optimal_results : Results :=
  {| res_problem := "Lower bound: 42"; res_solver := "Status: ok";
     res_termination := "optimal" |}.

Definition failing_load_from (m : gmap string (@attr string string)) (r : Results)
    : result pyval :=
  Err (Raised "ValueError" "Cannot load a SolverResults object with bad status: error").

(** The solved model with one more variable, which no family declares. *)
Definition example_undeclared : gmap string (@attr string string) :=
  <["purchased" := AVar (mkVar [[LStr "A"]] "Binary" None ∅)]> example_solved.

(** A system without time: one dimension, one variable family. *)
Definition static_data : Dataset :=
  {| ds_dims := ["techs"];
     ds_coords := [("techs", [LStr "A"; LStr "B"])];
     ds_data_vars := [];
     ds_defaults := ∅;
     ds_run_config := example_run_config;
     ds_imasks :=
       mkImaskConfig [("energy_cap", mkFamily ["techs"] (Some "NonNegativeReals") None)]
                     [] [] |}.

Definition static_solved : gmap string (@attr string string) :=
  {["energy_cap" :=
      AVar (mkVar [[LStr "A"]] "NonNegativeReals" None {[ [LStr "A"] := PyFloat float_5 ]});
    "lookup_table" := AParam lookup_table]}.

(** ** The claims on the small system *)

Lemma build_expressions_example :
  ∃ e, build_expressions example_rules example_model (im_expressions example_imasks) !! "cost"
       = Some (AExpression e)
    ∧ e_index e = [[LStr "monetary"; LStr "A"]; [LStr "co2"; LStr "A"]]
    ∧ ∀ i, i ∈ [[LStr "monetary"; LStr "A"]; [LStr "co2"; LStr "A"]] →
        e_data e !! i = Some (Const float_zero)
        ∧ component_values example_value
            (build_expressions example_rules example_model (im_expressions example_imasks))
            (AExpression e) !! i
          = Some (PyFloat float_zero).
Proof.
  apply (build_expressions_unregistered_is_zero example_rules example_value example_model
           (im_expressions example_imasks) "cost").
  - apply NoDup_singleton.
  - apply list_elem_of_here.
  - reflexivity.
Defined.

(** C2 as stated does not hold: the exception that stops [build_constraints]
    for the family [system_balance], which has no rule, is an
    [AttributeError], not a [ConfigurationError]. *)
Lemma unregistered_constraint_raises_AttributeError :
  ∃ e, build_constraints example_rules example_model (im_constraints example_imasks) = Err e
       ∧ exn_class e = "AttributeError"
       ∧ exn_class e ≠ "ConfigurationError".
Proof.
  exists (AttributeError "calliope.backend.pyomo.constraints" "system_balance_constraint_rule").
  split; [reflexivity|]. split; [reflexivity|]. discriminate.
Defined.

Lemma build_constraints_example :
  (∀ m, build_constraints example_rules m (im_constraints example_imasks)
        = Err (AttributeError "calliope.backend.pyomo.constraints"
                              "system_balance_constraint_rule"))
  ∧ generate_model example_rules ∅ example_get_domain example_po example_build_imasks
      example_convert_datetime example_concrete_model example_data
    = (Err (AttributeError "calliope.backend.pyomo.constraints"
                           "system_balance_constraint_rule"),
       example_data).
Proof.
  destruct (build_constraints_unregistered_raises example_rules ∅ example_get_domain
              example_po example_build_imasks example_convert_datetime
              example_concrete_model example_data example_imasks "system_balance")
    as (before & first & imask & after & Hsplit & _ & _ & Hstop & Hmodel).
  - apply list_elem_of_here.
  - reflexivity.
  - assert (first = "system_balance") as ->.
    { destruct before as [|x [|y before]]; cbn in Hsplit.
      - by injection Hsplit as <- _ _.
      - discriminate Hsplit.
      - discriminate Hsplit. }
    split; [exact Hstop|].
    destruct (Hmodel eq_refl) as [_ Hraised].
    apply (Hraised
             (match build_params example_get_domain example_po example_data example_model with
              | Ok m2 => m2
              | Err _ => ∅
              end)
             (match build_variables example_po
                      (match build_params example_get_domain example_po example_data
                               example_model with
                       | Ok m2 => m2
                       | Err _ => ∅
                       end)
                      (ic_variables example_imask_config) (im_variables example_imasks) with
              | Ok m3 => m3
              | Err _ => ∅
              end)).
    + reflexivity.
    + reflexivity.
Defined.

Lemma load_results_infeasible :
  (load_results example_load_from example_model example_results example_world).1
  = Ok "infeasible"
  ∧ logged (load_results example_load_from example_model example_results example_world).2
    = [(CRITICAL, "Problem status:"); (CRITICAL, "Lower bound: -inf");
       (CRITICAL, "Solver status:"); (CRITICAL, "Status: warning")]
  ∧ Forall (λ entry, entry.1 = CRITICAL) (critical_report example_results)
  ∧ warned (load_results example_load_from example_model example_results example_world).2
    = [].
Proof.
  apply (load_results_not_optimal example_load_from example_model example_results
           example_world PyNone).
  - reflexivity.
  - right. discriminate.
Defined.

Lemma solve_model_glpk_warmstart :
  let out := solve_model example_logwriter example_solver example_makedirs example_model
               "glpk" None None None {["warmstart" := PyBool true]} example_world in
  ∃ call,
    warned out.2 = [warmstart_message "glpk"]
    ∧ solve_calls out.2 = [call]
    ∧ s_name (call_opt call) = "glpk"
    ∧ call_kwargs call = <["tee" := PyBool true]> (delete "warmstart" {["warmstart" := PyBool true]})
    ∧ call_kwargs call !! "warmstart" = None
    ∧ out.1 = (example_solver (call_opt call) example_model (call_kwargs call)).2.
Proof.
  refine (solve_model_drops_warmstart example_logwriter example_solver example_makedirs
            example_model "glpk" None None None {["warmstart" := PyBool true]} example_world
            _ _ _ _).
  - exists (PyBool true). reflexivity.
  - apply list_elem_of_here.
  - reflexivity.
  - exact I.
Defined.

Lemma cost_class_both_kept :
  ∃ m' p, build_params example_get_domain example_po example_data example_model = Ok m'
    ∧ m' !! "objective_cost_class" = Some (AParam p)
    ∧ p_index p = [("costs", [LStr "monetary"; LStr "co2"])]
    ∧ p_initialize p !! [LStr "monetary"] = Some (PyInt 1)
    ∧ p_initialize p !! [LStr "co2"] = Some (PyInt 0).
Proof.
  destruct (build_params_keeps_cost_classes example_get_domain example_po example_data
              example_model
              (match declare_params example_get_domain example_po example_data
                       (store_config example_data example_model) with
               | Ok m1 => m1
               | Err _ => ∅
               end)
              [LStr "monetary"; LStr "co2"]
              [("cost_class", ODict [("monetary", PyInt 1); ("co2", PyInt 0)]);
               ("sense", OVal (PyStr "minimize"))]
              [("monetary", PyInt 1); ("co2", PyInt 0)])
    as (m' & p & Hbuilt & Hparam & Hindex & _ & _ & Hkept & _).
  - reflexivity.
  - reflexivity.
  - apply (bool_decide_unpack _). exact I.
  - apply list_elem_of_here.
  - apply (bool_decide_unpack _). exact I.
  - reflexivity.
  - exists m', p. split; [exact Hbuilt|]. split; [exact Hparam|]. split; [exact Hindex|].
    split.
    + apply (Hkept "monetary" (PyInt 1)); [reflexivity|]. apply list_elem_of_here.
    + apply (Hkept "co2" (PyInt 0)); [reflexivity|].
      apply list_elem_of_further, list_elem_of_here.
Defined.

Lemma declare_param_name_collision :
  ∃ m', declare_param example_get_domain example_po ∅ example_run_config collision_model
          "name" (techs_array (PyInt 2) (PyInt 2)) = Ok m'
    ∧ m' !! "calliope_name"
      = Some (AParam (param_of ∅ "name" (cells (techs_array (PyInt 2) (PyInt 2))) "Reals"
                        [("techs", [LStr "A"; LStr "B"])]))
    ∧ m' !! "name" = Some (ABuiltin "property")
    ∧ ∀ n, n ≠ "calliope_name" → n ≠ "calliope_name_index" →
           m' !! n = collision_model !! n.
Proof.
  apply (declare_param_collision_renames example_get_domain example_po ∅ example_run_config
           collision_model "name" (techs_array (PyInt 2) (PyInt 2)) (ABuiltin "property")
           [("techs", [LStr "A"; LStr "B"])]).
  - reflexivity.
  - reflexivity.
  - reflexivity.
  - discriminate.
  - reflexivity.
  - reflexivity.
Defined.

(** C6 as stated does not hold: the renamed parameter can overwrite.  The
    first turn of the loop stores the parameter of [calliope_name] under
    that name; the second finds [name] taken, renames its parameter to
    [calliope_name] and replaces the first, of which nothing is left when
    [build_params] returns. *)
Lemma renamed_parameter_overwrites :
  ∃ m1 m2 m' p1 p2,
    declare_param example_get_domain example_po ∅ (ds_run_config collision_data)
      (store_config collision_data collision_model)
      "calliope_name" (techs_array (PyInt 1) (PyInt 1)) = Ok m1
    ∧ m1 !! "calliope_name" = Some (AParam p1)
    ∧ p_initialize p1 !! [LStr "A"] = Some (PyInt 1)
    ∧ hasattr m1 "name" = true
    ∧ declare_param example_get_domain example_po ∅ (ds_run_config collision_data) m1
        "name" (techs_array (PyInt 2) (PyInt 2)) = Ok m2
    ∧ m2 !! "calliope_name" = Some (AParam p2)
    ∧ p_initialize p2 !! [LStr "A"] = Some (PyInt 2)
    ∧ build_params example_get_domain example_po collision_data collision_model = Ok m'
    ∧ m' !! "calliope_name" = Some (AParam p2)
    ∧ m' !! "calliope_calliope_name" = None.
Proof.
  eexists _, _, _, _, _.
  split; [reflexivity|]. split; [reflexivity|]. split; [reflexivity|].
  split; [reflexivity|]. split; [reflexivity|]. split; [reflexivity|].
  split; [reflexivity|]. split; [reflexivity|]. split; reflexivity.
Defined.


(** C8 as stated does not hold: a parameter that is not mutable is merged
    into the dataset all the same. *)
Lemma immutable_parameter_is_merged :
  let m := <["lookup_table" := AParam lookup_table]> example_solved in
  m !! "lookup_table" = Some (AParam lookup_table)
  ∧ p_mutable lookup_table = false
  ∧ dict_get (ds_data_vars example_data) "lookup_table" = None
  ∧ da_dims <$> dict_get (ds_data_vars
                 (get_result_array example_value id example_reorganise m example_data).2)
              "lookup_table"
    = Some ["techs"].
Proof.
  split; [reflexivity|]. split; [reflexivity|]. split; reflexivity.
Defined.

Lemma merge_keeps_dataset_shape :
  let m := <["lookup_table" := AParam lookup_table]> example_solved in
  let after := (get_result_array example_value id example_reorganise m example_data).2 in
  dict_get (ds_data_vars after) "resource" = Some example_resource
  ∧ ds_defaults after = ds_defaults example_data
  ∧ ds_run_config after = ds_run_config example_data
  ∧ ds_imasks after = ds_imasks example_data
  ∧ dict_get (ds_coords after) "techs" = Some [LStr "A"; LStr "B"]
  ∧ filter (λ d, d ∈ ds_dims example_data) (ds_dims after) = ds_dims example_data
  ∧ filter (λ c, c.1 ∈ (ds_coords example_data).*1) (ds_coords after)
    = ds_coords example_data.
Proof.
  intros m after.
  destruct (get_result_array_adds_params example_value id example_reorganise m example_data)
    as (Hkept & _ & _ & Hdefaults & Hconfig & Himasks & Hcoords & Hdims & Hlabels & _).
  split; [exact (Hkept "resource" example_resource eq_refl)|].
  split; [exact Hdefaults|]. split; [exact Hconfig|]. split; [exact Himasks|].
  split; [exact (Hcoords "techs" [LStr "A"; LStr "B"] eq_refl)|].
  split; [exact Hdims|exact Hlabels].
Defined.

Lemma resource_infinite_dropped :
  ∃ p, declare_param example_get_domain example_po (ds_defaults example_data)
         example_run_config example_model "resource" example_resource
       = Ok (setattr example_model "resource" (AParam p))
    ∧ p_default p = Some (PyFloat float_zero)
    ∧ da_data example_resource [LStr "A"] = PyFloat float_inf
    ∧ p_initialize p !! [LStr "A"] = None
    ∧ param_value p [LStr "A"] = Ok (PyFloat float_zero)
    ∧ p_initialize p !! [LStr "B"] = Some (PyFloat float_5).
Proof.
  destruct (build_params_infinite_as_missing example_get_domain example_po
              (ds_defaults example_data) example_run_config example_model
              (match declare_param example_get_domain example_po (ds_defaults example_data)
                       example_run_config example_model "resource" example_resource with
               | Ok m' => m'
               | Err _ => ∅
               end)
              "resource" example_resource (PyFloat float_zero))
    as (p & Hdeclared & Hdefault & Hinfinite & _ & Hkept).
  - reflexivity.
  - reflexivity.
  - reflexivity.
  - reflexivity.
  - exists p. split; [exact (f_equal Ok Hdeclared)|]. split; [exact Hdefault|].
    split; [reflexivity|].
    destruct (Hinfinite [LStr "A"]) as [Hnone Hlookup]; [left; reflexivity|].
    destruct (Hkept [LStr "B"]) as [Hsome _];
      [apply list_elem_of_further, list_elem_of_here | reflexivity |].
    split; [exact Hnone|]. split; [exact Hlookup|]. exact Hsome.
Defined.

(** C10 as stated does not hold: the fallback can be infinity.  With an
    infinite default for [resource], the infinite cell of A is dropped from
    the initialisation data as before, and the lookup at A answers with
    the default, which is infinity. *)
Lemma infinite_default_returns_infinity :
  ∃ p, declare_param example_get_domain example_po {["resource" := PyFloat float_inf]}
         example_run_config example_model "resource" example_resource
       = Ok (setattr example_model "resource" (AParam p))
    ∧ da_data example_resource [LStr "A"] = PyFloat float_inf
    ∧ p_initialize p !! [LStr "A"] = None
    ∧ p_default p = Some (PyFloat float_inf)
    ∧ param_value p [LStr "A"] = Ok (PyFloat float_inf).
Proof.
  eexists. split; [reflexivity|]. split; [reflexivity|]. split; [reflexivity|].
  split; reflexivity.
Defined.

Lemma solver_exception_restores_streams :
  let out := solve_model example_logwriter failing_solver example_makedirs example_model
               "glpk" None None None ∅ example_world in
  out.1 = Err (Raised "ApplicationError" "Solver (glpk) did not exit normally")
  ∧ sys_stdout out.2 = Console Stdout
  ∧ sys_stderr out.2 = Console Stderr
  ∧ console_out out.2 = []
  ∧ console_err out.2 = []
  ∧ logged out.2 = [(DEBUG, "GLPSOL: GLPK LP/MIP Solver"); (ERROR, "glpsol: not found")]
  ∧ Forall (λ c, call_stdout c = LogWriter DEBUG true ∧ call_stderr c = LogWriter ERROR true)
           (solve_calls out.2).
Proof.
  destruct (solve_model_restores_streams example_logwriter failing_solver example_makedirs
              example_model "glpk" None None None ∅ example_world)
    as (Hout & Herr & Hcout & Hcerr & calls & (Hcalls & Hall & _) & _).
  split; [reflexivity|]. split; [exact Hout|]. split; [exact Herr|].
  split; [exact Hcout|]. split; [exact Hcerr|]. split; [reflexivity|].
  cbv zeta. rewrite Hcalls. exact Hall.
Defined.

(** ** Further properties on the small system *)

Lemma build_sets_example :
  (∀ name labels, (name, labels) ∈ ds_coords example_data →
                  build_sets example_data example_concrete_model !! name = Some (ASet labels))
  ∧ (∀ n, n ∉ (ds_coords example_data).*1 →
          build_sets example_data example_concrete_model !! n = example_concrete_model !! n).
Proof.
  apply (build_sets_declares_coords example_data example_concrete_model).
  - apply (bool_decide_unpack _). exact I.
  - apply (bool_decide_unpack _). exact I.
Defined.

Lemma build_variables_example :
  ∃ m', build_variables example_po example_model (ic_variables example_imask_config)
          (im_variables example_imasks) = Ok m'
    ∧ m' !! "energy_cap" = Some (AVar (mkVar [[LStr "A"]] "NonNegativeReals" None ∅))
    ∧ m' !! "carrier_prod"
      = Some (AVar (mkVar [[LStr "A"; LInt 0]; [LStr "A"; LInt 1]] "NonNegativeReals"
                      None ∅))
    ∧ m' !! "techs" = example_model !! "techs".
Proof.
  destruct (build_variables_declares example_po example_model
              (match build_variables example_po example_model
                       (ic_variables example_imask_config)
                       (im_variables example_imasks) with
               | Ok m' => m'
               | Err _ => ∅
               end)
              (ic_variables example_imask_config) (im_variables example_imasks))
    as [Hdeclared Hother].
  - apply (bool_decide_unpack _). exact I.
  - reflexivity.
  - eexists. split; [reflexivity|]. split; [|split].
    + destruct (Hdeclared "energy_cap" [[LStr "A"]]) as (config & domain & Hc & Hd & _ & Hv).
      { apply list_elem_of_here. }
      injection Hc as <-. injection Hd as <-. exact Hv.
    + destruct (Hdeclared "carrier_prod" [[LStr "A"; LInt 0]; [LStr "A"; LInt 1]])
        as (config & domain & Hc & Hd & _ & Hv).
      { apply list_elem_of_further, list_elem_of_here. }
      injection Hc as <-. injection Hd as <-. exact Hv.
    + apply Hother.
      * apply (bool_decide_unpack _). exact I.
      * apply (proj1 (Forall_forall _ _)). apply (bool_decide_unpack _). exact I.
Defined.

Lemma build_variables_without_config :
  let configs :=
    [("energy_cap", mkFamily ["techs"] (Some "NonNegativeReals") None);
     ("storage", mkFamily ["techs"] (Some "PositiveReals") None)] in
  build_variables example_po example_model configs
    ([("energy_cap", [[LStr "A"]])] ++ ("carrier_prod", [[LStr "A"; LInt 0]]) :: [])
  = Err (KeyError "carrier_prod")
  ∧ build_variables example_po example_model configs
      ([("energy_cap", [[LStr "A"]])] ++ ("storage", [[LStr "A"]]) :: [])
    = Err (AttributeError "pyomo.core" "PositiveReals").
Proof.
  intros configs.
  assert (attachable example_model [("energy_cap", [[LStr "A"]])].*1) as Hnames.
  { split; apply (bool_decide_unpack _); exact I. }
  split.
  - destruct (build_variables_missing_config example_po example_model
                (setattr example_model "energy_cap"
                   (AVar (mkVar [[LStr "A"]] "NonNegativeReals" None ∅)))
                configs [("energy_cap", [[LStr "A"]])] [] "carrier_prod"
                [[LStr "A"; LInt 0]] Hnames eq_refl) as (Hconfig & _ & _).
    exact (Hconfig eq_refl).
  - destruct (build_variables_missing_config example_po example_model
                (setattr example_model "energy_cap"
                   (AVar (mkVar [[LStr "A"]] "NonNegativeReals" None ∅)))
                configs [("energy_cap", [[LStr "A"]])] [] "storage"
                [[LStr "A"]] Hnames eq_refl) as (_ & _ & Hdomain).
    exact (Hdomain (mkFamily ["techs"] (Some "PositiveReals") None) "PositiveReals"
             eq_refl eq_refl eq_refl).
Defined.

Lemma resource_declared_under_its_name :
  ∃ m' p, build_params example_get_domain example_po example_data example_model = Ok m'
    ∧ m' !! "resource" = Some (AParam p)
    ∧ p_mutable p = true
    ∧ p_initialize p = to_dict (dropna true (cells example_resource))
    ∧ (p_index p).*1 = ["techs"].
Proof.
  destruct (build_params_declares_inputs example_get_domain example_po example_data
              example_model
              (match build_params example_get_domain example_po example_data
                       example_model with
               | Ok m' => m'
               | Err _ => ∅
               end) "resource" example_resource)
    as (p & series & Hp & Hmutable & Hseries & Hinit & Hindex).
  - reflexivity.
  - apply NoDup_singleton.
  - apply list_elem_of_here.
  - reflexivity.
  - discriminate.
  - intros k' Heq. discriminate Heq.
  - intros o Heq. discriminate Heq.
  - injection Hseries as <-.
    eexists _, p. split; [reflexivity|]. split; [exact Hp|]. split; [exact Hmutable|].
    split; [exact Hinit|exact Hindex].
Defined.

Lemma techs_set_kept :
  ∃ m', build_params example_get_domain example_po example_data example_model = Ok m'
        ∧ m' !! "techs" = Some (ASet [LStr "A"; LStr "B"]).
Proof.
  eexists. split; [reflexivity|].
  apply (build_params_keeps_attributes example_get_domain example_po example_data
           example_model _ "techs" (ASet [LStr "A"; LStr "B"])).
  - reflexivity.
  - reflexivity.
  - apply (bool_decide_unpack _). exact I.
  - intros k Heq. discriminate Heq.
  - intros o Heq. discriminate Heq.
Defined.

Lemma objective_sense_stored :
  ∃ m', build_params example_get_domain example_po example_data example_model = Ok m'
        ∧ m' !! ("objective_" +:+ "sense") = Some (AOption (OVal (PyStr "minimize"))).
Proof.
  eexists. split; [reflexivity|].
  apply (build_params_stores_objective_options example_get_domain example_po example_data
           example_model _
           [("cost_class", ODict [("monetary", PyInt 1); ("co2", PyInt 0)]);
            ("sense", OVal (PyStr "minimize"))] "sense" (OVal (PyStr "minimize"))).
  - reflexivity.
  - reflexivity.
  - apply (bool_decide_unpack _). exact I.
  - apply list_elem_of_further, list_elem_of_here.
  - discriminate.
Defined.

Lemma cost_class_without_costs_set :
  build_params example_get_domain example_po no_costs_data no_costs_model
  = Err (AttributeError "ConcreteModel" "costs").
Proof.
  apply (build_params_cost_class_needs_costs example_get_domain example_po no_costs_data
           no_costs_model
           (match declare_params example_get_domain example_po no_costs_data
                    (store_config no_costs_data no_costs_model) with
            | Ok m1 => m1
            | Err _ => ∅
            end)
           [("cost_class", ODict [("monetary", PyInt 1)])] [("monetary", PyInt 1)]).
  - reflexivity.
  - reflexivity.
  - apply NoDup_singleton.
  - apply list_elem_of_here.
  - reflexivity.
  - apply (bool_decide_unpack _). exact I.
Defined.

Lemma scalar_input_raises_ValueError :
  build_params example_get_domain example_po scalar_data example_model
  = Err (Raised "ValueError" "no valid index for a 0-dimensional object").
Proof.
  destruct (build_params_undeclarable_input example_get_domain example_po scalar_data
              example_model
              (match declare_param example_get_domain example_po (ds_defaults scalar_data)
                       (ds_run_config scalar_data)
                       (store_config scalar_data example_model)
                       "resource" example_resource with
               | Ok m0 => m0
               | Err _ => ∅
               end)
              [("resource", example_resource)] [] "interest_rate" (scalar_array (PyInt 1)))
    as (Hscalar & _ & _).
  - reflexivity.
  - reflexivity.
  - reflexivity.
  - apply Hscalar. reflexivity.
Defined.

Lemma gurobi_keeps_warmstart :
  let out := solve_model example_logwriter example_solver example_makedirs example_model
               "gurobi" None None None {["warmstart" := PyBool true]} example_world in
  warned out.2 = warned example_world
  ∧ ∃ call, solve_calls out.2 = solve_calls example_world ++ [call]
      ∧ call_kwargs call
        = <["tee" := PyBool true]> (with_log_flags None {["warmstart" := PyBool true]})
      ∧ call_kwargs call !! "warmstart"
        = ({["warmstart" := PyBool true]} : gmap string pyval) !! "warmstart"
      ∧ out.1 = (example_solver (call_opt call) example_model (call_kwargs call)).2.
Proof.
  refine (solve_model_keeps_warmstart example_logwriter example_solver example_makedirs
            example_model "gurobi" None None None {["warmstart" := PyBool true]}
            example_world _ _ _).
  - right. apply (bool_decide_unpack _). exact I.
  - reflexivity.
  - exact I.
Defined.

Lemma makedirs_failure_stops_solve :
  solve_model example_logwriter example_solver failing_makedirs example_model
    "glpk" None None (Some "/logs") ∅ example_world
  = (Err (Raised "PermissionError" "/logs"), example_world).
Proof.
  apply (solve_model_makedirs_fails example_logwriter example_solver failing_makedirs
           example_model "glpk" None None "/logs" ∅ example_world
           (Raised "PermissionError" "/logs")).
  - discriminate.
  - reflexivity.
Defined.

Lemma save_logs_keeps_files :
  let out := solve_model example_logwriter example_solver example_makedirs example_model
               "glpk" None None (Some "logs") ∅ example_world in
  tempdir out.2 = Some "logs"
  ∧ ∃ call, solve_calls out.2 = solve_calls example_world ++ [call]
      ∧ call_kwargs call !! "symbolic_solver_labels" = Some (PyBool true)
      ∧ call_kwargs call !! "keepfiles" = Some (PyBool true)
      ∧ out.1 = (example_solver (call_opt call) example_model (call_kwargs call)).2.
Proof.
  refine (solve_model_save_logs example_logwriter example_solver example_makedirs
            example_model "glpk" None None "logs" ∅ example_world _ _ _).
  - discriminate.
  - reflexivity.
  - reflexivity.
Defined.

Lemma solver_options_reach_solver :
  let options := [("mipgap", PyInt 0); ("threads", PyInt 4)] in
  let out := solve_model example_logwriter example_solver example_makedirs example_model
               "cbc" (Some "lp") (Some options) None ∅ example_world in
  ∃ call, solve_calls out.2 = solve_calls example_world ++ [call]
    ∧ s_name (call_opt call) = "cbc"
    ∧ s_io (call_opt call) = Some "lp"
    ∧ ∀ k, s_options (call_opt call) !! k = dict_get (default [] (Some options)) k.
Proof.
  refine (solve_model_passes_solver_options example_logwriter example_solver
            example_makedirs example_model "cbc" (Some "lp")
            (Some [("mipgap", PyInt 0); ("threads", PyInt 4)]) None ∅ example_world _ _ _).
  - apply (bool_decide_unpack _). exact I.
  - reflexivity.
  - exact I.
Defined.

Lemma tee_keyword_is_refused :
  let out := solve_model example_logwriter example_solver example_makedirs example_model
               "glpk" None None None {["tee" := PyBool false]} example_world in
  (∃ e, out.1 = Err e ∧ exn_class e = "TypeError")
  ∧ solve_calls out.2 = solve_calls example_world
  ∧ logged out.2 = logged example_world
  ∧ sys_stdout out.2 = sys_stdout example_world
  ∧ sys_stderr out.2 = sys_stderr example_world.
Proof.
  refine (solve_model_refuses_tee example_logwriter example_solver example_makedirs
            example_model "glpk" None None None {["tee" := PyBool false]} example_world _ _).
  - exists (PyBool false). reflexivity.
  - exact I.
Defined.

Lemma load_results_optimal_example :
  load_results example_load_from example_model optimal_results example_world
  = (Ok "optimal", example_world).
Proof.
  apply (load_results_optimal_is_silent example_load_from example_model optimal_results
           example_world PyNone).
  - reflexivity.
  - discriminate.
  - reflexivity.
Defined.

Lemma load_results_bad_status :
  load_results failing_load_from example_model example_results example_world
  = (Err (Raised "ValueError"
            "Cannot load a SolverResults object with bad status: error"),
     example_world).
Proof.
  apply (load_results_load_raises failing_load_from example_model example_results
           example_world).
  reflexivity.
Defined.

Lemma undeclared_variable_raises :
  ∃ k' a', example_undeclared !! k' = Some a'
    ∧ is_family a' = true
    ∧ family_of (ds_imasks example_data) k' a' = None
    ∧ get_result_array example_value id example_reorganise example_undeclared example_data
      = (Err (KeyError k'), example_data).
Proof.
  apply (get_result_array_missing_family example_value id example_reorganise
           example_undeclared example_data "purchased"
           (AVar (mkVar [[LStr "A"]] "Binary" None ∅))).
  - reflexivity.
  - reflexivity.
  - reflexivity.
Defined.

Lemma static_system_has_no_timesteps :
  get_result_array example_value id example_reorganise static_solved static_data
  = (Err (AttributeError "Dataset" "timesteps"),
     merge_params example_value example_reorganise static_solved static_data).
Proof.
  apply (get_result_array_without_timesteps example_value id example_reorganise
           static_solved static_data).
  - apply (bool_decide_unpack (map_Forall
             (λ k a, is_family a = true → is_Some (family_of (ds_imasks static_data) k a))
             static_solved)).
    exact I.
  - apply (bool_decide_unpack _). exact I.
Defined.

Lemma dim_order_ignores_foreach_order :
  _get_dim_order example_data ["timesteps"; "techs"]
  = _get_dim_order example_data ["techs"; "timesteps"; "techs"]
  ∧ _get_dim_order example_data ["timesteps"; "techs"] `sublist_of` ds_dims example_data
  ∧ ∀ i, i ∈ _get_dim_order example_data ["timesteps"; "techs"]
         ↔ i ∈ ds_dims example_data ∧ i ∈ ["timesteps"; "techs"].
Proof.
  apply (get_dim_order_canonical example_data ["timesteps"; "techs"]
           ["techs"; "timesteps"; "techs"]).
  intros i. rewrite !elem_of_cons, !elem_of_nil. tauto.
Defined.

Lemma merged_lookup_table_is_input :
  let m := <["lookup_table" := AParam lookup_table]> example_solved in
  ∃ array,
    dict_get (ds_data_vars
                (get_result_array example_value id example_reorganise m example_data).2)
             "lookup_table" = Some array
    ∧ da_attrs array !! "is_result" = Some (PyInt 0)
    ∧ is_input example_run_config array = Ok true.
Proof.
  intros m. eexists. split; [reflexivity|].
  apply (merged_parameters_are_inputs example_value id example_reorganise m example_data
           "lookup_table" _ example_run_config).
  - reflexivity.
  - reflexivity.
Defined.

Lemma carrier_prod_in_results :
  let carrier_prod : @attr string string :=
    AVar (mkVar [[LStr "A"; LInt 0]; [LStr "A"; LInt 1]] "NonNegativeReals" None
            {[ [LStr "A"; LInt 0] := PyFloat float_3;
               [LStr "A"; LInt 1] := PyFloat float_5 ]}) in
  ∃ results after,
    get_result_array example_value id example_reorganise example_solved example_data
    = (Ok results, after)
    ∧ ∃ family,
        family_of (ds_imasks example_data) "carrier_prod" carrier_prod = Some family
        ∧ dict_get (ds_data_vars results) "carrier_prod"
          = Some (example_reorganise
                    (family_array example_value example_data example_solved family
                       carrier_prod)).
Proof.
  intros carrier_prod.
  assert (get_result_array example_value id example_reorganise example_solved example_data
          = (Ok (match (get_result_array example_value id example_reorganise example_solved
                          example_data).1 with
                 | Ok r => r
                 | Err _ => example_data
                 end),
             (get_result_array example_value id example_reorganise example_solved
                example_data).2)) as Hrun by reflexivity.
  eexists _, _. split; [exact Hrun|].
  exact (get_result_array_results example_value id example_reorganise example_solved
           example_data _ _ "carrier_prod" Hrun).
Defined.
